(** * Snowpipe streaming client: channel sequencing, retries and request ids

    A shallow embedding of [SnowflakeServiceClient] and
    [SnowflakeIngestionChannel] (package [streaming]) together with the
    properties of their sequencing and retry logic.

    Layout:
    - machine integers, errors and the [backoff.Retry] loop;
    - the collaborators of the package (encoder, crypto, clock) as a class;
    - wire records, as the struct literals of the source build them;
    - the state: one channel, the atomics shared through the client, and the
      log of requests that left the process;
    - the operations, in a state-and-error monad;
    - the theorems. *)

From Stdlib Require Import ZArith Lia Ascii String.
From stdpp Require Import base option list strings gmap pretty.

Local Open Scope string_scope.
Local Open Scope list_scope.
Local Open Scope Z_scope.

(** ** Machine integers *)

(** Go's fixed-width signed integers, as mathematical integers reduced to the
    two's complement range of [w] bits. *)
Definition wrap (w : Z) (z : Z) : Z :=
  (z + 2 ^ (w - 1)) mod 2 ^ w - 2 ^ (w - 1).

Definition int32 (z : Z) : Z := wrap 32 z.
Definition int64 (z : Z) : Z := wrap 64 z.

Definition in_int16 (z : Z) : Prop := - 2 ^ 15 <= z < 2 ^ 15.
Definition in_int32 (z : Z) : Prop := - 2 ^ 31 <= z < 2 ^ 31.
Definition in_int64 (z : Z) : Prop := - 2 ^ 63 <= z < 2 ^ 63.

Definition bytes : Type := list Byte.byte.

(** [len(b)] of a byte slice, as a Go [int]. *)
Definition len {A} (l : list A) : Z := Z.of_nat (length l).

(** ** Errors *)

(** The error values the package builds: a plain message ([fmt.Errorf]
    without [%w], or an error of a collaborator), a message wrapping another
    error ([fmt.Errorf] with [%w]) and [backoff.Permanent]. *)
Inductive error : Type :=
| ErrMsg (msg : string)
| ErrWrap (msg : string) (inner : error)
| ErrPermanent (inner : error).

(** [errors.As(err, &permanent)] followed by [permanent.Err]. *)
Fixpoint as_permanent (e : error) : option error :=
  match e with
  | ErrMsg _ => None
  | ErrWrap _ inner => as_permanent inner
  | ErrPermanent inner => Some inner
  end.

(** [fmt.Sprintf("%d", z)]. *)
Definition fmt_d (z : Z) : string := pretty z.

(** [fmt.Sprintf("%s_%d", prefix, rid)]. *)
Definition fmt_request_id (prefix : string) (rid : Z) : string :=
  prefix +:+ "_" +:+ fmt_d rid.

(** ** Collaborators *)

(** Everything the two types call that lives in other files of the package
    or in libraries: the parquet encoder, the crypto helpers, the blob path
    generator, the clock type.  Fallible collaborators return an error
    next to their value, as in Go. *)
Class Collaborators : Type := {
  Batch : Type;
  Schema : Type;
  Rows : Type;
  Transformers : Type;
  ParquetMetadata : Type;
  ColumnEpInfo : Type;
  TableColumns : Type;
  StageLocation : Type;
  Uploader : Type;
  time_Time : Type;
  (** the status code of a successful response *)
  responseSuccess : Z;
  constructParquetSchema :
    TableColumns -> (Schema * Transformers * gmap string string) + error;
  constructRowGroup : Batch -> Schema -> Transformers -> Rows + error;
  (** [writeParquetFile(buf, version, data)]: the bytes left in the buffer
      and the error *)
  writeParquetFile :
    string -> Schema -> Rows -> gmap string string -> bytes * option error;
  readParquetMetadata : bytes -> ParquetMetadata + error;
  NumRows : ParquetMetadata -> Z;
  totalUncompressedSize : ParquetMetadata -> Z;
  padBuffer : bytes -> Z -> bytes;
  encrypt : bytes -> string -> string -> Z -> bytes + error;
  md5_Sum : bytes -> bytes;
  md5Hash : bytes -> string;
  hex_EncodeToString : bytes -> string;
  computeColumnEpInfo : Transformers -> ColumnEpInfo;
  generateBlobPath : string -> Z -> Z -> string;
  path_Base : string -> string;
  (** the nil interface value, the [uploader] field of
      [stageUploaderResult{err: err}] *)
  Uploader_nil : Uploader;
  newUploader : StageLocation -> Uploader * option error;
  UnixMilli : time_Time -> Z;
  Sub : time_Time -> time_Time -> Z;
}.

(** [aes.BlockSize] *)
Definition aes_BlockSize : Z := 16.

Section Streaming.
Context `{Collaborators}.

(** ** Wire records

    The request records carry the fields the struct literals of the source
    set; the response records carry the fields the source reads. *)

Record openChannelRequest := {
  ocr_RequestID : string;
  ocr_Role : string;
  ocr_Channel : string;
  ocr_Database : string;
  ocr_Schema : string;
  ocr_Table : string;
  ocr_WriteMode : string;
}.

Record openChannelResponse := {
  ocs_StatusCode : Z;
  ocs_Message : string;
  ocs_TableColumns : TableColumns;
  ocs_EncryptionKeyID : Z;
  ocs_EncryptionKey : string;
  ocs_ClientSequencer : Z;
  ocs_RowSequencer : Z;
}.

Record dropChannelRequest := {
  dcr_RequestID : string;
  dcr_Role : string;
  dcr_Channel : string;
  dcr_Table : string;
  dcr_Database : string;
  dcr_Schema : string;
}.

Record dropChannelResponse := {
  dcs_StatusCode : Z;
  dcs_Message : string;
}.

Record channelStatusRequest := {
  csr_Name : string;
  csr_Table : string;
  csr_Database : string;
  csr_Schema : string;
  (** [*int64]: left nil by [ChannelStatus], set by [WaitUntilCommitted] *)
  csr_ClientSequencer : option Z;
}.

Record batchChannelStatusRequest := {
  bcr_Role : string;
  bcr_Channels : list channelStatusRequest;
}.

Record channelStatusResponse := {
  css_StatusCode : Z;
  css_PersistedOffsetToken : string;
  css_PersistedClientSequencer : Z;
  css_PersistedRowSequencer : Z;
}.

Record batchChannelStatusResponse := {
  bcs_StatusCode : Z;
  bcs_Message : string;
  bcs_Channels : list channelStatusResponse;
}.

Record channelMetadata := {
  cm_Channel : string;
  cm_ClientSequencer : Z;
  cm_RowSequencer : Z;
  cm_StartOffsetToken : option string;
  cm_EndOffsetToken : option string;
  cm_OffsetToken : option string;
}.

Record epInfo := {
  ep_Rows : Z;
  ep_Columns : ColumnEpInfo;
}.

Record chunkMetadata := {
  chk_Database : string;
  chk_Schema : string;
  chk_Table : string;
  chk_ChunkStartOffset : Z;
  chk_ChunkLength : Z;
  chk_ChunkLengthUncompressed : Z;
  chk_ChunkMD5 : string;
  chk_EncryptionKeyID : Z;
  chk_FirstInsertTimeInMillis : Z;
  chk_LastInsertTimeInMillis : Z;
  chk_EPS : epInfo;
  chk_Channels : list channelMetadata;
}.

Record blobStats := {
  bs_FlushStartMs : Z;
  bs_BuildDurationMs : Z;
  bs_UploadDurationMs : Z;
}.

Record blobMetadata := {
  bm_Path : string;
  bm_MD5 : string;
  bm_BDECVersion : Z;
  bm_BlobStats : blobStats;
  bm_Chunks : list chunkMetadata;
}.

Record registerBlobRequest := {
  rbr_RequestID : string;
  rbr_Role : string;
  rbr_Blobs : list blobMetadata;
}.

Record channelRegisterStatus := {
  crs_StatusCode : Z;
  crs_Message : string;
  crs_ClientSequencer : Z;
}.

Record chunkRegisterStatus := {
  krs_Channels : list channelRegisterStatus;
}.

Record blobRegisterStatus := {
  brs_Chunks : list chunkRegisterStatus;
}.

Record registerBlobResponse := {
  rbs_Blobs : list blobRegisterStatus;
}.

Record clientConfigureRequest := {
  ccr_Role : string;
}.

Record clientConfigureResponse := {
  ccs_StatusCode : Z;
  ccs_Message : string;
  ccs_StageLocation : StageLocation;
  ccs_Prefix : string;
  ccs_DeploymentID : Z;
}.

(** ** What leaves the process

    Every call on the REST client or on the stage uploader is logged, in
    program order, with the arguments it was made with; so is every pause of
    a retry loop. *)
Inductive event : Type :=
| EvConfigureClient (req : clientConfigureRequest)
| EvOpenChannel (req : openChannelRequest)
| EvDropChannel (req : dropChannelRequest)
| EvChannelStatus (req : batchChannelStatusRequest)
| EvRegisterBlob (req : registerBlobRequest)
| EvUpload (u : Uploader) (blobPath : string) (data : bytes) (md5 : bytes)
| EvSleep (millis : Z)
(** the value [InsertRows] assigns to its local [blobPath]; recorded so
    that the paths of different calls can be compared *)
| EvBlobPath (blobPath : string).

Definition is_upload (e : event) : bool :=
  match e with EvUpload _ _ _ _ => true | _ => false end.

Definition is_registerBlob (e : event) : bool :=
  match e with EvRegisterBlob _ => true | _ => false end.

Definition is_channelStatus (e : event) : bool :=
  match e with EvChannelStatus _ => true | _ => false end.

(** ** [backoff.Retry]

    [Retry] of the library [github.com/cenkalti/backoff/v4] (its [retry.go]):
    reset the policy, then loop: run the operation; return nil when it
    succeeds; return the wrapped error when its error is a
    [*PermanentError]; else call [NextBackOff] on the policy, return the last
    error when the answer is [Stop], and otherwise sleep for the answer and
    run the operation again.

    A policy is given by what its [NextBackOff] answers on successive calls
    after a reset: a pause, or the context being done (the policy of
    [WithContext], for which [Retry] returns an error, carried here by the
    step). The end of the list is [Stop]. *)
Inductive backoffStep : Type :=
| Pause (millis : Z)
| CtxDone (ctxErr : error).

(** [WithMaxRetries(NewConstantBackOff(d), n)] (the library's [tries.go]):
    [NextBackOff] counts its calls and answers [d] while fewer than [n]
    answers were given, then [Stop]. *)
Definition WithMaxRetries_Constant (millis : Z) (n : nat) : list backoffStep :=
  replicate n (Pause millis).

(** The operation takes the number of earlier runs and returns what it
    logged and its error. The result is the number of runs, the log and the
    error [Retry] returns. *)
Fixpoint Retry (op : nat -> list event * option error)
    (policy : list backoffStep) (runs : nat) : nat * list event * option error :=
  let '(evs, r) := op runs in
  match r with
  | None => (S runs, evs, None)
  | Some e =>
      match as_permanent e with
      | Some inner => (S runs, evs, Some inner)
      | None =>
          match policy with
          | [] => (S runs, evs, Some e)
          | CtxDone ctxErr :: _ => (S runs, evs, Some ctxErr)
          | Pause d :: policy' =>
              let '(n, evs', r') := Retry op policy' (S runs) in
              (n, evs ++ EvSleep d :: evs', r')
          end
      end
  end.

(** ** State *)

Record stageUploaderResult := {
  sur_uploader : Uploader;
  sur_err : option error;
}.

(** The two atomics a client creates and hands, by pointer, to every channel
    it opens: [requestIDCounter] ([*atomic.Int64]) and [uploader]
    ([*typed.AtomicValue]). There is one of each per client, so the channels
    of a client and the client itself read and write the same cell. *)
Record Shared := {
  requestIDCounter : Z;
  uploader : stageUploaderResult;
}.

Record World := {
  shared : Shared;
  log : list event;
}.

Record SnowflakeServiceClient := {
  ssc_clientPrefix : string;
  ssc_deploymentID : Z;
  ssc_options_Role : string;
  ssc_options_ConnectVersion : string;
}.

Record ChannelOptions := {
  ID : Z;
  Name : string;
  DatabaseName : string;
  SchemaName : string;
  TableName : string;
}.

Record encryptionInfo := {
  encryptionKeyID : Z;
  encryptionKey : string;
}.

Record SnowflakeIngestionChannel := {
  sic_ChannelOptions : ChannelOptions;
  role : string;
  clientPrefix : string;
  version : string;
  schema : Schema;
  sic_encryptionInfo : encryptionInfo;
  clientSequencer : Z;
  rowSequencer : Z;
  transformers : Transformers;
  fileMetadata : gmap string string;
  buffer : bytes;
}.

Record InsertStats := {
  BuildTime : Z;
  UploadTime : Z;
  CompressedOutputSize : Z;
}.

(** The receiver of a channel method together with the world. *)
Record ChanWorld := {
  chan : SnowflakeIngestionChannel;
  world : World;
}.

(** How the outside behaves during one call: the clock, the random source,
    the REST endpoints, the stage, and the answers of the exponential
    backoff policy of [WaitUntilCommitted] (which depend on the clock, on its
    own randomisation and on the context; there are finitely many of them,
    since the policy stops once ten minutes have elapsed). *)
Record Remote := {
  (** the successive readings of [time.Now()] *)
  rm_now : nat -> time_Time;
  rm_rand : Z;
  rm_NewRestClient : option error;
  rm_configureClient : clientConfigureRequest -> clientConfigureResponse + error;
  rm_openChannel : openChannelRequest -> openChannelResponse + error;
  rm_dropChannel : dropChannelRequest -> dropChannelResponse + error;
  (** the answer to the poll made after [n] earlier polls *)
  rm_channelStatus :
    nat -> batchChannelStatusRequest -> batchChannelStatusResponse + error;
  (** the outcome of the upload made after [n] earlier attempts *)
  rm_upload : nat -> Uploader -> string -> bytes -> bytes -> option error;
  rm_registerBlob : registerBlobRequest -> registerBlobResponse + error;
  rm_backoff : list backoffStep;
}.

(** [rand.N(n)]: uniform in [0, n). *)
Definition rand_N (rm : Remote) (n : Z) : Z := rm_rand rm mod n.

(** ** The monad: state, and early return with an error *)

Definition M (S A : Type) : Type := S -> (A + error) * S.

Definition ret {S A} (a : A) : M S A := fun s => (inl a, s).

Definition fail {S A} (e : error) : M S A := fun s => (inr e, s).

Definition bind {S A B} (m : M S A) (k : A -> M S B) : M S B :=
  fun s =>
    match m s with
    | (inl a, s') => k a s'
    | (inr e, s') => (inr e, s')
    end.

Definition gets {S A} (f : S -> A) : M S A := fun s => (inl (f s), s).

Definition modify {S} (f : S -> S) : M S unit := fun s => (inl tt, f s).

(** [v, err := f(...); if err != nil { return ..., err }] *)
Definition try {S A} (r : A + error) : M S A := fun s => (r, s).

(** the same, with the error rewritten on the way out *)
Definition try_wrap {S A} (f : error -> error) (r : A + error) : M S A :=
  fun s => match r with inl a => (inl a, s) | inr e => (inr (f e), s) end.

Definition check {S} (e : option error) : M S unit :=
  fun s => match e with None => (inl tt, s) | Some e => (inr e, s) end.

(** a method of the client, run from a method of a channel *)
Definition liftW {A} (m : M World A) : M ChanWorld A :=
  fun s =>
    let '(r, w) := m (world s) in
    (r, {| chan := chan s; world := w |}).

End Streaming.

Notation "x <- m ;; k" := (bind m (fun x => k))
  (at level 100, m at next level, right associativity).
Notation "m ;;; k" := (bind m (fun _ => k))
  (at level 100, right associativity).

Section Operations.
Context `{Collaborators}.

(** ** Primitive steps *)

Definition emit (e : event) : M World unit :=
  modify (fun w => {| shared := shared w; log := log w ++ [e] |}).

Definition emits (es : list event) : M World unit :=
  modify (fun w => {| shared := shared w; log := log w ++ es |}).

(** [requestIDCounter.Add(1)]: the new value. *)
Definition requestIDCounter_Add1 : M World Z :=
  fun w =>
    let n := int64 (requestIDCounter (shared w) + 1) in
    (inl n,
     {| shared := {| requestIDCounter := n; uploader := uploader (shared w) |};
        log := log w |}).

(** [uploader.Load()] *)
Definition uploader_Load : M World stageUploaderResult :=
  gets (fun w => uploader (shared w)).

(** [uploader.Store(r)] *)
Definition uploader_Store (r : stageUploaderResult) : M World unit :=
  modify (fun w =>
    {| shared := {| requestIDCounter := requestIDCounter (shared w);
                    uploader := r |};
       log := log w |}).

Definition set_chan (f : SnowflakeIngestionChannel -> SnowflakeIngestionChannel)
  : M ChanWorld unit :=
  modify (fun s => {| chan := f (chan s); world := world s |}).

Definition set_fileMetadata (k v : string) (c : SnowflakeIngestionChannel)
  : SnowflakeIngestionChannel :=
  {| sic_ChannelOptions := sic_ChannelOptions c; role := role c;
     clientPrefix := clientPrefix c; version := version c; schema := schema c;
     sic_encryptionInfo := sic_encryptionInfo c;
     clientSequencer := clientSequencer c; rowSequencer := rowSequencer c;
     transformers := transformers c;
     fileMetadata := <[k := v]> (fileMetadata c);
     buffer := buffer c |}.

Definition set_buffer (b : bytes) (c : SnowflakeIngestionChannel)
  : SnowflakeIngestionChannel :=
  {| sic_ChannelOptions := sic_ChannelOptions c; role := role c;
     clientPrefix := clientPrefix c; version := version c; schema := schema c;
     sic_encryptionInfo := sic_encryptionInfo c;
     clientSequencer := clientSequencer c; rowSequencer := rowSequencer c;
     transformers := transformers c;
     fileMetadata := fileMetadata c;
     buffer := b |}.

(** [c.rowSequencer++; c.clientSequencer = cs] *)
Definition advance_sequencers (cs : Z) (c : SnowflakeIngestionChannel)
  : SnowflakeIngestionChannel :=
  {| sic_ChannelOptions := sic_ChannelOptions c; role := role c;
     clientPrefix := clientPrefix c; version := version c; schema := schema c;
     sic_encryptionInfo := sic_encryptionInfo c;
     clientSequencer := cs;
     rowSequencer := int64 (rowSequencer c + 1);
     transformers := transformers c;
     fileMetadata := fileMetadata c;
     buffer := buffer c |}.

(** [msg := x.Message; if msg == "" { msg = "(no message)" }] *)
Definition message_or_default (msg : string) : string :=
  if decide (msg = "") then "(no message)" else msg.

(** ** The service client *)

(** The body of the periodic task of [uploadRefreshLoop]. *)
Definition uploadRefresh (rm : Remote) (opts_Role : string) : M World unit :=
  let req := {| ccr_Role := opts_Role |} in
  emit (EvConfigureClient req) ;;;
  match rm_configureClient rm req with
  | inr err =>
      uploader_Store {| sur_uploader := Uploader_nil; sur_err := Some err |}
  | inl resp =>
      let '(u, err) := newUploader (ccs_StageLocation resp) in
      uploader_Store {| sur_uploader := u; sur_err := err |}
  end.

(** [NewSnowflakeServiceClient]: the client and the initial value of its
    atomics. The refresh loop it starts is run by the scheduler, one
    [uploadRefresh] per tick. *)
Definition NewSnowflakeServiceClient (rm : Remote)
    (opts_Role opts_ConnectVersion : string)
  : (SnowflakeServiceClient * Shared + error) * list event :=
  match rm_NewRestClient rm with
  | Some err => (inr err, [])
  | None =>
      let req := {| ccr_Role := opts_Role |} in
      let evs := [EvConfigureClient req] in
      match rm_configureClient rm req with
      | inr err => (inr err, evs)
      | inl resp =>
          if decide (ccs_StatusCode resp ≠ responseSuccess) then
            (inr (ErrMsg ("unable to initialize client - status: "
                          +:+ fmt_d (ccs_StatusCode resp)
                          +:+ ", message: " +:+ ccs_Message resp)), evs)
          else
            match newUploader (ccs_StageLocation resp) with
            | (_, Some err) =>
                (inr (ErrWrap "unable to initialize stage uploader: " err), evs)
            | (u, None) =>
                (inl ({| ssc_clientPrefix :=
                           fmt_request_id (ccs_Prefix resp) (ccs_DeploymentID resp);
                         ssc_deploymentID := ccs_DeploymentID resp;
                         ssc_options_Role := opts_Role;
                         ssc_options_ConnectVersion := opts_ConnectVersion |},
                      {| requestIDCounter := 0;
                         uploader := {| sur_uploader := u; sur_err := None |} |}),
                 evs)
            end
      end
  end.

(** [SnowflakeServiceClient.nextRequestID] and
    [SnowflakeIngestionChannel.nextRequestID]: the same body, on the same
    counter, with the prefix the channel copied from the client. *)
Definition nextRequestID (prefix : string) : M World string :=
  rid <- requestIDCounter_Add1 ;;
  ret (fmt_request_id prefix rid).

Definition OpenChannel (rm : Remote) (c : SnowflakeServiceClient)
    (opts : ChannelOptions) : M World SnowflakeIngestionChannel :=
  rid <- nextRequestID (ssc_clientPrefix c) ;;
  let req := {| ocr_RequestID := rid;
                ocr_Role := ssc_options_Role c;
                ocr_Channel := Name opts;
                ocr_Database := DatabaseName opts;
                ocr_Schema := SchemaName opts;
                ocr_Table := TableName opts;
                ocr_WriteMode := "CLOUD_STORAGE" |} in
  emit (EvOpenChannel req) ;;;
  resp <- try (rm_openChannel rm req) ;;
  if decide (ocs_StatusCode resp ≠ responseSuccess) then
    fail (ErrMsg ("unable to open channel " +:+ Name opts
                  +:+ " - status: " +:+ fmt_d (ocs_StatusCode resp)
                  +:+ ", message: " +:+ ocs_Message resp))
  else
    built <- try (constructParquetSchema (ocs_TableColumns resp)) ;;
    let '(sch, trs, typeMetadata) := built in
    ret {| sic_ChannelOptions := opts;
           clientPrefix := ssc_clientPrefix c;
           schema := sch;
           version := ssc_options_ConnectVersion c;
           role := ssc_options_Role c;
           sic_encryptionInfo :=
             {| encryptionKeyID := ocs_EncryptionKeyID resp;
                encryptionKey := ocs_EncryptionKey resp |};
           clientSequencer := ocs_ClientSequencer resp;
           rowSequencer := ocs_RowSequencer resp;
           transformers := trs;
           fileMetadata := typeMetadata;
           buffer := [] |}.

Definition OffsetToken : Type := string.

Definition ChannelStatus (rm : Remote) (c : SnowflakeServiceClient)
    (opts : ChannelOptions) : M World OffsetToken :=
  let req := {| bcr_Role := ssc_options_Role c;
                bcr_Channels := [ {| csr_Name := Name opts;
                                     csr_Table := TableName opts;
                                     csr_Database := DatabaseName opts;
                                     csr_Schema := SchemaName opts;
                                     csr_ClientSequencer := None |} ] |} in
  emit (EvChannelStatus req) ;;;
  resp <- try (rm_channelStatus rm 0%nat req) ;;
  if decide (bcs_StatusCode resp ≠ responseSuccess) then
    fail (ErrMsg ("unable to status channel " +:+ Name opts
                  +:+ " - status: " +:+ fmt_d (bcs_StatusCode resp)
                  +:+ ", message: " +:+ bcs_Message resp))
  else
    (* [len(resp.Channels) != 1], then [resp.Channels[0]] *)
    match bcs_Channels resp with
    | [channel] =>
        if decide (css_StatusCode channel ≠ responseSuccess) then
          fail (ErrMsg ("unable to status channel " +:+ Name opts
                        +:+ " - status: " +:+ fmt_d (bcs_StatusCode resp)))
        else ret (css_PersistedOffsetToken channel)
    | _ =>
        fail (ErrMsg ("failed to fetch channel " +:+ Name opts
                      +:+ ", got " +:+ fmt_d (len (bcs_Channels resp))
                      +:+ " channels in response"))
    end.

Definition DropChannel (rm : Remote) (c : SnowflakeServiceClient)
    (opts : ChannelOptions) : M World unit :=
  rid <- nextRequestID (ssc_clientPrefix c) ;;
  let req := {| dcr_RequestID := rid;
                dcr_Role := ssc_options_Role c;
                dcr_Channel := Name opts;
                dcr_Table := TableName opts;
                dcr_Database := DatabaseName opts;
                dcr_Schema := SchemaName opts |} in
  emit (EvDropChannel req) ;;;
  resp <- try (rm_dropChannel rm req) ;;
  if decide (dcs_StatusCode resp ≠ responseSuccess) then
    fail (ErrMsg ("unable to drop channel " +:+ Name opts
                  +:+ " - status: " +:+ fmt_d (dcs_StatusCode resp)
                  +:+ ", message: " +:+ dcs_Message resp))
  else ret tt.

(** ** The ingestion channel *)

(** The operation [InsertRows] hands to [backoff.Retry]. *)
Definition upload_op (rm : Remote) (u : Uploader) (blobPath : string)
    (encrypted md5 : bytes) (attempt : nat) : list event * option error :=
  ([EvUpload u blobPath encrypted md5], rm_upload rm attempt u blobPath encrypted md5).

(** [(int(c.ID) << 48) | rand.N(1<<48)] *)
Definition fakeThreadID (id : Z) (r : Z) : Z :=
  Z.lor (int64 (Z.shiftl id 48)) r.

Definition registerBlob_request (c : SnowflakeIngestionChannel) (rid : string)
    (blobPath : string) (fileMD5Hash encrypted : bytes) (unencryptedLen : Z)
    (metadata : ParquetMetadata) (columnEpInfo : ColumnEpInfo)
    (startTime uploadStartTime uploadFinishTime : time_Time) : registerBlobRequest :=
  {| rbr_RequestID := rid;
     rbr_Role := role c;
     rbr_Blobs :=
       [ {| bm_Path := blobPath;
            bm_MD5 := hex_EncodeToString fileMD5Hash;
            bm_BDECVersion := 3;
            bm_BlobStats :=
              {| bs_FlushStartMs := UnixMilli startTime;
                 bs_BuildDurationMs :=
                   int64 (UnixMilli uploadStartTime - UnixMilli startTime);
                 bs_UploadDurationMs :=
                   int64 (UnixMilli uploadFinishTime - UnixMilli uploadStartTime) |};
            bm_Chunks :=
              [ {| chk_Database := DatabaseName (sic_ChannelOptions c);
                   chk_Schema := SchemaName (sic_ChannelOptions c);
                   chk_Table := TableName (sic_ChannelOptions c);
                   chk_ChunkStartOffset := 0;
                   chk_ChunkLength := int32 unencryptedLen;
                   chk_ChunkLengthUncompressed := totalUncompressedSize metadata;
                   chk_ChunkMD5 :=
                     md5Hash (take (Z.to_nat unencryptedLen) encrypted);
                   chk_EncryptionKeyID :=
                     encryptionKeyID (sic_encryptionInfo c);
                   chk_FirstInsertTimeInMillis := UnixMilli startTime;
                   chk_LastInsertTimeInMillis := UnixMilli startTime;
                   chk_EPS := {| ep_Rows := NumRows metadata;
                                 ep_Columns := columnEpInfo |};
                   chk_Channels :=
                     [ {| cm_Channel := Name (sic_ChannelOptions c);
                          cm_ClientSequencer := clientSequencer c;
                          cm_RowSequencer := int64 (rowSequencer c + 1);
                          cm_StartOffsetToken := None;
                          cm_EndOffsetToken := None;
                          cm_OffsetToken := None |} ] |} ] |} ] |}.

(** The body of [InsertRows]; an early [return stats, err] is a failure of
    the monad ([stats] is still the zero value at each of them). *)
Definition InsertRows_body (rm : Remote) (batch : Batch) : M ChanWorld InsertStats :=
  let startTime := rm_now rm 0%nat in
  c <- gets chan ;;
  rows <- try (constructRowGroup batch (schema c) (transformers c)) ;;
  let tid := fakeThreadID (ID (sic_ChannelOptions c)) (rand_N rm (2 ^ 48)) in
  counter <- liftW requestIDCounter_Add1 ;;
  let blobPath := generateBlobPath (clientPrefix c) tid counter in
  liftW (emit (EvBlobPath blobPath)) ;;;
  set_chan (set_fileMetadata "primaryFileId" (path_Base blobPath)) ;;;
  c <- gets chan ;;
  let '(written, werr) :=
    writeParquetFile (version c) (schema c) rows (fileMetadata c) in
  set_chan (set_buffer written) ;;;
  check werr ;;;
  unencrypted <- gets (fun s => buffer (chan s)) ;;
  metadata <- try_wrap (ErrWrap "unable to parse parquet metadata: ")
                (readParquetMetadata unencrypted) ;;
  let unencryptedLen := len unencrypted in
  let padded := padBuffer unencrypted aes_BlockSize in
  encrypted <- try (encrypt padded (encryptionKey (sic_encryptionInfo c)) blobPath 0) ;;
  let uploadStartTime := rm_now rm 1%nat in
  let fileMD5Hash := md5_Sum encrypted in
  uploaderResult <- liftW uploader_Load ;;
  match sur_err uploaderResult with
  | Some uerr => fail (ErrWrap "failed to acquire stage uploader: " uerr)
  | None =>
      let u := sur_uploader uploaderResult in
      let '(_, evs, uperr) :=
        Retry (upload_op rm u blobPath encrypted fileMD5Hash)
              (WithMaxRetries_Constant 1000 3) 0 in
      liftW (emits evs) ;;;
      check uperr ;;;
      let uploadFinishTime := rm_now rm 2%nat in
      let columnEpInfo := computeColumnEpInfo (transformers c) in
      rid <- liftW (nextRequestID (clientPrefix c)) ;;
      c <- gets chan ;;
      let req := registerBlob_request c rid blobPath fileMD5Hash encrypted
                   unencryptedLen metadata columnEpInfo
                   startTime uploadStartTime uploadFinishTime in
      liftW (emit (EvRegisterBlob req)) ;;;
      resp <- try (rm_registerBlob rm req) ;;
      (* each [len(...) != 1] check, then the index [0] *)
      match rbs_Blobs resp with
      | [status] =>
          match brs_Chunks status with
          | [chunk] =>
              match krs_Channels chunk with
              | [channel] =>
                  if decide (crs_StatusCode channel ≠ responseSuccess) then
                    fail (ErrMsg ("error response injesting data ("
                                  +:+ fmt_d (crs_StatusCode channel) +:+ "): "
                                  +:+ message_or_default (crs_Message channel)))
                  else
                    set_chan (advance_sequencers (crs_ClientSequencer channel)) ;;;
                    ret {| CompressedOutputSize := unencryptedLen;
                           BuildTime := Sub uploadStartTime startTime;
                           UploadTime := Sub uploadFinishTime uploadStartTime |}
              | _ =>
                  fail (ErrMsg ("unexpected number of channels for blob chunk: "
                                +:+ fmt_d (len (krs_Channels chunk))))
              end
          | _ =>
              fail (ErrMsg ("unexpected number of response blob chunks: "
                            +:+ fmt_d (len (brs_Chunks status))))
          end
      | _ =>
          fail (ErrMsg ("unexpected number of response blobs: "
                        +:+ fmt_d (len (rbs_Blobs resp))))
      end
  end.

Definition InsertStats_zero : InsertStats :=
  {| BuildTime := 0; UploadTime := 0; CompressedOutputSize := 0 |}.

(** [InsertRows]: the pair it returns and the state it leaves. *)
Definition InsertRows (rm : Remote) (batch : Batch) (s : ChanWorld)
  : (InsertStats * option error) * ChanWorld :=
  match InsertRows_body rm batch s with
  | (inl stats, s') => ((stats, None), s')
  | (inr err, s') => ((InsertStats_zero, Some err), s')
  end.

(** The request [WaitUntilCommitted] polls with. *)
Definition poll_request (c : SnowflakeIngestionChannel) : batchChannelStatusRequest :=
  {| bcr_Role := role c;
     bcr_Channels :=
       [ {| csr_Table := TableName (sic_ChannelOptions c);
            csr_Database := DatabaseName (sic_ChannelOptions c);
            csr_Schema := SchemaName (sic_ChannelOptions c);
            csr_Name := Name (sic_ChannelOptions c);
            csr_ClientSequencer := Some (clientSequencer c) |} ] |}.

(** The operation [WaitUntilCommitted] hands to [backoff.Retry]; [polls] is
    the number of times it ran. *)
Definition poll_op (rm : Remote) (c : SnowflakeIngestionChannel) (n : nat)
  : list event * option error :=
  let req := poll_request c in
  ([EvChannelStatus req],
   match rm_channelStatus rm n req with
   | inr err => Some err
   | inl resp =>
       if decide (bcs_StatusCode resp ≠ responseSuccess) then
         Some (ErrMsg ("error fetching channel status ("
                       +:+ fmt_d (bcs_StatusCode resp) +:+ "): "
                       +:+ message_or_default (bcs_Message resp)))
       else
         match bcs_Channels resp with
         | [status] =>
             if decide (css_PersistedClientSequencer status ≠ clientSequencer c) then
               Some (ErrPermanent
                       (ErrMsg ("unexpected number of channels for status request: "
                                +:+ fmt_d (len (bcs_Channels resp)))))
             else if decide (css_PersistedRowSequencer status < rowSequencer c) then
               Some (ErrMsg ("row sequencer not yet committed: "
                             +:+ fmt_d (css_PersistedRowSequencer status)
                             +:+ " < " +:+ fmt_d (rowSequencer c)))
             else None
         | _ =>
             Some (ErrMsg ("unexpected number of channels for status request: "
                           +:+ fmt_d (len (bcs_Channels resp))))
         end
   end).

Definition WaitUntilCommitted (rm : Remote) (s : ChanWorld)
  : (Z * option error) * ChanWorld :=
  let '(polls, evs, err) := Retry (poll_op rm (chan s)) (rm_backoff rm) 0 in
  ((Z.of_nat polls, err),
   {| chan := chan s;
      world := {| shared := shared (world s); log := log (world s) ++ evs |} |}).

(** ** A client and its channels *)

Record Session := {
  ses_client : SnowflakeServiceClient;
  ses_channels : list SnowflakeIngestionChannel;
  ses_world : World;
}.

(** The calls a user of the package makes, and the ticks of the refresh
    loop. A channel is named by its position among the channels opened so
    far. *)
Inductive call : Type :=
| CallOpenChannel (opts : ChannelOptions)
| CallChannelStatus (opts : ChannelOptions)
| CallDropChannel (opts : ChannelOptions)
| CallInsertRows (ch : nat) (batch : Batch)
| CallWaitUntilCommitted (ch : nat)
| TickRefresh.

Definition step (rm : Remote) (k : call) (ss : Session) : Session :=
  let cl := ses_client ss in
  match k with
  | CallOpenChannel opts =>
      match OpenChannel rm cl opts (ses_world ss) with
      | (inl ch, w) =>
          {| ses_client := cl; ses_channels := ses_channels ss ++ [ch];
             ses_world := w |}
      | (inr _, w) =>
          {| ses_client := cl; ses_channels := ses_channels ss; ses_world := w |}
      end
  | CallChannelStatus opts =>
      {| ses_client := cl; ses_channels := ses_channels ss;
         ses_world := snd (ChannelStatus rm cl opts (ses_world ss)) |}
  | CallDropChannel opts =>
      {| ses_client := cl; ses_channels := ses_channels ss;
         ses_world := snd (DropChannel rm cl opts (ses_world ss)) |}
  | CallInsertRows i batch =>
      match ses_channels ss !! i with
      | Some ch =>
          let s' := snd (InsertRows rm batch {| chan := ch; world := ses_world ss |}) in
          {| ses_client := cl;
             ses_channels := <[i := chan s']> (ses_channels ss);
             ses_world := world s' |}
      | None => ss
      end
  | CallWaitUntilCommitted i =>
      match ses_channels ss !! i with
      | Some ch =>
          let s' := snd (WaitUntilCommitted rm {| chan := ch; world := ses_world ss |}) in
          {| ses_client := cl;
             ses_channels := <[i := chan s']> (ses_channels ss);
             ses_world := world s' |}
      | None => ss
      end
  | TickRefresh =>
      {| ses_client := cl; ses_channels := ses_channels ss;
         ses_world := snd (uploadRefresh rm (ssc_options_Role cl) (ses_world ss)) |}
  end.

Fixpoint run (script : list (Remote * call)) (ss : Session) : Session :=
  match script with
  | [] => ss
  | (rm, k) :: script' => run script' (step rm k ss)
  end.

(** ** Reading the log *)

(** The request identifier a control-plane request carries. The status
    request has no such field set. *)
Definition request_id (e : event) : option string :=
  match e with
  | EvOpenChannel req => Some (ocr_RequestID req)
  | EvDropChannel req => Some (dcr_RequestID req)
  | EvRegisterBlob req => Some (rbr_RequestID req)
  | _ => None
  end.

Definition request_ids (l : list event) : list string :=
  omap request_id l.

Definition blob_path (e : event) : option string :=
  match e with
  | EvBlobPath p => Some p
  | _ => None
  end.

Definition blob_paths (l : list event) : list string :=
  omap blob_path l.

(** [openChannel], [dropChannel], [registerBlob] and [channelStatus]
    requests. *)
Definition is_control_request (e : event) : bool :=
  match e with
  | EvOpenChannel _ | EvDropChannel _ | EvRegisterBlob _ | EvChannelStatus _ => true
  | _ => false
  end.

End Operations.

(** ** The blob path *)

(** Modelled from the spec: [generateBlobPath] is defined in a file of the
    package that is not part of the sources at hand. The specification says
    that the path combines the thread identifier (channel id in the high
    bits, random value below) with the per-call counter; here the client
    prefix, the thread identifier and the counter are joined with
    underscores, each number in decimal. *)
Definition generateBlobPath_spec (clientPrefix : string) (threadID counter : Z)
  : string :=
  clientPrefix +:+ "_" +:+ fmt_d threadID +:+ "_" +:+ fmt_d counter.

(** What path uniqueness needs of [generateBlobPath]: for one client prefix,
    equal paths were made from equal counters. *)
Definition counter_determined (gen : string -> Z -> Z -> string) : Prop :=
  forall prefix tid1 tid2 n1 n2,
    gen prefix tid1 n1 = gen prefix tid2 n2 -> n1 = n2.

Fixpoint has_char (a : ascii) (s : string) : bool :=
  match s with
  | EmptyString => false
  | String b s' => if decide (a = b) then true else has_char a s'
  end.

(** ** A concrete instance

    Small collaborators on which the operations can be evaluated: the
    encoder writes the batch as it is, the cipher is the identity, time is
    a number of milliseconds. *)
Module Demo.

Definition collab : Collaborators := {|
  Batch := bytes;
  Schema := unit;
  Rows := bytes;
  Transformers := unit;
  ParquetMetadata := Z;
  ColumnEpInfo := unit;
  TableColumns := unit;
  StageLocation := string;
  Uploader := string;
  time_Time := Z;
  responseSuccess := 0;
  constructParquetSchema := fun _ => inl (tt, tt, ∅);
  constructRowGroup := fun b _ _ => inl b;
  writeParquetFile := fun _ _ rows _ => (rows, None);
  readParquetMetadata := fun b => inl (len b);
  NumRows := fun m => m;
  totalUncompressedSize := fun m => m;
  padBuffer := fun b n =>
    b ++ replicate (Z.to_nat ((n - len b mod n) mod n)) Byte.x00;
  encrypt := fun b _ _ _ => inl b;
  md5_Sum := fun _ => [];
  md5Hash := fun _ => "";
  hex_EncodeToString := fun _ => "";
  computeColumnEpInfo := fun _ => tt;
  generateBlobPath := generateBlobPath_spec;
  path_Base := fun p => p;
  Uploader_nil := "";
  newUploader := fun loc => (loc, None);
  UnixMilli := fun t => t;
  Sub := fun a b => a - b;
|}.

#[local] Existing Instance collab.

Definition opts (id : Z) (name : string) : ChannelOptions :=
  {| ID := id; Name := name; DatabaseName := "db"; SchemaName := "public";
     TableName := "t" |}.

Definition client : SnowflakeServiceClient :=
  {| ssc_clientPrefix := "pfx_7"; ssc_deploymentID := 7;
     ssc_options_Role := "ACCOUNTADMIN"; ssc_options_ConnectVersion := "4.0" |}.

Definition channel (id rowSeq clientSeq : Z) : SnowflakeIngestionChannel :=
  {| sic_ChannelOptions := opts id "ch"; role := "ACCOUNTADMIN";
     clientPrefix := "pfx_7"; version := "4.0"; schema := tt;
     sic_encryptionInfo := {| encryptionKeyID := 1; encryptionKey := "k" |};
     clientSequencer := clientSeq; rowSequencer := rowSeq;
     transformers := tt; fileMetadata := ∅; buffer := [] |}.

Definition world0 (cell : stageUploaderResult) : World :=
  {| shared := {| requestIDCounter := 0; uploader := cell |}; log := [] |}.

Definition fresh : stageUploaderResult :=
  {| sur_uploader := "stage"; sur_err := None |}.

Definition stale : stageUploaderResult :=
  {| sur_uploader := ""; sur_err := Some (ErrMsg "configure failed") |}.

(** A registration answer with one blob, one chunk and one channel. *)
Definition registered (status clientSeq : Z) : registerBlobResponse :=
  {| rbs_Blobs :=
       [ {| brs_Chunks :=
              [ {| krs_Channels :=
                     [ {| crs_StatusCode := status; crs_Message := "";
                          crs_ClientSequencer := clientSeq |} ] |} ] |} ] |}.

(** A registration answer whose blob has no chunk. *)
Definition no_chunks : registerBlobResponse :=
  {| rbs_Blobs := [ {| brs_Chunks := [] |} ] |}.

Definition status_of (l : list channelStatusResponse) : batchChannelStatusResponse :=
  {| bcs_StatusCode := 0; bcs_Message := ""; bcs_Channels := l |}.

Definition persisted (clientSeq rowSeq : Z) : channelStatusResponse :=
  {| css_StatusCode := 0; css_PersistedOffsetToken := "tok";
     css_PersistedClientSequencer := clientSeq;
     css_PersistedRowSequencer := rowSeq |}.

(** A remote whose uploads fail [failures] times before they succeed, which
    answers registrations with [reg] and the [n]-th status poll with
    [status n]. *)
Definition remote (failures : nat)
    (reg : registerBlobResponse + error)
    (status : nat -> batchChannelStatusResponse + error)
    (policy : list backoffStep) : Remote :=
  {| rm_now := fun n => 1000 * Z.of_nat n;
     rm_rand := 5;
     rm_NewRestClient := None;
     rm_configureClient := fun _ => inr (ErrMsg "configure failed");
     rm_openChannel := fun _ =>
       inl {| ocs_StatusCode := 0; ocs_Message := ""; ocs_TableColumns := tt;
              ocs_EncryptionKeyID := 1; ocs_EncryptionKey := "k";
              ocs_ClientSequencer := 0; ocs_RowSequencer := 0 |};
     rm_dropChannel := fun _ => inl {| dcs_StatusCode := 0; dcs_Message := "" |};
     rm_channelStatus := fun n _ => status n;
     rm_upload := fun n _ _ _ _ =>
       if decide (n < failures)%nat then Some (ErrMsg "connection reset") else None;
     rm_registerBlob := fun _ => reg;
     rm_backoff := policy |}.

Definition batch3 : bytes := [Byte.x01; Byte.x02; Byte.x03].

End Demo.

(** The events a call of [InsertRows] adds to the log. *)
Definition InsertRows_events `{Collaborators} (rm : Remote) (batch : Batch)
    (s : ChanWorld) : list event :=
  drop (length (log (world s))) (log (world (snd (InsertRows rm batch s)))).

Definition WaitUntilCommitted_events `{Collaborators} (rm : Remote)
    (s : ChanWorld) : list event :=
  drop (length (log (world s))) (log (world (snd (WaitUntilCommitted rm s)))).

(** ** Vocabulary of the statements *)

Section Vocabulary.
Context `{Collaborators}.

(** A registration answer that does not hold exactly one blob with exactly
    one chunk with exactly one channel. *)
Definition shape_mismatch (resp : registerBlobResponse) : Prop :=
  len (rbs_Blobs resp) <> 1
  \/ exists blob, rbs_Blobs resp = [blob]
       /\ (len (brs_Chunks blob) <> 1
           \/ exists chunk, brs_Chunks blob = [chunk]
                /\ len (krs_Channels chunk) <> 1).

(** Poll number [k] (from 0) observes the channel entry [st]: the transport
    succeeded, the batch status is the success code and [st] is the only
    entry. *)
Definition observes (rm : Remote) (c : SnowflakeIngestionChannel) (k : nat)
    (st : channelStatusResponse) : Prop :=
  exists resp,
    rm_channelStatus rm k (poll_request c) = inl resp
    /\ bcs_StatusCode resp = responseSuccess
    /\ bcs_Channels resp = [st].

(** Poll [k] finds the channel committed: it observes an entry whose
    persisted client sequencer is the channel's and whose persisted row
    sequencer has reached the channel's. *)
Definition poll_committed (rm : Remote) (c : SnowflakeIngestionChannel)
    (k : nat) : Prop :=
  exists st,
    observes rm c k st
    /\ css_PersistedClientSequencer st = clientSequencer c
    /\ rowSequencer c <= css_PersistedRowSequencer st.

(** Poll [k] observes a persisted row sequencer that has reached the
    channel's, whatever the rest of the entry. *)
Definition poll_row_reached (rm : Remote) (c : SnowflakeIngestionChannel)
    (k : nat) : Prop :=
  exists st,
    observes rm c k st /\ rowSequencer c <= css_PersistedRowSequencer st.

(** Poll [k] finds the channel taken over: it observes an entry whose
    persisted client sequencer is not the channel's. *)
Definition poll_diverged (rm : Remote) (c : SnowflakeIngestionChannel)
    (k : nat) : Prop :=
  exists st,
    observes rm c k st
    /\ css_PersistedClientSequencer st <> clientSequencer c.

Definition status_requests (l : list event) : nat :=
  length (filter (fun e => is_channelStatus e = true) l).

(** A client that has opened no channel yet and sent nothing. *)
Definition session0 (cl : SnowflakeServiceClient) (sh : Shared) : Session :=
  {| ses_client := cl; ses_channels := [];
     ses_world := {| shared := sh; log := [] |} |}.

(** What a value drawn from the request-id counter is used for: the path of
    a blob, with the thread identifier it is combined with, or the
    identifier of a request. *)
Inductive drawn : Type :=
| ForPath (tid : Z)
| ForRequest.

(** The counter after as many [Add(1)] as there are draws. *)
Fixpoint counter_after (c : Z) (ds : list drawn) : Z :=
  match ds with
  | [] => c
  | _ :: ds' => counter_after (int64 (c + 1)) ds'
  end.

(** The strings made from successive draws, starting from counter [c]; [f]
    says what string, if any, a draw of a given use and value yields. *)
Fixpoint labels_of (f : drawn -> Z -> option string) (c : Z) (ds : list drawn)
  : list string :=
  match ds with
  | [] => []
  | d :: ds' =>
      let v := int64 (c + 1) in
      match f d v with
      | Some x => x :: labels_of f v ds'
      | None => labels_of f v ds'
      end
  end.

Definition path_label (prefix : string) (d : drawn) (v : Z) : option string :=
  match d with
  | ForPath tid => Some (generateBlobPath prefix tid v)
  | ForRequest => None
  end.

Definition id_label (prefix : string) (d : drawn) (v : Z) : option string :=
  match d with
  | ForPath _ => None
  | ForRequest => Some (fmt_request_id prefix v)
  end.

(** The identifier is the client prefix followed by a value drawn from the
    counter after it held [c0], at most [n] draws later. *)
Definition fresh_id (prefix : string) (c0 : Z) (n : Z) (id : string) : Prop :=
  exists k, 1 <= k <= n /\ id = fmt_request_id prefix (int64 (c0 + k)).

(** An event that carries neither a blob path nor a request identifier. *)
Definition silent (e : event) : Prop :=
  blob_path e = None /\ request_id e = None.

(** Session [ss'] comes from [ss] by the draws [ds]: the client is the same,
    the counter moved by as many steps, and the log grew by events whose
    blob paths and request identifiers are those made from the draws. *)
Definition by_draws (ss ss' : Session) (ds : list drawn) : Prop :=
  let prefix := ssc_clientPrefix (ses_client ss) in
  let c := requestIDCounter (shared (ses_world ss)) in
  ses_client ss' = ses_client ss
  /\ requestIDCounter (shared (ses_world ss')) = counter_after c ds
  /\ exists evs,
       log (ses_world ss') = log (ses_world ss) ++ evs
       /\ blob_paths evs = labels_of (path_label prefix) c ds
       /\ request_ids evs = labels_of (id_label prefix) c ds.

(** The channels of a session carry the prefix of its client. *)
Definition channels_of_client (ss : Session) : Prop :=
  Forall (fun c => clientPrefix c = ssc_clientPrefix (ses_client ss))
    (ses_channels ss).

(** The number of [upload] calls in a log. *)
Definition upload_attempts (l : list event) : nat :=
  length (filter (fun e => is_upload e = true) l).

Definition registrations (l : list event) : nat :=
  length (filter (fun e => is_registerBlob e = true) l).

Definition is_Pause (st : backoffStep) : bool :=
  match st with Pause _ => true | CtxDone _ => false end.

(** Uploads and pauses: what the retry loop around [upload] logs. *)
Definition is_upload_or_sleep (e : event) : bool :=
  match e with EvUpload _ _ _ _ | EvSleep _ => true | _ => false end.

(** The value [InsertRows] gives its local [blobPath] when called in state
    [s]. *)
Definition InsertRows_blobPath (rm : Remote) (s : ChanWorld) : string :=
  generateBlobPath (clientPrefix (chan s))
    (fakeThreadID (ID (sic_ChannelOptions (chan s))) (rand_N rm (2 ^ 48)))
    (int64 (requestIDCounter (shared (world s)) + 1)).

(** The request [ChannelStatus] sends. *)
Definition ChannelStatus_request (c : SnowflakeServiceClient)
    (opts : ChannelOptions) : batchChannelStatusRequest :=
  {| bcr_Role := ssc_options_Role c;
     bcr_Channels := [ {| csr_Name := Name opts;
                          csr_Table := TableName opts;
                          csr_Database := DatabaseName opts;
                          csr_Schema := SchemaName opts;
                          csr_ClientSequencer := None |} ] |}.

End Vocabulary.

(** ** Scenarios

    Concrete runs on the instance above, at which the statements below are
    evaluated. *)
Module Scenario.
Import Demo.

#[local] Existing Instance collab.

(** A channel with id 3 whose sequencers are both 0, on a client whose
    uploader is fresh and whose counter is 0. *)
Definition s0 : ChanWorld :=
  {| chan := channel 3 0 0; world := world0 fresh |}.

(** The same channel with a row sequencer of 1 to be confirmed. *)
Definition s1 : ChanWorld :=
  {| chan := channel 3 1 0; world := world0 fresh |}.

Definition no_status (n : nat) : batchChannelStatusResponse + error :=
  inr (ErrMsg "unavailable").

(** Uploads succeed at once; the registration is accepted and the remote
    echoes the client sequencer 42. *)
Definition rm_ok : Remote :=
  remote 0 (inl (registered 0 42)) no_status [].

(** The registration is answered with status 5 for the channel. *)
Definition rm_rejected : Remote :=
  remote 0 (inl (registered 5 42)) no_status [].

(** The registration is answered with a blob that has no chunk. *)
Definition rm_no_chunks : Remote :=
  remote 0 (inl no_chunks) no_status [].

(** The upload fails twice and succeeds at the third attempt. *)
Definition rm_third : Remote :=
  remote 2 (inl (registered 0 42)) no_status [].

(** The upload fails three times and succeeds at the fourth attempt. *)
Definition rm_fourth : Remote :=
  remote 3 (inl (registered 0 42)) no_status [].

(** The channel of [s0] after a tick of the refresh loop whose configure
    call failed. *)
Definition s_stale : ChanWorld :=
  {| chan := channel 3 0 0;
     world := (uploadRefresh rm_ok "ACCOUNTADMIN" (world0 fresh)).2 |}.

(** Poll [n] answers with the persisted client sequencer 0 and the
    persisted row sequencer [n]; the policy grants three pauses. *)
Definition rm_catching_up : Remote :=
  remote 0 (inl (registered 0 42))
    (fun n => inl (status_of [persisted 0 (Z.of_nat n)]))
    [Pause 1; Pause 10; Pause 100].

(** Every poll answers with the persisted client sequencer 7 and the
    persisted row sequencer 5. *)
Definition rm_taken_over : Remote :=
  remote 0 (inl (registered 0 42))
    (fun _ => inl (status_of [persisted 7 5]))
    [Pause 1; Pause 10; Pause 100].

Definition sh0 : Shared :=
  {| requestIDCounter := 0; uploader := fresh |}.

(** Two channels are opened; rows are inserted on the first, on the second
    and on the first again; the status of the first is asked; the second is
    dropped. *)
Definition script : list (Remote * call) :=
  [ (rm_ok, CallOpenChannel (opts 1 "a"));
    (rm_ok, CallOpenChannel (opts 2 "b"));
    (rm_ok, CallInsertRows 0 batch3);
    (rm_ok, CallInsertRows 1 batch3);
    (rm_ok, CallInsertRows 0 batch3);
    (rm_ok, CallChannelStatus (opts 1 "a"));
    (rm_ok, CallDropChannel (opts 2 "b")) ].

(** The registration request of the call of [InsertRows] on [s0]. *)
Definition req0 : registerBlobRequest :=
  registerBlob_request
    (set_buffer batch3
       (set_fileMetadata "primaryFileId" "pfx_7_844424930131973_1" (chan s0)))
    "pfx_7_2" "pfx_7_844424930131973_1" []
    (padBuffer batch3 aes_BlockSize) 3 3 tt 0 1000 2000.

End Scenario.

(** ** Vocabulary of the further statements *)

Section MoreVocabulary.
Context `{Collaborators}.

(** The request [OpenChannel] sends when the counter holds [c]. *)
Definition OpenChannel_request (cl : SnowflakeServiceClient)
    (opts : ChannelOptions) (c : Z) : openChannelRequest :=
  {| ocr_RequestID := fmt_request_id (ssc_clientPrefix cl) (int64 (c + 1));
     ocr_Role := ssc_options_Role cl;
     ocr_Channel := Name opts;
     ocr_Database := DatabaseName opts;
     ocr_Schema := SchemaName opts;
     ocr_Table := TableName opts;
     ocr_WriteMode := "CLOUD_STORAGE" |}.

(** The request [DropChannel] sends when the counter holds [c]. *)
Definition DropChannel_request (cl : SnowflakeServiceClient)
    (opts : ChannelOptions) (c : Z) : dropChannelRequest :=
  {| dcr_RequestID := fmt_request_id (ssc_clientPrefix cl) (int64 (c + 1));
     dcr_Role := ssc_options_Role cl;
     dcr_Channel := Name opts;
     dcr_Table := TableName opts;
     dcr_Database := DatabaseName opts;
     dcr_Schema := SchemaName opts |}.

(** [n] uploads of the same bytes to the same path, a second apart. *)
Fixpoint upload_rounds (u : Uploader) (p : string) (d m : bytes) (n : nat)
  : list event :=
  match n with
  | O => []
  | S n' =>
      EvUpload u p d m ::
      match n' with
      | O => []
      | S _ => EvSleep 1000 :: upload_rounds u p d m n'
      end
  end.

(** The pauses a log holds, in order. *)
Definition sleep_of (e : event) : option Z :=
  match e with EvSleep d => Some d | _ => None end.

Definition sleeps (l : list event) : list Z := omap sleep_of l.

(** The pauses a policy grants, in order. *)
Definition pause_of (st : backoffStep) : option Z :=
  match st with Pause d => Some d | CtxDone _ => None end.

Definition pauses (policy : list backoffStep) : list Z := omap pause_of policy.

(** The uploads a log holds, in order. *)
Definition upload_of (e : event) : option (Uploader * string * bytes * bytes) :=
  match e with EvUpload u p d m => Some (u, p, d, m) | _ => None end.

Definition uploads (l : list event) : list (Uploader * string * bytes * bytes) :=
  omap upload_of l.

(** The registration requests a log holds, in order. *)
Definition registration_of (e : event) : option registerBlobRequest :=
  match e with EvRegisterBlob r => Some r | _ => None end.

(** The channel entries of a registration request, across its blobs and
    chunks. *)
Definition request_channels (req : registerBlobRequest) : list channelMetadata :=
  blob ← rbr_Blobs req; chunk ← bm_Chunks blob; chk_Channels chunk.

(** The fields of a channel that are set when it is opened and that no
    method assigns. *)
Definition same_identity (c c' : SnowflakeIngestionChannel) : Prop :=
  sic_ChannelOptions c' = sic_ChannelOptions c
  /\ role c' = role c
  /\ clientPrefix c' = clientPrefix c
  /\ version c' = version c
  /\ schema c' = schema c
  /\ sic_encryptionInfo c' = sic_encryptionInfo c
  /\ transformers c' = transformers c.

End MoreVocabulary.

(** ** Further scenarios *)

Module FurtherScenario.
Import Demo Scenario.

#[local] Existing Instance collab.

(** The channel and the client of [s0] after a call of [InsertRows] that
    returned nil. *)
Definition s_after : ChanWorld := (InsertRows rm_ok batch3 s0).2.

(** The registration request of a second call of [InsertRows], on
    [s_after], and its channel entry. *)
Definition req_after : registerBlobRequest :=
  registerBlob_request
    (set_buffer batch3
       (set_fileMetadata "primaryFileId" "pfx_7_844424930131973_3" (chan s_after)))
    "pfx_7_4" "pfx_7_844424930131973_3" []
    (padBuffer batch3 aes_BlockSize) 3 3 tt 0 1000 2000.

Definition entry_after : channelMetadata :=
  {| cm_Channel := "ch"; cm_ClientSequencer := 42; cm_RowSequencer := 2;
     cm_StartOffsetToken := None; cm_EndOffsetToken := None;
     cm_OffsetToken := None |}.

(** A batch of [2^31] bytes, which the encoder of the instance writes as it
    is: a file of 2 GiB. *)
Definition batch_2GiB : bytes := replicate (Z.to_nat (2 ^ 31)) Byte.x00.

(** Every poll answers with the persisted client sequencer 42 and the
    persisted row sequencer 1. *)
Definition rm_committed : Remote :=
  remote 0 (inl (registered 0 42))
    (fun _ => inl (status_of [persisted 42 1])) [].

(** No poll is answered; the policy grants two pauses. *)
Definition rm_silent : Remote :=
  remote 0 (inl (registered 0 42)) no_status [Pause 1; Pause 10].

(** The stage refuses every upload with a permanent error. *)
Definition rm_denied : Remote :=
  {| rm_now := rm_now rm_ok;
     rm_rand := rm_rand rm_ok;
     rm_NewRestClient := rm_NewRestClient rm_ok;
     rm_configureClient := rm_configureClient rm_ok;
     rm_openChannel := rm_openChannel rm_ok;
     rm_dropChannel := rm_dropChannel rm_ok;
     rm_channelStatus := rm_channelStatus rm_ok;
     rm_upload := fun _ _ _ _ _ => Some (ErrPermanent (ErrMsg "access denied"));
     rm_registerBlob := rm_registerBlob rm_ok;
     rm_backoff := rm_backoff rm_ok |}.

(** The answer of a configure call that names the stage [stage2]. *)
Definition configured : clientConfigureResponse :=
  {| ccs_StatusCode := 0; ccs_Message := ""; ccs_StageLocation := "stage2";
     ccs_Prefix := "pfx"; ccs_DeploymentID := 7 |}.

(** The configure call succeeds. *)
Definition rm_tick : Remote :=
  {| rm_now := rm_now rm_ok;
     rm_rand := rm_rand rm_ok;
     rm_NewRestClient := rm_NewRestClient rm_ok;
     rm_configureClient := fun _ => inl configured;
     rm_openChannel := rm_openChannel rm_ok;
     rm_dropChannel := rm_dropChannel rm_ok;
     rm_channelStatus := rm_channelStatus rm_ok;
     rm_upload := rm_upload rm_ok;
     rm_registerBlob := rm_registerBlob rm_ok;
     rm_backoff := rm_backoff rm_ok |}.

(** The channel of [s0] on a client whose cell held an error until a tick of
    the refresh loop succeeded. *)
Definition s_refreshed : ChanWorld :=
  {| chan := channel 3 0 0;
     world := (uploadRefresh rm_tick "ACCOUNTADMIN" (world0 stale)).2 |}.

End FurtherScenario.

(** * The chat processor

    [ollamaCompletionProcessor] of package [ollama], in the same source
    file: construction from a parsed configuration, and [Process], which
    evaluates the prompts of a message, sends one chat request and wraps the
    reply in a copy of the message. *)

Module Ollama.

(** A Go byte slice, which is nil or holds bytes: [Process] tests its image
    against nil. *)
Inductive slice : Type :=
| slice_nil
| slice_of (b : bytes).

Definition slice_bytes (sl : slice) : bytes :=
  match sl with slice_nil => [] | slice_of b => b end.

(** How a call ends: it returns a value or an error, or it panics. *)
Inductive outcome (A : Type) : Type :=
| Returns (r : A + error)
| Panics.

Arguments Returns {A} r.
Arguments Panics {A}.

(** [string(b)] and [[]byte(s)] *)
Definition string_of_bytes (b : bytes) : string := String.string_of_list_byte b.
Definition bytes_of_string (s : string) : bytes := String.list_byte_of_string s.

(** The configuration, message and interpolation interfaces of the
    [service] and [bloblang] packages, the validity test of [unicode/utf8]
    and [newBaseProcessor], which is defined in another file of the
    package. *)
Class Deps : Type := {
  ParsedConfig : Type;
  Resources : Type;
  InterpolatedString : Type;
  Executor : Type;
  Options : Type;
  Client : Type;
  Body : Type;
  conf_Contains : ParsedConfig -> string -> bool;
  conf_FieldInterpolatedString : ParsedConfig -> string -> InterpolatedString + error;
  conf_FieldBloblang : ParsedConfig -> string -> Executor + error;
  conf_FieldString : ParsedConfig -> string -> string + error;
  conf_FieldBool : ParsedConfig -> string -> bool + error;
  (** the payload [SetBytes] stores *)
  body_raw : bytes -> Body;
  body_AsBytes : Body -> slice + error;
  utf8_Valid : bytes -> bool;
  (** [%q] of [fmt] *)
  fmt_q : string -> string;
}.

Section Processor.
Context `{Deps}.

(** A message: its payload and its metadata. *)
Record Message := {
  msg_body : Body;
  msg_meta : gmap string string;
}.

Definition AsBytes (m : Message) : slice + error := body_AsBytes (msg_body m).

(** [m.SetBytes(b)] *)
Definition SetBytes (b : bytes) (m : Message) : Message :=
  {| msg_body := body_raw b; msg_meta := msg_meta m |}.

(** [m.MetaSet(k, v)] *)
Definition MetaSet (k v : string) (m : Message) : Message :=
  {| msg_body := msg_body m; msg_meta := <[k := v]> (msg_meta m) |}.

Record baseOllamaProcessor := {
  model : string;
  opts : Options;
  client : Client;
}.

Record ollamaCompletionProcessor := {
  base : baseOllamaProcessor;
  format : string;
  userPrompt : option InterpolatedString;
  systemPrompt : option InterpolatedString;
  image : option Executor;
  savePrompt : bool;
}.

Record api_Message := {
  Role : string;
  Content : string;
  Images : list bytes;
}.

Record api_ChatRequest := {
  req_Model : string;
  req_Options : Options;
  req_Format : string;
  req_Messages : list api_Message;
  req_Stream : option bool;
}.

Record api_ChatResponse := {
  resp_Message : api_Message;
}.

(** What the processor runs against: the base processor the package builds
    from a configuration, the evaluation of interpolations and mappings on a
    message, and the chat endpoint, which hands its responses to the callback
    in order and then returns its error. [msg.BloblangQuery] returns a nil
    message and a nil error when the mapping deletes the message. *)
Record Env := {
  env_newBaseProcessor : ParsedConfig -> Resources -> baseOllamaProcessor + error;
  env_TryString : InterpolatedString -> Message -> string + error;
  env_BloblangQuery : Message -> Executor -> option Message + error;
  env_Chat : Client -> api_ChatRequest -> list api_ChatResponse * option error;
}.

Definition ocpFieldUserPrompt : string := "prompt".
Definition ocpFieldSystemPrompt : string := "system_prompt".
Definition ocpFieldResponseFormat : string := "response_format".
Definition ocpFieldImage : string := "image".
Definition ocpFieldEmitPromptMetadata : string := "save_prompt_metadata".

(** [if conf.Contains(name) { v, err := field(name); ... }]: the optional
    field, or the error of reading it. *)
Definition optional_field {A} (conf : ParsedConfig) (name : string)
    (field : ParsedConfig -> string -> A + error) : option A + error :=
  if conf_Contains conf name then
    match field conf name with
    | inl v => inl (Some v)
    | inr e => inr e
    end
  else inl None.

(** [makeOllamaCompletionProcessor]: the processor or the error, and whether
    [newBaseProcessor] was called. *)
Definition makeOllamaCompletionProcessor (env : Env) (conf : ParsedConfig)
    (mgr : Resources) : (ollamaCompletionProcessor + error) * bool :=
  match optional_field conf ocpFieldUserPrompt conf_FieldInterpolatedString with
  | inr e => (inr e, false)
  | inl up =>
  match optional_field conf ocpFieldSystemPrompt conf_FieldInterpolatedString with
  | inr e => (inr e, false)
  | inl sp =>
  match optional_field conf ocpFieldImage conf_FieldBloblang with
  | inr e => (inr e, false)
  | inl img =>
  match conf_FieldString conf ocpFieldResponseFormat with
  | inr e => (inr e, false)
  | inl fmt =>
  match (if decide (fmt = "json") then inl "json"
         else if decide (fmt = "text") then inl ""
         else inr (ErrMsg ("invalid " +:+ ocpFieldResponseFormat +:+ ": "
                           +:+ fmt_q fmt))) with
  | inr e => (inr e, false)
  | inl f =>
  match conf_FieldBool conf ocpFieldEmitPromptMetadata with
  | inr e => (inr e, false)
  | inl save =>
  match env_newBaseProcessor env conf mgr with
  | inr e => (inr e, true)
  | inl b =>
      (inl {| base := b; format := f; userPrompt := up; systemPrompt := sp;
              image := img; savePrompt := save |}, true)
  end end end end end end end.

Definition computePrompt (env : Env) (o : ollamaCompletionProcessor)
    (msg : Message) : string + error :=
  match userPrompt o with
  | Some up => env_TryString env up msg
  | None =>
      match AsBytes msg with
      | inr e => inr e
      | inl b =>
          if utf8_Valid (slice_bytes b) then inl (string_of_bytes (slice_bytes b))
          else inr (ErrMsg "message payload contained invalid UTF8")
      end
  end.

(** The request [generateCompletion] builds. *)
Definition chat_request (o : ollamaCompletionProcessor)
    (systemPrompt userPrompt : string) (image : slice) : api_ChatRequest :=
  let system :=
    if decide (systemPrompt <> "") then
      [ {| Role := "system"; Content := systemPrompt; Images := [] |} ]
    else [] in
  let images :=
    match image with
    | slice_nil => []
    | slice_of b => [b]
    end in
  {| req_Model := model (base o);
     req_Options := opts (base o);
     req_Format := format o;
     req_Messages :=
       system ++ [ {| Role := "user"; Content := userPrompt; Images := images |} ];
     req_Stream := Some false |}.

(** [generateCompletion]: the callback keeps the content of each response in
    [g], so [g] ends as the content of the last one, or empty. Returned with
    [g] and the error are the requests that went to the chat endpoint. *)
Definition generateCompletion (env : Env) (o : ollamaCompletionProcessor)
    (systemPrompt userPrompt : string) (image : slice)
  : string * option error * list api_ChatRequest :=
  let req := chat_request o systemPrompt userPrompt image in
  let '(resps, err) := env_Chat env (client (base o)) req in
  (foldl (fun _ resp => Content (resp_Message resp)) "" resps, err, [req]).

(** The evaluation of the image mapping of [Process]. On a nil message
    [o.AsBytes()] dereferences a nil pointer. *)
Definition evalImage (env : Env) (o : ollamaCompletionProcessor)
    (msg : Message) : outcome slice :=
  match image o with
  | None => Returns (inl slice_nil)
  | Some ex =>
      match env_BloblangQuery env msg ex with
      | inr e =>
          Returns (inr (ErrWrap ("unable to execute bloblang for `"
                                 +:+ ocpFieldImage +:+ "`: ") e))
      | inl None => Panics
      | inl (Some q) =>
          match AsBytes q with
          | inr e =>
              Returns (inr (ErrWrap ("unable to convert `" +:+ ocpFieldImage
                                     +:+ "` result to a byte array: ") e))
          | inl b => Returns (inl b)
          end
      end
  end.

(** The evaluation of the system prompt of [Process]: empty when none is
    configured. *)
Definition evalSystemPrompt (env : Env) (o : ollamaCompletionProcessor)
    (msg : Message) : string + error :=
  match systemPrompt o with
  | Some sp => env_TryString env sp msg
  | None => inl ""
  end.

(** The content [generateCompletion] returns for the responses the chat
    endpoint gave. *)
Definition reply_content (resps : list api_ChatResponse) : string :=
  default "" ((fun resp => Content (resp_Message resp)) <$> last resps).

(** [Process]: how the call ends, with the batch or the error, and the chat
    requests that were sent. *)
Definition Process (env : Env) (o : ollamaCompletionProcessor) (msg : Message)
  : outcome (list Message) * list api_ChatRequest :=
  match evalSystemPrompt env o msg with
  | inr e => (Returns (inr e), [])
  | inl sp =>
  match computePrompt env o msg with
  | inr e => (Returns (inr e), [])
  | inl up =>
  match evalImage env o msg with
  | Panics => (Panics, [])
  | Returns (inr e) => (Returns (inr e), [])
  | Returns (inl img) =>
      match generateCompletion env o sp up img with
      | (_, Some e, sent) => (Returns (inr e), sent)
      | (g, None, sent) =>
          let m := SetBytes (bytes_of_string g) msg in
          let m :=
            if savePrompt o then
              MetaSet "prompt" up
                (if decide (sp <> "") then MetaSet "system_prompt" sp m else m)
            else m in
          (Returns (inl [m]), sent)
      end
  end end end.

End Processor.

(** A small instance: a configuration is a list of named fields, a payload
    is its bytes, an interpolation is a constant or fails, and a mapping
    yields a fixed image. *)
Module Demo.

Inductive field : Type :=
| FString (v : string)
| FBool (v : bool)
| FBad.

Definition lookup_field (conf : list (string * field)) (name : string)
  : option field :=
  (fun found => found.2.2) <$> list_find (fun kv => kv.1 = name) conf.

Definition deps : Deps := {|
  ParsedConfig := list (string * field);
  Resources := unit;
  InterpolatedString := option string;
  Executor := bytes;
  Options := unit;
  Client := unit;
  Body := bytes;
  conf_Contains := fun conf name => bool_decide (is_Some (lookup_field conf name));
  conf_FieldInterpolatedString := fun conf name =>
    match lookup_field conf name with
    | Some (FString v) => inl (Some v)
    | _ => inr (ErrMsg "bad interpolation")
    end;
  conf_FieldBloblang := fun conf name =>
    match lookup_field conf name with
    | Some (FString v) => inl (bytes_of_string v)
    | _ => inr (ErrMsg "bad mapping")
    end;
  conf_FieldString := fun conf name =>
    match lookup_field conf name with
    | Some (FString v) => inl v
    | _ => inr (ErrMsg "not a string")
    end;
  conf_FieldBool := fun conf name =>
    match lookup_field conf name with
    | Some (FBool v) => inl v
    | _ => inr (ErrMsg "not a bool")
    end;
  body_raw := fun b => b;
  body_AsBytes := fun b => inl (slice_of b);
  utf8_Valid := fun b => bool_decide (Forall (fun x => Byte.to_N x < 128)%N b);
  fmt_q := fun v => v;
|}.

#[local] Existing Instance deps.

(** The chat endpoint answers with the content of the last message of the
    request. *)
Definition echo : Env :=
  {| env_newBaseProcessor := fun _ _ =>
       inl {| model := "llava"; opts := tt; client := tt |};
     env_TryString := fun i _ =>
       match i with Some v => inl v | None => inr (ErrMsg "interpolation failed") end;
     env_BloblangQuery := fun m ex =>
       inl (Some {| msg_body := ex; msg_meta := msg_meta m |});
     env_Chat := fun _ req =>
       ([ {| resp_Message :=
               {| Role := "assistant";
                  Content := default "" (Content <$> last (req_Messages req));
                  Images := [] |} |} ], None) |}.

Definition conf_json : list (string * field) :=
  [ ("model", FString "llava"); ("system_prompt", FString "be brief");
    ("response_format", FString "json"); ("save_prompt_metadata", FBool true) ].

Definition conf_yaml : list (string * field) :=
  [ ("response_format", FString "yaml"); ("save_prompt_metadata", FBool true) ].

(** The processor [makeOllamaCompletionProcessor] builds from [conf_json]. *)
Definition proc_json : ollamaCompletionProcessor :=
  {| base := {| model := "llava"; opts := tt; client := tt |};
     format := "json"; userPrompt := None; systemPrompt := Some (Some "be brief");
     image := None; savePrompt := true |}.

(** A processor whose system prompt cannot be evaluated. *)
Definition proc_broken : ollamaCompletionProcessor :=
  {| base := {| model := "llava"; opts := tt; client := tt |};
     format := ""; userPrompt := None; systemPrompt := Some None;
     image := None; savePrompt := false |}.

(** A processor with no prompt of its own, which does not save prompts. *)
Definition proc_plain : ollamaCompletionProcessor :=
  {| base := {| model := "llava"; opts := tt; client := tt |};
     format := ""; userPrompt := None; systemPrompt := None;
     image := None; savePrompt := false |}.

Definition hello : Message :=
  {| msg_body := bytes_of_string "hello"; msg_meta := {[ "topic" := "greetings" ]} |}.

Definition not_utf8 : Message :=
  {| msg_body := [Byte.xff]; msg_meta := ∅ |}.

(** A processor with an image mapping, which yields the bytes of [png]. *)
Definition proc_image : ollamaCompletionProcessor :=
  {| base := {| model := "llava"; opts := tt; client := tt |};
     format := ""; userPrompt := None; systemPrompt := None;
     image := Some (bytes_of_string "png"); savePrompt := false |}.

(** What [proc_json] makes of [hello] when the model echoes. *)
Definition answered : Message :=
  {| msg_body := bytes_of_string "hello";
     msg_meta :=
       <["prompt" := "hello"]>
         (<["system_prompt" := "be brief"]> {[ "topic" := "greetings" ]}) |}.

End Demo.

End Ollama.

(** * Properties *)

Section Properties.
Context `{Collaborators}.

(** ** Machine integers *)

Lemma wrap_in_range (w z : Z) :
  0 < w -> - 2 ^ (w - 1) <= wrap w z < 2 ^ (w - 1).
Proof.
  intros Hw. unfold wrap.
  assert (2 ^ w = 2 * 2 ^ (w - 1)) as ->.
  { rewrite <- Z.pow_succ_r by lia. f_equal. lia. }
  assert (0 < 2 ^ (w - 1)) by (apply Z.pow_pos_nonneg; lia).
  pose proof (Z.mod_pos_bound (z + 2 ^ (w - 1)) (2 * 2 ^ (w - 1))). lia.
Qed.

Lemma wrap_id (w z : Z) :
  0 < w -> - 2 ^ (w - 1) <= z < 2 ^ (w - 1) -> wrap w z = z.
Proof.
  intros Hw Hz. unfold wrap.
  assert (2 ^ w = 2 * 2 ^ (w - 1)) as ->.
  { rewrite <- Z.pow_succ_r by lia. f_equal. lia. }
  rewrite Z.mod_small by lia. lia.
Qed.

Lemma int64_id (z : Z) : in_int64 z -> int64 z = z.
Proof. intros Hz. apply wrap_id; [lia|exact Hz]. Qed.

Lemma int32_id (z : Z) : in_int32 z -> int32 z = z.
Proof. intros Hz. apply wrap_id; [lia|exact Hz]. Qed.

Lemma int64_in_range (z : Z) : in_int64 (int64 z).
Proof. apply (wrap_in_range 64); lia. Qed.

(** Wrapping commutes with adding under the wrap. *)
Lemma int64_add_l (a b : Z) : int64 (int64 a + b) = int64 (a + b).
Proof.
  unfold int64, wrap. f_equal.
  replace ((a + 2 ^ (64 - 1)) mod 2 ^ 64 - 2 ^ (64 - 1) + b + 2 ^ (64 - 1))
    with ((a + 2 ^ (64 - 1)) mod 2 ^ 64 + b) by lia.
  rewrite Zplus_mod_idemp_l. f_equal. lia.
Qed.

(** Two integers less than [2^64] apart wrap to different values. *)
Lemma int64_apart (a k : Z) : 0 < k < 2 ^ 64 -> int64 (a + k) <> int64 a.
Proof.
  intros Hk Heq. unfold int64, wrap in Heq.
  assert ((a + k + 2 ^ (64 - 1)) mod 2 ^ 64 = (a + 2 ^ (64 - 1)) mod 2 ^ 64)
    as Hmod by lia.
  apply Z.cong_iff_ex in Hmod as [q Hq].
  assert (k = 2 ^ 64 * q) as Hkq by lia.
  assert (0 < q) by nia. assert (q < 1) by nia. lia.
Qed.

(** ** The thread identifier *)

Lemma rand_N_range (rm : Remote) (n : Z) : 0 < n -> 0 <= rand_N rm n < n.
Proof. intros Hn. unfold rand_N. by apply Z.mod_pos_bound. Qed.

(** The channel id sits in the sixteen high bits and the random value in the
    forty-eight low bits: nothing is lost of either. *)
Lemma fakeThreadID_value (id r : Z) :
  in_int16 id -> 0 <= r < 2 ^ 48 -> fakeThreadID id r = id * 2 ^ 48 + r.
Proof.
  intros Hid Hr. unfold fakeThreadID, in_int16 in *.
  rewrite Z.shiftl_mul_pow2 by lia.
  rewrite int64_id.
  2: { unfold in_int64. lia. }
  assert (Hdisjoint : Z.land (id * 2 ^ 48) r = 0).
  { apply Z.bits_inj'. intros n Hn.
    rewrite Z.land_spec, Z.bits_0.
    destruct (decide (n < 48)) as [Hlt|Hge].
    - rewrite Z.mul_pow2_bits_low by lia. done.
    - rewrite (Z.bits_above_log2 r n), andb_false_r; [done|lia|].
      destruct (decide (r = 0)) as [->|Hne]; [simpl; lia|].
      assert (Z.log2 r < 48) by (apply Z.log2_lt_pow2; lia). lia. }
  rewrite <- Z.lxor_lor by done. symmetry. by apply Z.add_nocarry_lxor.
Qed.

Lemma fakeThreadID_inj (id1 id2 r1 r2 : Z) :
  in_int16 id1 -> in_int16 id2 -> 0 <= r1 < 2 ^ 48 -> 0 <= r2 < 2 ^ 48 ->
  fakeThreadID id1 r1 = fakeThreadID id2 r2 -> id1 = id2 /\ r1 = r2.
Proof.
  intros Hid1 Hid2 Hr1 Hr2. rewrite !fakeThreadID_value by done.
  unfold in_int16 in *. lia.
Qed.

(** ** The retry loop *)

Lemma Retry_unfold (op : nat -> list event * option error)
    (policy : list backoffStep) (n : nat) :
  Retry op policy n =
  match (op n).2 with
  | None => (S n, (op n).1, None)
  | Some e =>
      match as_permanent e with
      | Some inner => (S n, (op n).1, Some inner)
      | None =>
          match policy with
          | [] => (S n, (op n).1, Some e)
          | CtxDone ctxErr :: _ => (S n, (op n).1, Some ctxErr)
          | Pause d :: policy' =>
              ((Retry op policy' (S n)).1.1,
               (op n).1 ++ EvSleep d :: (Retry op policy' (S n)).1.2,
               (Retry op policy' (S n)).2)
          end
      end
  end.
Proof.
  destruct policy as [|[d|ce] policy']; simpl;
    destruct (op n) as [evs [e|]]; simpl; try done;
    destruct (as_permanent e); try done.
  by destruct (Retry op policy' (S n)) as [[m evs'] r'].
Qed.

(** What a run of [Retry] amounts to: the operation ran [m - n] times, at
    most once more than the policy has pauses; every run but the last
    failed with an error that is not permanent; and [Retry] returns nil
    exactly when the last run did. *)
Lemma Retry_spec (op : nat -> list event * option error)
    (policy : list backoffStep) (n : nat) :
  let m := (Retry op policy n).1.1 in
  let r := (Retry op policy n).2 in
  (n < m <= n + length policy + 1)%nat
  /\ (forall k, (n <= k)%nat -> (S k < m)%nat ->
       exists e, (op k).2 = Some e /\ as_permanent e = None)
  /\ (r = None <-> (op (m - 1)%nat).2 = None).
Proof.
  revert n. induction policy as [|[d|ce] policy IH]; intros n;
    rewrite Retry_unfold.
  1, 3: destruct (op n).2 as [e|] eqn:Hop; [destruct (as_permanent e)|];
    simpl; replace (n - 0)%nat with n by lia;
    (split; [lia|]); (split; [intros; lia|]); rewrite Hop; by split.
  destruct (op n).2 as [e|] eqn:Hop; [destruct (as_permanent e) eqn:Hperm|];
    simpl; replace (n - 0)%nat with n by lia.
  1, 3: (split; [lia|]); (split; [intros; lia|]); rewrite Hop; by split.
  destruct (IH (S n)) as (Hm & Hbefore & Hlast).
  split; [lia|]. split; [|done].
  intros k Hk1 Hk2. destruct (decide (k = n)) as [->|Hne]; [by eauto|].
  apply Hbefore; lia.
Qed.

(** The log of [Retry] holds the logs of the runs, separated by the pauses
    of the policy. *)
Lemma Retry_events (P : event -> Prop)
    (op : nat -> list event * option error) (policy : list backoffStep) (n : nat) :
  (forall k, Forall P (op k).1) ->
  (forall d, Pause d ∈ policy -> P (EvSleep d)) ->
  Forall P (Retry op policy n).1.2.
Proof.
  intros Hop. revert n.
  induction policy as [|[d|ce] policy IH]; intros n Hsleep; rewrite Retry_unfold;
    repeat case_match; simpl; try apply Hop.
  apply Forall_app. split; [apply Hop|].
  constructor; [apply Hsleep; by left|].
  apply IH. intros d' Hd'. apply Hsleep. by right.
Qed.

(** The log of [Retry] starts with the log of the first run. *)
Lemma Retry_first_run (op : nat -> list event * option error)
    (policy : list backoffStep) (n : nat) (e : event) :
  e ∈ (op n).1 -> e ∈ (Retry op policy n).1.2.
Proof.
  intros Hin. rewrite Retry_unfold.
  repeat case_match; simpl; try done. apply elem_of_app. by left.
Qed.

(** A policy of pauses only is used up before [Retry] returns an error that
    is not permanent. *)
Lemma Retry_exhausts (op : nat -> list event * option error)
    (policy : list backoffStep) (n : nat) (e : error) :
  Forall (fun st => is_Pause st = true) policy ->
  (op ((Retry op policy n).1.1 - 1)%nat).2 = Some e ->
  as_permanent e = None ->
  (Retry op policy n).1.1 = (n + length policy + 1)%nat.
Proof.
  intros Hpol. revert n.
  induction Hpol as [|[d|ce] policy Hst Hpol IH]; intros n; rewrite Retry_unfold;
    try done.
  - repeat case_match; simpl; replace (n - 0)%nat with n by lia;
      intros; simplify_eq; lia.
  - destruct (op n).2 as [e'|] eqn:Hop; [destruct (as_permanent e') eqn:Hperm|];
      simpl; replace (n - 0)%nat with n by lia.
    1, 3: intros; simplify_eq.
    intros Hlast Hnp. rewrite (IH (S n)) by done. lia.
Qed.

(** When every run of the operation logs exactly one event of a kind that
    pauses are not of, the log of [Retry] holds as many events of that kind
    as the operation had runs. *)
Lemma Retry_count (f : event -> bool)
    (op : nat -> list event * option error) (policy : list backoffStep) (n : nat) :
  (forall d, f (EvSleep d) = false) ->
  (forall k, length (filter (fun e => f e = true) (op k).1) = 1%nat) ->
  (length (filter (fun e => f e = true) (Retry op policy n).1.2) + n)%nat
  = (Retry op policy n).1.1.
Proof.
  intros Hsleep Hop. revert n.
  induction policy as [|[d|ce] policy IH]; intros n; rewrite Retry_unfold;
    repeat case_match; simpl; rewrite ?Hop; try lia.
  rewrite filter_app, length_app, Hop.
  rewrite filter_cons_False by (by rewrite Hsleep). rewrite <- IH. lia.
Qed.

(** ** Logs only grow *)

#[local] Arguments Retry : simpl never.

Ltac unfold_monad :=
  unfold bind, ret, fail, gets, modify, try, try_wrap, check, liftW,
    emit, emits, set_chan, nextRequestID, requestIDCounter_Add1,
    uploader_Load, uploader_Store in *.

Ltac crush_body :=
  unfold_monad; simpl in *;
  repeat (case_match; simplify_eq/=); simplify_eq/=.

Lemma InsertRows_body_log (rm : Remote) (batch : Batch) (s : ChanWorld) :
  exists evs,
    log (world (snd (InsertRows_body rm batch s))) = log (world s) ++ evs.
Proof.
  unfold InsertRows_body. crush_body;
    rewrite <- ?(assoc_L (++));
    first [ by eexists | by exists []; rewrite (right_id_L [] (++)) ].
Qed.

Lemma InsertRows_log (rm : Remote) (batch : Batch) (s : ChanWorld) :
  log (world (snd (InsertRows rm batch s)))
  = log (world s) ++ InsertRows_events rm batch s.
Proof.
  unfold InsertRows_events.
  destruct (InsertRows_body_log rm batch s) as [evs Hevs].
  unfold InsertRows. destruct (InsertRows_body rm batch s) as [[stats|e] s'];
    simpl in *; rewrite Hevs; by rewrite drop_app_length.
Qed.

Ltac rewrite_lists :=
  repeat match goal with
         | Hl : @eq (list _) _ _ |- _ => rewrite Hl
         end.

(** Case analysis of a call of [InsertRows] along its return statements. *)
Ltac insert_cases Hcall :=
  unfold InsertRows_events; rewrite ?Hcall;
  unfold InsertRows, InsertRows_body in Hcall;
  unfold_monad; simpl in *;
  repeat (case_match; simplify_eq/=); simplify_eq/=;
  rewrite <- ?(assoc_L (++)), ?drop_app_length.

(** ** Sequencers *)

(** C1. A call of [InsertRows] that returns a nil error leaves
    [rowSequencer] one above its value before the call (the [int64]
    increment; the mathematical successor whenever that is an [int64]), and
    leaves in [clientSequencer] the [ClientSequencer] of the single channel
    entry of the answer to the [registerBlob] request the call sent. *)
Theorem InsertRows_success_sequencers (rm : Remote) (batch : Batch)
    (s s' : ChanWorld) (stats : InsertStats) :
  InsertRows rm batch s = (stats, None, s') ->
  rowSequencer (chan s') = int64 (rowSequencer (chan s) + 1)
  /\ (in_int64 (rowSequencer (chan s)) -> in_int64 (rowSequencer (chan s) + 1) ->
      rowSequencer (chan s') = rowSequencer (chan s) + 1)
  /\ exists req resp blob chunk channel,
       last (InsertRows_events rm batch s) = Some (EvRegisterBlob req)
       /\ rm_registerBlob rm req = inl resp
       /\ rbs_Blobs resp = [blob]
       /\ brs_Chunks blob = [chunk]
       /\ krs_Channels chunk = [channel]
       /\ crs_StatusCode channel = responseSuccess
       /\ clientSequencer (chan s') = crs_ClientSequencer channel.
Proof.
  intros Hcall. insert_cases Hcall.
  split; [done|]. split; [intros _ Hsucc; by apply int64_id|].
  eexists _, _, _, _, _. split_and!; try eassumption; try done.
  - by rewrite (assoc_L (++)), last_snoc.
  - by apply dec_stable.
Qed.

(** The two assignments to the sequencers come after the last return
    statement that carries an error. *)
Lemma InsertRows_error_unchanged (rm : Remote) (batch : Batch)
    (s s' : ChanWorld) (stats : InsertStats) (e : error) :
  InsertRows rm batch s = (stats, Some e, s') ->
  rowSequencer (chan s') = rowSequencer (chan s)
  /\ clientSequencer (chan s') = clientSequencer (chan s).
Proof. intros Hcall. insert_cases Hcall; done. Qed.

(** C2. A call of [InsertRows] that returns an error, whichever return
    statement produced it, leaves [rowSequencer] and [clientSequencer] as
    they were before the call. *)
Theorem InsertRows_error_sequencers (rm : Remote) (batch : Batch)
    (s s' : ChanWorld) (stats : InsertStats) (e : error) :
  InsertRows rm batch s = (stats, Some e, s') ->
  rowSequencer (chan s') = rowSequencer (chan s)
  /\ clientSequencer (chan s') = clientSequencer (chan s).
Proof. apply InsertRows_error_unchanged. Qed.

(** ** The shape of a log of [InsertRows] *)

Lemma len_1 {A} (l : list A) : len l = 1 <-> exists x, l = [x].
Proof.
  unfold len. destruct l as [|x [|y l]]; simpl; split;
    try lia; try (intros [z Hz]; discriminate); eauto.
Qed.

Lemma upload_log (rm : Remote) (u : Uploader) (p : string) (enc md5 : bytes)
    (policy : list backoffStep) (n m : nat) (evs : list event)
    (r : option error) :
  Retry (upload_op rm u p enc md5) policy n = (m, evs, r) ->
  Forall (fun e => is_upload_or_sleep e = true) evs.
Proof.
  intros HR.
  pose proof (Retry_events (fun e => is_upload_or_sleep e = true)
                (upload_op rm u p enc md5) policy n) as Hev.
  rewrite HR in Hev. apply Hev; [|done].
  intros k. by repeat constructor.
Qed.

Lemma upload_log_registrations (evs : list event) :
  Forall (fun e => is_upload_or_sleep e = true) evs ->
  filter (fun e => is_registerBlob e = true) evs = [].
Proof.
  induction 1 as [|e evs He _ IH]; [done|].
  rewrite filter_cons_False; [done|]. by destruct e.
Qed.

Lemma upload_log_not_register (evs : list event) (req : registerBlobRequest) :
  Forall (fun e => is_upload_or_sleep e = true) evs ->
  EvRegisterBlob req ∉ evs.
Proof.
  intros Hall Hin. by apply (proj1 (Forall_forall _ _) Hall) in Hin.
Qed.

(** The anatomy of a call of [InsertRows], read off its return
    statements. The call ends (1) at the transformation, having drawn
    nothing from the counter and logged nothing; or (2) between the
    generation of the path and the acquisition of the uploader, having drawn
    once; or (3) at the upload, when the retry loop gave up; or (4) after the
    registration request, having drawn twice, with an outcome decided by the
    answer. *)
Lemma InsertRows_anatomy (rm : Remote) (batch : Batch) (s s' : ChanWorld)
    (stats : InsertStats) (err : option error) :
  InsertRows rm batch s = (stats, err, s') ->
  let p := InsertRows_blobPath rm s in
  let evs := InsertRows_events rm batch s in
  let c0 := requestIDCounter (shared (world s)) in
  let c1 := requestIDCounter (shared (world s')) in
  (is_Some err /\ evs = [] /\ c1 = c0)
  \/ (is_Some err /\ evs = [EvBlobPath p] /\ c1 = int64 (c0 + 1))
  \/ (exists enc n ups e,
        sur_err (uploader (shared (world s))) = None
        /\ Retry (upload_op rm (sur_uploader (uploader (shared (world s))))
                    p enc (md5_Sum enc))
                 (WithMaxRetries_Constant 1000 3) 0 = (n, ups, Some e)
        /\ err = Some e /\ evs = [EvBlobPath p] ++ ups /\ c1 = int64 (c0 + 1))
  \/ (exists enc n ups req,
        sur_err (uploader (shared (world s))) = None
        /\ Retry (upload_op rm (sur_uploader (uploader (shared (world s))))
                    p enc (md5_Sum enc))
                 (WithMaxRetries_Constant 1000 3) 0 = (n, ups, None)
        /\ evs = [EvBlobPath p] ++ ups ++ [EvRegisterBlob req]
        /\ rbr_RequestID req
           = fmt_request_id (clientPrefix (chan s)) (int64 (int64 (c0 + 1) + 1))
        /\ c1 = int64 (int64 (c0 + 1) + 1)
        /\ match rm_registerBlob rm req with
           | inr e => err = Some e
           | inl resp =>
               (shape_mismatch resp /\ is_Some err)
               \/ exists blob chunk channel,
                    rbs_Blobs resp = [blob] /\ brs_Chunks blob = [chunk]
                    /\ krs_Channels chunk = [channel]
                    /\ (err = None <-> crs_StatusCode channel = responseSuccess)
           end).
Proof.
  intros Hcall. unfold InsertRows_blobPath. insert_cases Hcall.
  all: try (left; split_and!; [by eexists|apply drop_all|done]).
  all: try (right; left; split_and!; [by eexists|done|done]).
  all: try (right; right; left; eexists _, _, _, _;
            split_and!; [done|eassumption|done..]).
  all: right; right; right; eexists _, _, _, _;
    (split_and!; [done|eassumption|reflexivity|done|done|]);
    match goal with Hr : rm_registerBlob _ _ = _ |- _ => rewrite Hr end;
    try done.
  all: first
    [ right; eexists _, _, _; split_and!; [eassumption..|];
      split; [intros _; by apply dec_stable|done]
    | right; eexists _, _, _; split_and!; [eassumption..|];
      split; [done|intros ?; contradiction]
    | left; split; [|by eexists]; unfold shape_mismatch, len;
      first
        [ left; rewrite_lists; simpl; lia
        | right; eexists; split; [eassumption|];
          first
            [ left; rewrite_lists; simpl; lia
            | right; eexists; split; [eassumption|];
              rewrite_lists; simpl; lia ] ] ].
Qed.

Lemma registrations_app (l1 l2 : list event) :
  registrations (l1 ++ l2) = (registrations l1 + registrations l2)%nat.
Proof. unfold registrations. by rewrite filter_app, length_app. Qed.

Lemma upload_attempts_app (l1 l2 : list event) :
  upload_attempts (l1 ++ l2) = (upload_attempts l1 + upload_attempts l2)%nat.
Proof. unfold upload_attempts. by rewrite filter_app, length_app. Qed.

Lemma upload_log_no_registration (evs : list event) :
  Forall (fun e => is_upload_or_sleep e = true) evs -> registrations evs = 0%nat.
Proof.
  intros Hall. unfold registrations. by rewrite upload_log_registrations.
Qed.

(** C6. When the answer to the [registerBlob] request of a call of
    [InsertRows] does not hold exactly one blob, one chunk in it and one
    channel in that, the call returns an error; the request was the last
    thing the call did and the only registration it sent; the sequencers are
    as before the call. *)
Theorem InsertRows_shape_mismatch (rm : Remote) (batch : Batch)
    (s s' : ChanWorld) (stats : InsertStats) (err : option error)
    (req : registerBlobRequest) (resp : registerBlobResponse) :
  InsertRows rm batch s = (stats, err, s') ->
  EvRegisterBlob req ∈ InsertRows_events rm batch s ->
  rm_registerBlob rm req = inl resp ->
  shape_mismatch resp ->
  is_Some err
  /\ last (InsertRows_events rm batch s) = Some (EvRegisterBlob req)
  /\ registrations (InsertRows_events rm batch s) = 1%nat
  /\ rowSequencer (chan s') = rowSequencer (chan s)
  /\ clientSequencer (chan s') = clientSequencer (chan s).
Proof.
  intros Hcall Hin Hresp Hshape.
  assert (is_Some err
          /\ last (InsertRows_events rm batch s) = Some (EvRegisterBlob req)
          /\ registrations (InsertRows_events rm batch s) = 1%nat)
    as (Herr & Hlast & Hone).
  { destruct (InsertRows_anatomy _ _ _ _ _ _ Hcall)
      as [(_ & Hevs & _)|[(_ & Hevs & _)
         |[(enc & n & ups & e & _ & HR & _ & Hevs & _)
          |(enc & n & ups & req' & _ & HR & Hevs & _ & _ & Hout)]]];
      rewrite Hevs in Hin |- *.
    - by apply elem_of_nil in Hin.
    - apply list_elem_of_singleton in Hin. discriminate.
    - apply upload_log in HR. apply elem_of_app in Hin as [Hin|Hin].
      + apply list_elem_of_singleton in Hin. discriminate.
      + by apply upload_log_not_register in Hin.
    - apply upload_log in HR.
      assert (req' = req) as ->.
      { rewrite !elem_of_app in Hin. destruct Hin as [Hin|[Hin|Hin]].
        - apply list_elem_of_singleton in Hin. discriminate.
        - by apply upload_log_not_register in Hin.
        - apply list_elem_of_singleton in Hin. congruence. }
      rewrite Hresp in Hout. split_and!.
      + destruct Hout as [[_ ?]|(blob & chunk & channel & Hb & Hc & Hd & _)];
          [done|]. exfalso.
        destruct Hshape as [Hb'|(blob' & Hb' & [Hc'|(chunk' & Hc' & Hd')])].
        * by rewrite Hb in Hb'.
        * rewrite Hb in Hb'. injection Hb' as <-. by rewrite Hc in Hc'.
        * rewrite Hb in Hb'. injection Hb' as <-.
          rewrite Hc in Hc'. injection Hc' as <-. by rewrite Hd in Hd'.
      + by rewrite (assoc_L (++)), last_snoc.
      + rewrite !registrations_app, (upload_log_no_registration ups) by done.
        done. }
  split_and!; try done; destruct Herr as [e ->];
    by destruct (InsertRows_error_unchanged _ _ _ _ _ _ Hcall).
Qed.

(** ** Uploads *)

(** The constant policy of [InsertRows] pauses for a second. *)
Lemma upload_log_pauses (rm : Remote) (u : Uploader) (p : string)
    (enc md5 : bytes) (n m : nat) (evs : list event) (r : option error) :
  Retry (upload_op rm u p enc md5) (WithMaxRetries_Constant 1000 3) n
  = (m, evs, r) ->
  Forall (fun e => forall d, e = EvSleep d -> d = 1000) evs.
Proof.
  intros HR.
  pose proof (Retry_events (fun e => forall d, e = EvSleep d -> d = 1000)
                (upload_op rm u p enc md5) (WithMaxRetries_Constant 1000 3) n)
    as Hev.
  rewrite HR in Hev. apply Hev.
  - intros k. by repeat constructor.
  - intros d Hd d' Heq. injection Heq as <-.
    by apply elem_of_replicate in Hd as [[= ->] _].
Qed.

(** The outcomes of the retried upload: at most four attempts, pauses of one
    second only, an error and no registration when the first four attempts
    fail, and the registration after the first attempt that succeeds. *)
Lemma InsertRows_retry_outcomes (rm : Remote) (batch : Batch)
    (s s' : ChanWorld) (stats : InsertStats) (err : option error) :
  InsertRows rm batch s = (stats, err, s') ->
  let evs := InsertRows_events rm batch s in
  (upload_attempts evs <= 4)%nat
  /\ Forall (fun e => forall d, e = EvSleep d -> d = 1000) evs
  /\ ((forall k u p d m, (k < 4)%nat -> rm_upload rm k u p d m <> None) ->
      is_Some err /\ registrations evs = 0%nat)
  /\ (forall k,
        (k < 4)%nat ->
        upload_attempts evs <> 0%nat ->
        (forall u p d m, rm_upload rm k u p d m = None) ->
        (forall j u p d m, (j < k)%nat ->
           exists e, rm_upload rm j u p d m = Some e /\ as_permanent e = None) ->
        upload_attempts evs = S k /\ registrations evs = 1%nat).
Proof.
  intros Hcall evs. subst evs.
  destruct (InsertRows_anatomy _ _ _ _ _ _ Hcall)
    as [(Herr & Hevs & _)|[(Herr & Hevs & _)
       |[(enc & n & ups & e & _ & HR & -> & Hevs & _)
        |(enc & n & ups & req' & _ & HR & Hevs & _ & _ & Hout)]]];
    rewrite Hevs.
  1, 2: split_and!;
    [unfold upload_attempts; simpl; lia|by repeat constructor|done
    |by intros k _ Hne].
  all: pose proof (upload_log _ _ _ _ _ _ _ _ _ _ HR) as Hlog;
    pose proof (upload_log_pauses _ _ _ _ _ _ _ _ _ HR) as Hpauses;
    pose (op := upload_op rm (sur_uploader (uploader (shared (world s))))
                  (InsertRows_blobPath rm s) enc (md5_Sum enc));
    pose proof (Retry_count is_upload op (WithMaxRetries_Constant 1000 3) 0
                  (fun _ => eq_refl) (fun _ => eq_refl)) as Hcount;
    fold (upload_attempts
            (Retry op (WithMaxRetries_Constant 1000 3) 0).1.2) in Hcount;
    pose proof (Retry_spec op (WithMaxRetries_Constant 1000 3) 0)
      as (Hn & Hbefore & Hlast);
    pose proof (Retry_exhausts op (WithMaxRetries_Constant 1000 3) 0) as Hexh;
    subst op; rewrite HR in Hcount, Hn, Hbefore, Hlast, Hexh;
    simpl in Hcount, Hn, Hbefore, Hlast, Hexh;
    rewrite !upload_attempts_app, !registrations_app,
      (upload_log_no_registration ups) by done;
    change (upload_attempts [EvBlobPath (InsertRows_blobPath rm s)]) with 0%nat;
    change (registrations [EvBlobPath (InsertRows_blobPath rm s)]) with 0%nat;
    rewrite ?Nat.add_0_r in Hcount; simpl.
  - split_and!; [lia|by constructor|by split; [eexists|]|].
    intros k Hk _ Hok Hfail. exfalso.
    assert (Hl : rm_upload rm (n - 1) (sur_uploader (uploader (shared (world s))))
                   (InsertRows_blobPath rm s) enc (md5_Sum enc) <> None).
    { intros Hnone. apply Hlast in Hnone. discriminate. }
    destruct (decide (n - 1 < k)%nat) as [Hlt|Hge].
    + destruct (Hfail (n - 1)%nat (sur_uploader (uploader (shared (world s))))
                  (InsertRows_blobPath rm s) enc (md5_Sum enc) Hlt)
        as (e' & He' & Hnp).
      specialize (Hexh e' (ltac:(by repeat constructor)) He' Hnp). lia.
    + destruct (decide (k = n - 1)%nat) as [->|Hne]; [by rewrite Hok in Hl|].
      destruct (Hbefore k ltac:(lia) ltac:(lia)) as (e' & He' & _).
      by rewrite Hok in He'.
  - change (upload_attempts [EvRegisterBlob req']) with 0%nat.
    change (registrations [EvRegisterBlob req']) with 1%nat.
    rewrite Nat.add_0_r.
    assert (Hl : rm_upload rm (n - 1) (sur_uploader (uploader (shared (world s))))
                   (InsertRows_blobPath rm s) enc (md5_Sum enc) = None)
      by (by apply Hlast).
    split_and!; [lia| |..].
    + constructor; [done|]. apply Forall_app. split; [done|by repeat constructor].
    + intros Hall. by apply Hall in Hl; [|lia].
    + intros k Hk _ Hok Hfail. split; [|done].
      destruct (decide (k < n - 1)%nat) as [Hlt|Hge].
      * destruct (Hbefore k ltac:(lia) ltac:(lia)) as (e' & He' & _).
        by rewrite Hok in He'.
      * destruct (decide (n - 1 < k)%nat) as [Hlt'|Hge']; [|lia].
        destruct (Hfail _ (sur_uploader (uploader (shared (world s))))
                    (InsertRows_blobPath rm s) enc (md5_Sum enc) Hlt')
          as (e' & He' & _). by rewrite Hl in He'.
Qed.

(** ** The uploader cell *)

(** A tick of the refresh loop whose [configureClient] call fails publishes
    that error. *)
Lemma uploadRefresh_configure_error (rm : Remote) (opts_Role : string)
    (w : World) (e : error) :
  rm_configureClient rm {| ccr_Role := opts_Role |} = inr e ->
  uploader (shared (uploadRefresh rm opts_Role w).2)
  = {| sur_uploader := Uploader_nil; sur_err := Some e |}.
Proof. intros Hcfg. unfold uploadRefresh. unfold_monad. simpl. by rewrite Hcfg. Qed.

(** A tick whose [newUploader] fails publishes that error. *)
Lemma uploadRefresh_newUploader_error (rm : Remote) (opts_Role : string)
    (w : World) (resp : clientConfigureResponse) (u : Uploader) (e : error) :
  rm_configureClient rm {| ccr_Role := opts_Role |} = inl resp ->
  newUploader (ccs_StageLocation resp) = (u, Some e) ->
  sur_err (uploader (shared (uploadRefresh rm opts_Role w).2)) = Some e.
Proof.
  intros Hcfg Hnew. unfold uploadRefresh. unfold_monad. simpl.
  by rewrite Hcfg, Hnew.
Qed.

(** The stages of [InsertRows] that come before the uploader is taken from
    the cell, when the cell holds an error: each error of theirs is the
    error of the call, and the error of the cell is returned only when all
    of them succeeded. By then the call has drawn the path and has written
    the encoded file to the buffer of the channel. *)
Lemma InsertRows_stale_uploader_stages (rm : Remote) (batch : Batch)
    (s s' : ChanWorld) (stats : InsertStats) (err : option error)
    (uerr : error) :
  sur_err (uploader (shared (world s))) = Some uerr ->
  InsertRows rm batch s = (stats, err, s') ->
  let evs := InsertRows_events rm batch s in
  let p := InsertRows_blobPath rm s in
  let c := chan s in
  (forall e, constructRowGroup batch (schema c) (transformers c) = inr e ->
     err = Some e /\ evs = [])
  /\ (forall rows written werr,
        constructRowGroup batch (schema c) (transformers c) = inl rows ->
        writeParquetFile (version c) (schema c) rows
          (<["primaryFileId" := path_Base p]> (fileMetadata c))
        = (written, werr) ->
        evs = [EvBlobPath p]
        /\ requestIDCounter (shared (world s'))
           = int64 (requestIDCounter (shared (world s)) + 1)
        /\ buffer (chan s') = written
        /\ match werr with
           | Some e => err = Some e
           | None =>
               match readParquetMetadata written with
               | inr e =>
                   err = Some (ErrWrap "unable to parse parquet metadata: " e)
               | inl _ =>
                   match encrypt (padBuffer written aes_BlockSize)
                           (encryptionKey (sic_encryptionInfo c)) p 0 with
                   | inr e => err = Some e
                   | inl _ =>
                       err = Some (ErrWrap "failed to acquire stage uploader: "
                                     uerr)
                   end
               end
           end).
Proof.
  intros Hstale Hcall evs p c. subst evs p c. split.
  - intros e Hrows. insert_cases Hcall; try congruence.
    all: split; [congruence|]; by rewrite drop_all.
  - intros rows written werr Hrows Hwritten.
    unfold InsertRows_blobPath in *.
    insert_cases Hcall; try congruence.
    all: simplify_eq/=; split_and!; try done.
    all: repeat case_match; simplify_eq/=; congruence.
Qed.

(** C8. When the uploader cell holds an error, a call of [InsertRows]
    returns an error and logs no upload and no registration: nothing but the
    path it computed. The uploader is taken from the cell after the
    transformation, the encoding, the parsing of the metadata and the
    encryption: an error of one of these is the error of the call, and then
    nothing, or the path alone, was logged; when they all succeed, the call
    has drawn the path from the counter and written the encoded file to the
    buffer of the channel, and the error is the one made at the acquisition
    of the uploader, wrapping the error of the cell. *)
Theorem InsertRows_stale_uploader (rm : Remote) (batch : Batch)
    (s s' : ChanWorld) (stats : InsertStats) (err : option error)
    (uerr : error) :
  sur_err (uploader (shared (world s))) = Some uerr ->
  InsertRows rm batch s = (stats, err, s') ->
  let evs := InsertRows_events rm batch s in
  let p := InsertRows_blobPath rm s in
  let c := chan s in
  is_Some err
  /\ upload_attempts evs = 0%nat
  /\ registrations evs = 0%nat
  /\ (evs = [] \/ evs = [EvBlobPath p])
  /\ (forall rows written meta enc,
        constructRowGroup batch (schema (chan s)) (transformers (chan s))
        = inl rows ->
        writeParquetFile (version (chan s)) (schema (chan s)) rows
          (<["primaryFileId" := path_Base p]> (fileMetadata (chan s)))
        = (written, None) ->
        readParquetMetadata written = inl meta ->
        encrypt (padBuffer written aes_BlockSize)
          (encryptionKey (sic_encryptionInfo (chan s))) p 0 = inl enc ->
        err = Some (ErrWrap "failed to acquire stage uploader: " uerr))
  /\ (forall e, constructRowGroup batch (schema c) (transformers c) = inr e ->
        err = Some e /\ evs = [])
  /\ (forall rows written werr,
        constructRowGroup batch (schema c) (transformers c) = inl rows ->
        writeParquetFile (version c) (schema c) rows
          (<["primaryFileId" := path_Base p]> (fileMetadata c))
        = (written, werr) ->
        evs = [EvBlobPath p]
        /\ requestIDCounter (shared (world s'))
           = int64 (requestIDCounter (shared (world s)) + 1)
        /\ buffer (chan s') = written
        /\ match werr with
           | Some e => err = Some e
           | None =>
               match readParquetMetadata written with
               | inr e =>
                   err = Some (ErrWrap "unable to parse parquet metadata: " e)
               | inl _ =>
                   match encrypt (padBuffer written aes_BlockSize)
                           (encryptionKey (sic_encryptionInfo c)) p 0 with
                   | inr e => err = Some e
                   | inl _ =>
                       err = Some (ErrWrap "failed to acquire stage uploader: "
                                     uerr)
                   end
               end
           end).
Proof.
  intros Hstale Hcall evs p c. subst evs p c.
  destruct (InsertRows_stale_uploader_stages rm batch s s' stats err uerr
              Hstale Hcall) as (Hfirst & Hstages).
  split_and!; [| | | | |exact Hfirst|exact Hstages].
  1-4: destruct (InsertRows_anatomy _ _ _ _ _ _ Hcall)
         as [(Herr & Hevs & _)|[(Herr & Hevs & _)
            |[(enc & n & ups & e & Hnone & _)
             |(enc & n & ups & req' & Hnone & _)]]];
       try congruence; rewrite Hevs; auto.
  intros rows written meta enc Hrows Hwritten Hmeta Henc.
  destruct (Hstages rows written None Hrows Hwritten) as (_ & _ & _ & Herr).
  by rewrite Hmeta, Henc in Herr.
Qed.

(** ** Sizes *)

(** C10. After a call of [InsertRows] that returns a nil error, the buffer
    of the channel holds the file as the encoder wrote it;
    [CompressedOutputSize] is the length of that file; what was uploaded is
    the encryption of that file once padded; and the [ChunkLength] of the
    single chunk of the registration request is the [int32] of that same
    length, so the length itself whenever it is below [2^31]. *)
Theorem InsertRows_reported_size (rm : Remote) (batch : Batch)
    (s s' : ChanWorld) (stats : InsertStats) :
  InsertRows rm batch s = (stats, None, s') ->
  let evs := InsertRows_events rm batch s in
  let p := InsertRows_blobPath rm s in
  let unencrypted := buffer (chan s') in
  CompressedOutputSize stats = len unencrypted
  /\ (exists rows,
        constructRowGroup batch (schema (chan s)) (transformers (chan s))
        = inl rows
        /\ writeParquetFile (version (chan s)) (schema (chan s)) rows
             (fileMetadata (chan s')) = (unencrypted, None))
  /\ exists enc req blob chunk,
       encrypt (padBuffer unencrypted aes_BlockSize)
         (encryptionKey (sic_encryptionInfo (chan s))) p 0 = inl enc
       /\ EvUpload (sur_uploader (uploader (shared (world s)))) p enc (md5_Sum enc)
          ∈ evs
       /\ last evs = Some (EvRegisterBlob req)
       /\ rbr_Blobs req = [blob]
       /\ bm_Chunks blob = [chunk]
       /\ chk_ChunkLength chunk = int32 (len unencrypted)
       /\ (len unencrypted < 2 ^ 31 ->
           chk_ChunkLength chunk = CompressedOutputSize stats).
Proof.
  intros Hcall evs p unencrypted. subst evs p unencrypted.
  unfold InsertRows_blobPath.
  insert_cases Hcall.
  split; [done|]. split; [by eexists|].
  eexists _, _, _, _.
  split_and!; [done| |by rewrite (assoc_L (++)), last_snoc|reflexivity..|].
  - match goal with
    | HR : Retry ?op ?pol 0 = _ |- _ =>
        pose proof (Retry_first_run op pol 0) as Hfirst; rewrite HR in Hfirst
    end.
    rewrite !elem_of_app. right; left. apply Hfirst. by left.
  - intros Hlt. simpl. apply int32_id. unfold in_int32, len in *. lia.
Qed.

(** ** Channel status *)

(** C7. [ChannelStatus] returns an error whenever the answer does not hold
    exactly one channel entry; and when it returns an offset token, the
    transport succeeded, the batch status is the success code, there is
    exactly one entry, its own status is the success code, and the token is
    that entry's persisted offset token. Conversely such an answer yields the
    token. *)
Theorem ChannelStatus_single_entry (rm : Remote) (c : SnowflakeServiceClient)
    (opts : ChannelOptions) (w : World) :
  let answer := rm_channelStatus rm 0 (ChannelStatus_request c opts) in
  let result := (ChannelStatus rm c opts w).1 in
  (forall resp, answer = inl resp -> len (bcs_Channels resp) <> 1 ->
     exists e, result = inr e)
  /\ (forall tok,
        result = inl tok <->
        exists resp entry,
          answer = inl resp
          /\ bcs_StatusCode resp = responseSuccess
          /\ bcs_Channels resp = [entry]
          /\ css_StatusCode entry = responseSuccess
          /\ tok = css_PersistedOffsetToken entry).
Proof.
  intros answer result. subst answer result.
  unfold ChannelStatus, ChannelStatus_request. unfold_monad. simpl.
  split.
  - intros resp -> Hlen. repeat case_match; simplify_eq/=; by eexists.
  - intros tok. split.
    + intros Hres. repeat case_match; simplify_eq/=.
      eexists _, _. split_and!; try done; by apply dec_stable.
    + intros (resp & entry & -> & Hst & Hch & Hst' & ->).
      rewrite Hch. repeat case_match; simplify_eq/=; done.
Qed.

(** ** Waiting for the commit *)

Lemma poll_op_nil (rm : Remote) (c : SnowflakeIngestionChannel) (k : nat) :
  (poll_op rm c k).2 = None <-> poll_committed rm c k.
Proof.
  unfold poll_op, poll_committed, observes. simpl. split.
  - intros Hnil. repeat case_match; simplify_eq/=.
    eexists. split; [eexists; split_and!; try done; by apply dec_stable|].
    split; [by apply dec_stable|lia].
  - intros (st & (resp & -> & Hst & Hch) & Hcs & Hrs). rewrite Hch.
    repeat case_match; simplify_eq/=; done || lia.
Qed.

Lemma poll_op_permanent (rm : Remote) (c : SnowflakeIngestionChannel) (k : nat) :
  poll_diverged rm c k ->
  exists e, (poll_op rm c k).2 = Some (ErrPermanent e).
Proof.
  unfold poll_op, poll_diverged, observes. simpl.
  intros (st & (resp & -> & Hst & Hch) & Hcs). rewrite Hch.
  rewrite decide_False by (by intros Hne).
  rewrite decide_True by done. by eexists.
Qed.

(** C3, as the code has it. [WaitUntilCommitted] returns a nil error exactly
    when one of the polls it made found the channel committed: a good
    answer with a single entry, the persisted client sequencer equal to the
    channel's and the persisted row sequencer at least the channel's. When a
    poll it made observes a persisted client sequencer that differs from the
    channel's, it returns an error and that poll was its last, whatever row
    sequencer that poll observed. The count it returns is the number of
    status requests it sent, at least one; the channel and the counter are
    left as they were. *)
Theorem WaitUntilCommitted_polls (rm : Remote) (s s' : ChanWorld)
    (polls : Z) (err : option error) :
  WaitUntilCommitted rm s = (polls, err, s') ->
  (err = None <->
     exists k, Z.of_nat k < polls /\ poll_committed rm (chan s) k)
  /\ (forall k, Z.of_nat k < polls -> poll_diverged rm (chan s) k ->
        is_Some err /\ polls = Z.of_nat k + 1)
  /\ 1 <= polls
  /\ polls = Z.of_nat (status_requests (WaitUntilCommitted_events rm s))
  /\ chan s' = chan s
  /\ shared (world s') = shared (world s).
Proof.
  unfold WaitUntilCommitted_events, WaitUntilCommitted.
  pose proof (Retry_spec (poll_op rm (chan s)) (rm_backoff rm) 0)
    as (Hn & Hbefore & Hlast).
  pose proof (Retry_count is_channelStatus (poll_op rm (chan s)) (rm_backoff rm) 0
                (fun _ => eq_refl) (fun _ => eq_refl)) as Hcount.
  destruct (Retry (poll_op rm (chan s)) (rm_backoff rm) 0) as [[m evs] r].
  cbn [fst snd] in *. intros [= <- <- <-]. cbn [chan world shared log].
  rewrite drop_app_length.
  split_and!; try done; try (unfold status_requests; lia).
  - rewrite Hlast, poll_op_nil. split.
    + intros Hc. exists (m - 1)%nat. split; [lia|done].
    + intros (k & Hk & Hc).
      destruct (decide (S k < m)%nat) as [Hlt|Hge].
      * destruct (Hbefore k ltac:(lia) Hlt) as (e & He & _).
        apply poll_op_nil in Hc. congruence.
      * by replace (m - 1)%nat with k by lia.
  - intros k Hk Hdiv. apply poll_op_permanent in Hdiv as [e He].
    assert (k = (m - 1)%nat) as ->.
    { destruct (decide (S k < m)%nat) as [Hlt|Hge]; [|lia].
      destruct (Hbefore k ltac:(lia) Hlt) as (e' & He' & Hnp).
      rewrite He in He'. by injection He' as <-. }
    split; [|lia]. destruct r as [e'|]; [by eexists|].
    destruct Hlast as [Hlast _]. rewrite Hlast in He by done. discriminate.
Qed.

(** ** Draws from the shared counter *)

Lemma counter_after_app (c : Z) (ds1 ds2 : list drawn) :
  counter_after c (ds1 ++ ds2) = counter_after (counter_after c ds1) ds2.
Proof. revert c. induction ds1 as [|d ds1 IH]; intros c; simpl; [done|apply IH]. Qed.

Lemma labels_of_app (f : drawn -> Z -> option string) (c : Z)
    (ds1 ds2 : list drawn) :
  labels_of f c (ds1 ++ ds2)
  = labels_of f c ds1 ++ labels_of f (counter_after c ds1) ds2.
Proof.
  revert c. induction ds1 as [|d ds1 IH]; intros c; simpl; [done|].
  destruct (f d (int64 (c + 1))); simpl; by rewrite IH.
Qed.

(** Every label comes from a draw, and a draw [k] steps after [c] has the
    value [int64 (c + k)]. *)
Lemma labels_of_elem (f : drawn -> Z -> option string) (c : Z)
    (ds : list drawn) (x : string) :
  x ∈ labels_of f c ds ->
  exists d k, 1 <= k <= Z.of_nat (length ds) /\ f d (int64 (c + k)) = Some x.
Proof.
  revert c. induction ds as [|d ds IH]; intros c; simpl; [by intros ?%elem_of_nil|].
  intros Hin.
  assert (f d (int64 (c + 1)) = Some x \/ x ∈ labels_of f (int64 (c + 1)) ds)
    as [Hhd|Htl].
  { destruct (f d (int64 (c + 1))) eqn:Hf; [|by right].
    apply elem_of_cons in Hin as [->|Hin]; [by left|by right]. }
  - exists d, 1. split; [lia|done].
  - destruct (IH _ Htl) as (d' & k & Hk & Hf).
    exists d', (k + 1). split; [lia|].
    rewrite int64_add_l in Hf. by replace (c + (k + 1)) with (c + 1 + k) by lia.
Qed.

(** When a label determines the value it was made from, the labels of fewer
    than [2^64] successive draws are pairwise different. *)
Lemma labels_of_NoDup (f : drawn -> Z -> option string) (c : Z)
    (ds : list drawn) :
  (forall d1 d2 v1 v2 x, f d1 v1 = Some x -> f d2 v2 = Some x -> v1 = v2) ->
  Z.of_nat (length ds) < 2 ^ 64 ->
  NoDup (labels_of f c ds).
Proof.
  intros Hdet. revert c. induction ds as [|d ds IH]; intros c Hlen; simpl.
  { constructor. }
  simpl in Hlen.
  destruct (f d (int64 (c + 1))) as [x|] eqn:Hf; [|apply IH; lia].
  constructor; [|apply IH; lia].
  intros (d' & k & Hk & Hf')%labels_of_elem.
  rewrite int64_add_l in Hf'.
  pose proof (Hdet _ _ _ _ _ Hf Hf') as Heq.
  symmetry in Heq. by apply int64_apart in Heq; [|lia].
Qed.

Lemma fmt_request_id_inj (prefix : string) (a b : Z) :
  fmt_request_id prefix a = fmt_request_id prefix b -> a = b.
Proof.
  unfold fmt_request_id, fmt_d. intros Heq.
  apply (inj (String.app prefix)) in Heq.
  apply (inj (String.app "_")) in Heq.
  by apply (inj pretty) in Heq.
Qed.

Lemma id_label_determined (prefix : string) (d1 d2 : drawn) (v1 v2 : Z)
    (x : string) :
  id_label prefix d1 v1 = Some x -> id_label prefix d2 v2 = Some x -> v1 = v2.
Proof.
  destruct d1, d2; simpl; try done. intros [= <-] [= Heq].
  symmetry. by apply fmt_request_id_inj in Heq.
Qed.

Lemma path_label_determined (prefix : string) (d1 d2 : drawn) (v1 v2 : Z)
    (x : string) :
  counter_determined generateBlobPath ->
  path_label prefix d1 v1 = Some x -> path_label prefix d2 v2 = Some x -> v1 = v2.
Proof.
  intros Hdet. destruct d1, d2; simpl; try done. intros [= <-] [= Heq].
  symmetry. by apply Hdet in Heq.
Qed.

(** ** Sessions *)

Lemma silent_labels (evs : list event) :
  Forall silent evs -> blob_paths evs = [] /\ request_ids evs = [].
Proof.
  unfold blob_paths, request_ids.
  induction 1 as [|e evs [Hp Hr] _ [IHp IHr]]; [done|].
  by destruct e.
Qed.

Lemma upload_log_silent (evs : list event) :
  Forall (fun e => is_upload_or_sleep e = true) evs -> Forall silent evs.
Proof. intros Hall. eapply Forall_impl; [exact Hall|]. by intros []. Qed.

Lemma poll_log_silent (rm : Remote) (c : SnowflakeIngestionChannel)
    (policy : list backoffStep) (n : nat) :
  Forall silent (Retry (poll_op rm c) policy n).1.2.
Proof. apply Retry_events; [|done]. intros k. by repeat constructor. Qed.

(** [InsertRows] does not touch the fields a channel got when it was
    opened. *)
Lemma InsertRows_static (rm : Remote) (batch : Batch) (s : ChanWorld) :
  clientPrefix (chan (InsertRows rm batch s).2) = clientPrefix (chan s).
Proof.
  destruct (InsertRows rm batch s) as [[stats err] s'] eqn:Hcall.
  insert_cases Hcall; done.
Qed.

Lemma by_draws_nil (ss ss' : Session) (evs : list event) :
  ses_client ss' = ses_client ss ->
  requestIDCounter (shared (ses_world ss'))
  = requestIDCounter (shared (ses_world ss)) ->
  log (ses_world ss') = log (ses_world ss) ++ evs ->
  Forall silent evs ->
  by_draws ss ss' [].
Proof.
  intros Hcl Hsh Hlog [Hp Hr]%silent_labels.
  split; [done|]. split; [done|]. by exists evs.
Qed.

(** One call draws at most twice, and the paths and identifiers it logs are
    made from what it drew. *)
Lemma step_by_draws (rm : Remote) (k : call) (ss : Session) :
  channels_of_client ss ->
  channels_of_client (step rm k ss)
  /\ exists ds, (length ds <= 2)%nat /\ by_draws ss (step rm k ss) ds.
Proof.
  intros Hch. destruct k as [opts|opts|opts|i batch|i|]; simpl.
  - (* OpenChannel *)
    unfold OpenChannel. unfold_monad. simpl.
    repeat case_match; simplify_eq/=.
    all: split; [first [done | apply Forall_app; split; [done|by repeat constructor]]|].
    all: exists [ForRequest]; split; [simpl; lia|]; split; [done|];
      split; [done|]; by eexists.
  - (* ChannelStatus *)
    split; [done|]. exists []. split; [simpl; lia|].
    unfold ChannelStatus. unfold_monad. simpl.
    repeat case_match; simplify_eq/=;
      (eapply by_draws_nil; [done|done|done|by repeat constructor]).
  - (* DropChannel *)
    split; [done|]. exists [ForRequest]. split; [simpl; lia|].
    unfold DropChannel. unfold_monad. simpl.
    repeat case_match; simplify_eq/=;
      (split; [done|]; split; [done|]; by eexists).
  - (* InsertRows *)
    destruct (ses_channels ss !! i) as [ch|] eqn:Hi; simpl.
    2: { split; [done|]. exists []. split; [simpl; lia|].
         eapply (by_draws_nil _ _ []); [done|done|by rewrite (right_id_L [] (++))|done]. }
    set (s := {| chan := ch; world := ses_world ss |}).
    assert (Hpre : clientPrefix ch = ssc_clientPrefix (ses_client ss))
      by (by eapply (proj1 (Forall_lookup _ _) Hch)).
    split.
    { unfold channels_of_client. simpl. apply Forall_insert; [done|].
      by rewrite (InsertRows_static rm batch s). }
    pose proof (InsertRows_log rm batch s) as Hlog.
    destruct (InsertRows rm batch s) as [[stats err] s'] eqn:Hcall.
    simpl in Hlog |- *.
    destruct (InsertRows_anatomy _ _ _ _ _ _ Hcall)
      as [(_ & Hevs & Hc)|[(_ & Hevs & Hc)
         |[(enc & n & ups & e & _ & HR & _ & Hevs & Hc)
          |(enc & n & ups & req & _ & HR & Hevs & Hid & Hc & _)]]];
      rewrite Hevs in Hlog; subst s; cbn [chan world] in *.
    + exists []. split; [simpl; lia|]. split; [done|]. split; [done|].
      by exists [].
    + eexists [ForPath _]. split; [simpl; lia|]. split; [done|].
      split; [done|]. eexists. split; [done|].
      unfold InsertRows_blobPath. simpl. by rewrite Hpre.
    + apply upload_log, upload_log_silent, silent_labels in HR as [Hp Hr].
      eexists [ForPath _]. split; [simpl; lia|]. split; [done|].
      split; [done|]. eexists. split; [done|].
      unfold blob_paths, request_ids in *. rewrite !omap_app, Hp, Hr.
      unfold InsertRows_blobPath. simpl. by rewrite Hpre.
    + apply upload_log, upload_log_silent, silent_labels in HR as [Hp Hr].
      eexists [ForPath _; ForRequest]. split; [simpl; lia|]. split; [done|].
      split; [done|]. eexists. split; [done|].
      unfold blob_paths, request_ids in *. rewrite !omap_app, Hp, Hr.
      unfold InsertRows_blobPath. simpl. by rewrite Hid, Hpre.
  - (* WaitUntilCommitted *)
    destruct (ses_channels ss !! i) as [ch|] eqn:Hi; simpl.
    2: { split; [done|]. exists []. split; [simpl; lia|].
         eapply (by_draws_nil _ _ []); [done|done|by rewrite (right_id_L [] (++))|done]. }
    unfold WaitUntilCommitted. cbn [chan world].
    pose proof (poll_log_silent rm ch (rm_backoff rm) 0) as Hsilent.
    destruct (Retry (poll_op rm ch) (rm_backoff rm) 0) as [[m evs] r]. simpl in *.
    split.
    { unfold channels_of_client. simpl. apply Forall_insert; [done|].
      by eapply (proj1 (Forall_lookup _ _) Hch). }
    exists []. split; [simpl; lia|]. by eapply by_draws_nil.
  - (* the refresh loop *)
    split; [done|]. exists []. split; [simpl; lia|].
    unfold uploadRefresh. unfold_monad. simpl.
    repeat case_match; simplify_eq/=;
      (eapply by_draws_nil; [done|done|done|by repeat constructor]).
Qed.

Lemma by_draws_trans (ss1 ss2 ss3 : Session) (ds1 ds2 : list drawn) :
  by_draws ss1 ss2 ds1 -> by_draws ss2 ss3 ds2 -> by_draws ss1 ss3 (ds1 ++ ds2).
Proof.
  intros (Hcl1 & Hc1 & evs1 & Hlog1 & Hp1 & Hr1)
         (Hcl2 & Hc2 & evs2 & Hlog2 & Hp2 & Hr2).
  rewrite Hcl1, Hc1 in *.
  split; [congruence|]. split; [by rewrite counter_after_app|].
  exists (evs1 ++ evs2). split; [by rewrite Hlog2, Hlog1, (assoc_L (++))|].
  unfold blob_paths, request_ids in *.
  by rewrite !omap_app, !labels_of_app, Hp1, Hp2, Hr1, Hr2.
Qed.

Lemma run_by_draws (script : list (Remote * call)) (ss : Session) :
  channels_of_client ss ->
  exists ds,
    (length ds <= 2 * length script)%nat /\ by_draws ss (run script ss) ds.
Proof.
  revert ss. induction script as [|[rm k] script IH]; intros ss Hch; simpl.
  { exists []. split; [done|].
    eapply (by_draws_nil _ _ []); [done|done|by rewrite (right_id_L [] (++))|done]. }
  destruct (step_by_draws rm k ss Hch) as (Hch' & ds1 & Hlen1 & Hstep).
  destruct (IH _ Hch') as (ds2 & Hlen2 & Hrun).
  exists (ds1 ++ ds2). split; [rewrite length_app; lia|].
  by eapply by_draws_trans.
Qed.

(** [ChannelStatus] draws nothing from the counter. *)
Lemma ChannelStatus_draws_nothing (rm : Remote) (c : SnowflakeServiceClient)
    (opts : ChannelOptions) (w : World) :
  shared (ChannelStatus rm c opts w).2 = shared w
  /\ log (ChannelStatus rm c opts w).2
     = log w ++ [EvChannelStatus (ChannelStatus_request c opts)].
Proof.
  unfold ChannelStatus, ChannelStatus_request. unfold_monad. simpl.
  by repeat case_match.
Qed.

(** C4. Over any sequence of calls on a client and on the channels opened
    from it, whatever the random draws, the remote answers and the channel
    ids, the blob paths that the calls of [InsertRows] compute are pairwise
    different, provided [generateBlobPath] yields different paths for
    different counters and the counter is drawn from fewer than [2^64]
    times. *)
Theorem blob_paths_distinct (script : list (Remote * call))
    (cl : SnowflakeServiceClient) (sh : Shared) :
  counter_determined generateBlobPath ->
  2 * Z.of_nat (length script) < 2 ^ 64 ->
  NoDup (blob_paths (log (ses_world (run script (session0 cl sh))))).
Proof.
  intros Hdet Hlen.
  destruct (run_by_draws script (session0 cl sh)) as
    (ds & Hds & _ & _ & evs & Hlog & Hp & _); [by constructor|].
  simpl in Hlog, Hp. rewrite Hlog, Hp.
  apply labels_of_NoDup; [|lia].
  intros d1 d2 v1 v2 x. by apply path_label_determined.
Qed.

(** C9, as the code has it. Over any sequence of calls on a client and its
    channels, the identifiers of the [openChannel], [dropChannel] and
    [registerBlob] requests are pairwise different, and each of them is the
    client prefix, an underscore and a value the counter took after the
    sequence started, provided the counter is drawn from fewer than [2^64]
    times. A [channelStatus] request carries no identifier, and
    [ChannelStatus] and [WaitUntilCommitted] leave the counter as it is. *)
Theorem request_ids_fresh (script : list (Remote * call))
    (cl : SnowflakeServiceClient) (sh : Shared) :
  2 * Z.of_nat (length script) < 2 ^ 64 ->
  let l := log (ses_world (run script (session0 cl sh))) in
  NoDup (request_ids l)
  /\ Forall (fresh_id (ssc_clientPrefix cl) (requestIDCounter sh)
               (2 * Z.of_nat (length script)))
       (request_ids l)
  /\ (forall e, e ∈ l -> is_channelStatus e = true -> request_id e = None)
  /\ (forall rm opts w, shared (ChannelStatus rm cl opts w).2 = shared w)
  /\ (forall rm s, shared (world (WaitUntilCommitted rm s).2) = shared (world s)).
Proof.
  intros Hlen l. subst l.
  destruct (run_by_draws script (session0 cl sh)) as
    (ds & Hds & _ & _ & evs & Hlog & _ & Hr); [by constructor|].
  simpl in Hlog, Hr. rewrite Hlog, Hr. split_and!.
  - apply labels_of_NoDup; [|lia].
    intros d1 d2 v1 v2 x. apply id_label_determined.
  - apply Forall_forall. intros x (d & k & Hk & Hx)%labels_of_elem.
    destruct d; simpl in Hx; [done|]. injection Hx as <-.
    exists k. split; [lia|done].
  - by intros [].
  - intros rm opts w. apply ChannelStatus_draws_nothing.
  - intros rm s. unfold WaitUntilCommitted.
    by destruct (Retry (poll_op rm (chan s)) (rm_backoff rm) 0) as [[m evs'] r].
Qed.

(** * Further properties *)

(** ** The thread identifier, continued *)

(** X1. Whatever the random draw, the thread identifier of a channel is an
    [int64] whose bits from 48 up are the channel id and whose 48 low bits
    are the draw; so channels with different ids never share a thread
    identifier. *)
Theorem fakeThreadID_carries_id (rm1 rm2 : Remote) (id1 id2 : Z) :
  in_int16 id1 -> in_int16 id2 ->
  let t1 := fakeThreadID id1 (rand_N rm1 (2 ^ 48)) in
  let t2 := fakeThreadID id2 (rand_N rm2 (2 ^ 48)) in
  in_int64 t1
  /\ Z.shiftr t1 48 = id1
  /\ Z.land t1 (Z.ones 48) = rand_N rm1 (2 ^ 48)
  /\ (t1 = t2 -> id1 = id2).
Proof.
  intros Hid1 Hid2 t1 t2. subst t1 t2.
  pose proof (rand_N_range rm1 (2 ^ 48) ltac:(lia)) as Hr1.
  pose proof (rand_N_range rm2 (2 ^ 48) ltac:(lia)) as Hr2.
  rewrite !fakeThreadID_value by done.
  unfold in_int16, in_int64 in *. split_and!.
  - lia.
  - lia.
  - rewrite Z.shiftr_div_pow2 by lia.
    rewrite Z.add_comm, Z.div_add by lia. rewrite Z.div_small by lia. lia.
  - rewrite Z.land_ones by lia.
    rewrite Z.add_comm, Z.mod_add by lia. by rewrite Z.mod_small.
  - lia.
Qed.

(** ** Opening and dropping a channel *)

(** X2. [OpenChannel] sends one [openChannel] request, with the next
    identifier, and moves the counter by one, whether it succeeds or not; it
    does not touch the uploader cell. It returns the transport error or the
    schema error as it is, and an error for any status but the success code.
    The channel it returns starts from the sequencers and the key of the
    answer, carries the prefix, role and version of the client and the
    options it was asked for, and has an empty buffer. *)
Theorem OpenChannel_once (rm : Remote) (cl : SnowflakeServiceClient)
    (opts : ChannelOptions) (w : World) :
  let req := OpenChannel_request cl opts (requestIDCounter (shared w)) in
  let result := (OpenChannel rm cl opts w).1 in
  let w' := (OpenChannel rm cl opts w).2 in
  log w' = log w ++ [EvOpenChannel req]
  /\ requestIDCounter (shared w') = int64 (requestIDCounter (shared w) + 1)
  /\ uploader (shared w') = uploader (shared w)
  /\ (forall e, rm_openChannel rm req = inr e -> result = inr e)
  /\ (forall resp, rm_openChannel rm req = inl resp ->
        ocs_StatusCode resp <> responseSuccess -> exists e, result = inr e)
  /\ (forall resp e, rm_openChannel rm req = inl resp ->
        ocs_StatusCode resp = responseSuccess ->
        constructParquetSchema (ocs_TableColumns resp) = inr e ->
        result = inr e)
  /\ (forall ch, result = inl ch ->
        exists resp sch trs md,
          rm_openChannel rm req = inl resp
          /\ ocs_StatusCode resp = responseSuccess
          /\ constructParquetSchema (ocs_TableColumns resp) = inl (sch, trs, md)
          /\ clientSequencer ch = ocs_ClientSequencer resp
          /\ rowSequencer ch = ocs_RowSequencer resp
          /\ sic_encryptionInfo ch
             = {| encryptionKeyID := ocs_EncryptionKeyID resp;
                  encryptionKey := ocs_EncryptionKey resp |}
          /\ sic_ChannelOptions ch = opts
          /\ clientPrefix ch = ssc_clientPrefix cl
          /\ role ch = ssc_options_Role cl
          /\ version ch = ssc_options_ConnectVersion cl
          /\ schema ch = sch /\ transformers ch = trs
          /\ fileMetadata ch = md /\ buffer ch = []).
Proof.
  intros req result w'. subst req result w'.
  unfold OpenChannel, OpenChannel_request. unfold_monad. simpl.
  split_and!.
  1-3: by repeat case_match.
  - intros e ->. done.
  - intros resp -> Hst. rewrite decide_True by done. by eexists.
  - intros resp e -> Hst ->. by rewrite decide_False by (by intros ?).
  - intros ch Hres. repeat case_match; simplify_eq/=.
    eexists _, _, _, _. split_and!; try done. by apply dec_stable.
Qed.

(** X3. [DropChannel] sends one [dropChannel] request, with the next
    identifier, and moves the counter by one, whether it succeeds or not. It
    returns nil exactly when the transport succeeded and the status of the
    answer is the success code. *)
Theorem DropChannel_once (rm : Remote) (cl : SnowflakeServiceClient)
    (opts : ChannelOptions) (w : World) :
  let req := DropChannel_request cl opts (requestIDCounter (shared w)) in
  let result := (DropChannel rm cl opts w).1 in
  let w' := (DropChannel rm cl opts w).2 in
  log w' = log w ++ [EvDropChannel req]
  /\ requestIDCounter (shared w') = int64 (requestIDCounter (shared w) + 1)
  /\ uploader (shared w') = uploader (shared w)
  /\ (result = inl tt <->
      exists resp, rm_dropChannel rm req = inl resp
                   /\ dcs_StatusCode resp = responseSuccess).
Proof.
  intros req result w'. subst req result w'.
  unfold DropChannel, DropChannel_request. unfold_monad. simpl.
  split_and!.
  1-3: by repeat case_match.
  split.
  - intros Hres. repeat case_match; simplify_eq/=.
    eexists. split; [done|]. by apply dec_stable.
  - intros (resp & -> & Hst). by rewrite decide_False by (by intros ?).
Qed.

(** ** The trace of [InsertRows] *)

Lemma upload_log_no_registration_of (evs : list event) :
  Forall (fun e => is_upload_or_sleep e = true) evs ->
  omap registration_of evs = [].
Proof. induction 1 as [|e evs He _ IH]; [done|]. by destruct e. Qed.

(** The registration request of a call, when it sends one: it is built from
    the channel as it was before the call, the path the call computed, the
    file the encoder left in the buffer and the bytes that were uploaded. *)
Lemma InsertRows_registration (rm : Remote) (batch : Batch)
    (s s' : ChanWorld) (stats : InsertStats) (err : option error) :
  InsertRows rm batch s = (stats, err, s') ->
  let p := InsertRows_blobPath rm s in
  let evs := InsertRows_events rm batch s in
  omap registration_of evs = []
  \/ exists meta enc,
       readParquetMetadata (buffer (chan s')) = inl meta
       /\ encrypt (padBuffer (buffer (chan s')) aes_BlockSize)
            (encryptionKey (sic_encryptionInfo (chan s))) p 0 = inl enc
       /\ sur_err (uploader (shared (world s))) = None
       /\ EvUpload (sur_uploader (uploader (shared (world s)))) p enc (md5_Sum enc)
          ∈ evs
       /\ omap registration_of evs
          = [ registerBlob_request (chan s)
                (fmt_request_id (clientPrefix (chan s))
                   (int64 (int64 (requestIDCounter (shared (world s)) + 1) + 1)))
                p (md5_Sum enc) enc (len (buffer (chan s'))) meta
                (computeColumnEpInfo (transformers (chan s)))
                (rm_now rm 0) (rm_now rm 1) (rm_now rm 2) ].
Proof.
  intros Hcall. unfold InsertRows_blobPath. insert_cases Hcall.
  all: repeat match goal with
       | HR : Retry ?op ?pol 0 = (_, ?l, _) |- _ =>
           pose proof (Retry_first_run op pol 0) as Hfirst;
           rewrite HR in Hfirst; cbn [fst snd] in Hfirst;
           apply upload_log, upload_log_no_registration_of in HR
       end.
  all: rewrite ?omap_app;
    repeat match goal with Hl : omap registration_of _ = [] |- _ => rewrite Hl end.
  all: try (left; by rewrite ?drop_all).
  all: right; eexists _, _; split_and!; [done|done|done| |done].
  all: rewrite !elem_of_app; right; left; apply Hfirst; by left.
Qed.

Lemma upload_rounds_S (u : Uploader) (p : string) (d m : bytes) (n : nat) :
  upload_rounds u p d m (S (S n))
  = EvUpload u p d m :: EvSleep 1000 :: upload_rounds u p d m (S n).
Proof. done. Qed.

(** Under a policy of one-second pauses the retry loop around [upload] logs
    as many rounds as the operation had runs. *)
Lemma Retry_upload_rounds (rm : Remote) (u : Uploader) (p : string)
    (d m : bytes) (k n : nat) :
  (Retry (upload_op rm u p d m) (WithMaxRetries_Constant 1000 k) n).1.2
  = upload_rounds u p d m
      ((Retry (upload_op rm u p d m) (WithMaxRetries_Constant 1000 k) n).1.1 - n).
Proof.
  revert n. unfold WithMaxRetries_Constant.
  induction k as [|k IH]; intros n; rewrite Retry_unfold; simpl.
  - repeat case_match; simpl; by replace (S n - n)%nat with 1%nat by lia.
  - destruct (rm_upload rm n u p d m) as [e|] eqn:Hup;
      [destruct (as_permanent e) eqn:Hperm|]; simpl;
      try by replace (S n - n)%nat with 1%nat by lia.
    pose proof (Retry_spec (upload_op rm u p d m) (replicate k (Pause 1000)) (S n))
      as (Hm & _).
    cbn zeta in Hm.
    replace ((Retry (upload_op rm u p d m) (replicate k (Pause 1000)) (S n)).1.1 - n)%nat
      with (S (S ((Retry (upload_op rm u p d m) (replicate k (Pause 1000)) (S n)).1.1
                  - S (S n))))%nat by lia.
    rewrite upload_rounds_S, IH. do 3 f_equal. lia.
Qed.

(** The retry loop pauses for what the policy granted before each run but
    the first, in order, and for nothing else. *)
Lemma Retry_sleeps (op : nat -> list event * option error)
    (policy : list backoffStep) (n : nat) :
  (forall k, sleeps (op k).1 = []) ->
  let m := (Retry op policy n).1.1 in
  sleeps (Retry op policy n).1.2 = pauses (take (m - n - 1) policy)
  /\ Forall (fun st => is_Pause st = true) (take (m - n - 1) policy).
Proof.
  intros Hop. revert n. unfold sleeps, pauses in *.
  induction policy as [|[d|ce] policy IH]; intros n; rewrite Retry_unfold.
  1, 3: repeat case_match; simpl;
    replace (S n - n - 1)%nat with 0%nat by lia;
    by rewrite ?take_0, ?take_nil, Hop.
  destruct (op n).2 as [e|] eqn:Hr; [destruct (as_permanent e) eqn:Hperm|];
    simpl; try (replace (S n - n - 1)%nat with 0%nat by lia;
                by rewrite take_0, Hop).
  pose proof (Retry_spec op policy (S n)) as (Hm & _). cbn zeta in Hm.
  destruct (IH (S n)) as [IHs IHp].
  replace ((Retry op policy (S n)).1.1 - n - 1)%nat
    with (S ((Retry op policy (S n)).1.1 - S n - 1))%nat by lia.
  simpl. rewrite omap_app, Hop. simpl. split; [f_equal; exact IHs|].
  by constructor.
Qed.

(** The trace of a call of [InsertRows]: nothing; or the path alone; or the
    path followed by one to four rounds of the same upload, a second apart,
    and then, when the last round succeeded, by the registration request. *)
Lemma InsertRows_trace_cases (rm : Remote) (batch : Batch) (s : ChanWorld) :
  let p := InsertRows_blobPath rm s in
  let u := sur_uploader (uploader (shared (world s))) in
  let evs := InsertRows_events rm batch s in
  evs = []
  \/ evs = [EvBlobPath p]
  \/ exists enc n,
       (1 <= n <= 4)%nat
       /\ sur_err (uploader (shared (world s))) = None
       /\ (evs = [EvBlobPath p] ++ upload_rounds u p enc (md5_Sum enc) n
           \/ exists req,
                evs = [EvBlobPath p] ++ upload_rounds u p enc (md5_Sum enc) n
                        ++ [EvRegisterBlob req]).
Proof.
  intros p u evs. subst p u evs.
  destruct (InsertRows rm batch s) as [[stats err] s'] eqn:Hcall.
  destruct (InsertRows_anatomy _ _ _ _ _ _ Hcall)
    as [(_ & Hevs & _)|[(_ & Hevs & _)
       |[(enc & n & ups & e & Hnone & HR & _ & Hevs & _)
        |(enc & n & ups & req & Hnone & HR & Hevs & _)]]];
    [by left|by right; left|right; right..].
  all: pose proof (Retry_upload_rounds rm
                     (sur_uploader (uploader (shared (world s))))
                     (InsertRows_blobPath rm s) enc (md5_Sum enc) 3 0) as Hrounds;
    pose proof (Retry_spec (upload_op rm (sur_uploader (uploader (shared (world s))))
                              (InsertRows_blobPath rm s) enc (md5_Sum enc))
                  (WithMaxRetries_Constant 1000 3) 0) as (Hn & _);
    rewrite HR in Hrounds, Hn; cbn [fst snd] in Hrounds, Hn;
    rewrite Nat.sub_0_r in Hrounds; subst ups;
    exists enc, n; (split; [simpl in Hn; lia|]); (split; [done|]).
  - by left.
  - right. by exists req.
Qed.

Lemma upload_attempts_upload_rounds (u : Uploader) (p : string)
    (d m : bytes) (n : nat) :
  upload_attempts (upload_rounds u p d m n) = n.
Proof.
  unfold upload_attempts. induction n as [|[|n] IH]; [done..|].
  rewrite upload_rounds_S.
  rewrite filter_cons_True by done. rewrite filter_cons_False by done.
  simpl in *. by rewrite IH.
Qed.

Lemma sleeps_upload_rounds (u : Uploader) (p : string) (d m : bytes) (n : nat) :
  sleeps (upload_rounds u p d m n) = replicate (n - 1) 1000.
Proof.
  unfold sleeps. induction n as [|[|n] IH]; [done..|].
  rewrite upload_rounds_S. simpl in *. rewrite IH.
  by replace (n - 0)%nat with n by lia.
Qed.

(** The uploads and the pauses of a call of [InsertRows] form one block:
    the attempts, with a pause of one second between one and the next. *)
Lemma InsertRows_upload_block (rm : Remote) (batch : Batch) (s : ChanWorld) :
  let p := InsertRows_blobPath rm s in
  let u := sur_uploader (uploader (shared (world s))) in
  let evs := InsertRows_events rm batch s in
  (exists enc before after,
     evs = before ++ upload_rounds u p enc (md5_Sum enc) (upload_attempts evs)
             ++ after
     /\ Forall (fun e => is_upload_or_sleep e = false) (before ++ after))
  /\ sleeps evs = replicate (upload_attempts evs - 1) 1000.
Proof.
  intros p u evs.
  destruct (InsertRows_trace_cases rm batch s)
    as [Hevs|[Hevs|(enc & n & Hn & _ & [Hevs|(req & Hevs)])]];
    fold p u evs in Hevs; rewrite Hevs.
  - split; [|done]. exists [], [], []. by split.
  - split; [|done]. exists [], [EvBlobPath p], []. split; [done|].
    by repeat constructor.
  - rewrite upload_attempts_app, upload_attempts_upload_rounds.
    change (upload_attempts [EvBlobPath p]) with 0%nat. simpl (0 + n)%nat.
    split.
    + exists enc, [EvBlobPath p], []. rewrite app_nil_r. split; [done|].
      by repeat constructor.
    + unfold sleeps. rewrite omap_app. fold (sleeps (upload_rounds u p enc (md5_Sum enc) n)).
      by rewrite sleeps_upload_rounds.
  - rewrite !upload_attempts_app, upload_attempts_upload_rounds.
    change (upload_attempts [EvBlobPath p]) with 0%nat.
    change (upload_attempts [EvRegisterBlob req]) with 0%nat.
    rewrite Nat.add_0_r. simpl (0 + n)%nat.
    split.
    + exists enc, [EvBlobPath p], [EvRegisterBlob req]. split; [done|].
      by repeat constructor.
    + unfold sleeps. rewrite !omap_app.
      fold (sleeps (upload_rounds u p enc (md5_Sum enc) n)).
      rewrite sleeps_upload_rounds. simpl. by rewrite app_nil_r.
Qed.

(** C5, as the code has it. The upload of a call of [InsertRows] is made at
    most four times, one first attempt and three more. The attempts and the
    pauses form one block of the trace, in which a pause of one second stands
    between each attempt and the next, and the call pauses nowhere else.
    When each of the first four attempts fails, the call returns an error
    and sends no registration. When a call that reached the upload has an
    attempt among the first four succeed, the earlier ones having failed
    with errors that are not permanent, the call made exactly the attempts up
    to that one and went on to send the registration. *)
Theorem InsertRows_upload_retries (rm : Remote) (batch : Batch)
    (s s' : ChanWorld) (stats : InsertStats) (err : option error) :
  InsertRows rm batch s = (stats, err, s') ->
  let evs := InsertRows_events rm batch s in
  let p := InsertRows_blobPath rm s in
  let u := sur_uploader (uploader (shared (world s))) in
  (upload_attempts evs <= 4)%nat
  /\ Forall (fun e => forall d, e = EvSleep d -> d = 1000) evs
  /\ (exists enc before after,
        evs = before
                ++ upload_rounds u p enc (md5_Sum enc) (upload_attempts evs)
                ++ after
        /\ Forall (fun e => is_upload_or_sleep e = false) (before ++ after))
  /\ sleeps evs = replicate (upload_attempts evs - 1) 1000
  /\ ((forall k u p d m, (k < 4)%nat -> rm_upload rm k u p d m <> None) ->
      is_Some err /\ registrations evs = 0%nat)
  /\ (forall k,
        (k < 4)%nat ->
        upload_attempts evs <> 0%nat ->
        (forall u p d m, rm_upload rm k u p d m = None) ->
        (forall j u p d m, (j < k)%nat ->
           exists e, rm_upload rm j u p d m = Some e /\ as_permanent e = None) ->
        upload_attempts evs = S k /\ registrations evs = 1%nat).
Proof.
  intros Hcall evs p u.
  destruct (InsertRows_retry_outcomes rm batch s s' stats err Hcall)
    as (Hmost & Hpause & Hfail & Hgood).
  destruct (InsertRows_upload_block rm batch s) as (Hblock & Hsleeps).
  split_and!; [exact Hmost|exact Hpause|exact Hblock|exact Hsleeps|exact Hfail
              |exact Hgood].
Qed.

(** X4. The trace of a call of [InsertRows] is empty (the transformation
    failed), or the computed path alone, or the path followed by one to four
    uploads of the same bytes and digest to that path through the uploader
    that was in the cell, one second apart, followed or not by a single
    registration request, which then comes last. *)
Theorem InsertRows_trace (rm : Remote) (batch : Batch) (s : ChanWorld) :
  let p := InsertRows_blobPath rm s in
  let u := sur_uploader (uploader (shared (world s))) in
  let evs := InsertRows_events rm batch s in
  evs = []
  \/ evs = [EvBlobPath p]
  \/ exists enc n,
       (1 <= n <= 4)%nat
       /\ sur_err (uploader (shared (world s))) = None
       /\ (evs = [EvBlobPath p] ++ upload_rounds u p enc (md5_Sum enc) n
           \/ exists req,
                evs = [EvBlobPath p] ++ upload_rounds u p enc (md5_Sum enc) n
                        ++ [EvRegisterBlob req]).
Proof. apply InsertRows_trace_cases. Qed.

Lemma registration_in_log (evs : list event) (req : registerBlobRequest) :
  EvRegisterBlob req ∈ evs <-> req ∈ omap registration_of evs.
Proof.
  rewrite list_elem_of_omap. split.
  - intros Hin. by exists (EvRegisterBlob req).
  - intros ([] & Hin & Hreq); simplify_eq/=. done.
Qed.

(** X5. When a call of [InsertRows] sends a registration request, the
    request names one blob with one chunk with one channel entry. The blob
    path is the path the call computed and uploaded to, and the blob digest
    is the hex form of the digest the upload was given. The chunk starts at
    0, its digest is taken over the first bytes of the uploaded data, as many
    as the file had before padding, and it names the key and the table of
    the channel. The entry names the channel, carries its client sequencer
    as it was before the call and its row sequencer plus one, and no offset
    token. *)
Theorem InsertRows_registration_content (rm : Remote) (batch : Batch)
    (s s' : ChanWorld) (stats : InsertStats) (err : option error)
    (req : registerBlobRequest) :
  InsertRows rm batch s = (stats, err, s') ->
  let evs := InsertRows_events rm batch s in
  let c := chan s in
  EvRegisterBlob req ∈ evs ->
  exists blob chunk entry enc,
    rbr_Blobs req = [blob] /\ bm_Chunks blob = [chunk]
    /\ chk_Channels chunk = [entry]
    /\ rbr_Role req = role c
    /\ EvBlobPath (bm_Path blob) ∈ evs
    /\ EvUpload (sur_uploader (uploader (shared (world s)))) (bm_Path blob)
         enc (md5_Sum enc) ∈ evs
    /\ bm_MD5 blob = hex_EncodeToString (md5_Sum enc)
    /\ bm_BDECVersion blob = 3
    /\ chk_ChunkStartOffset chunk = 0
    /\ chk_ChunkLength chunk = int32 (len (buffer (chan s')))
    /\ chk_ChunkMD5 chunk = md5Hash (take (length (buffer (chan s'))) enc)
    /\ chk_EncryptionKeyID chunk = encryptionKeyID (sic_encryptionInfo c)
    /\ chk_Database chunk = DatabaseName (sic_ChannelOptions c)
    /\ chk_Schema chunk = SchemaName (sic_ChannelOptions c)
    /\ chk_Table chunk = TableName (sic_ChannelOptions c)
    /\ cm_Channel entry = Name (sic_ChannelOptions c)
    /\ cm_ClientSequencer entry = clientSequencer c
    /\ cm_RowSequencer entry = int64 (rowSequencer c + 1)
    /\ cm_StartOffsetToken entry = None
    /\ cm_EndOffsetToken entry = None
    /\ cm_OffsetToken entry = None.
Proof.
  intros Hcall evs c Hin. subst evs c.
  pose proof (InsertRows_log rm batch s) as Hlog.
  destruct (InsertRows_trace_cases rm batch s) as [Hevs|[Hevs|Htr]].
  { rewrite Hevs in Hin. by apply elem_of_nil in Hin. }
  { rewrite Hevs in Hin. apply list_elem_of_singleton in Hin. discriminate. }
  destruct (InsertRows_registration _ _ _ _ _ _ Hcall)
    as [Hno|(meta & enc & Hmeta & Henc & Hnone & Hup & Hreg)];
    apply registration_in_log in Hin.
  { rewrite Hno in Hin. by apply elem_of_nil in Hin. }
  rewrite Hreg in Hin. apply list_elem_of_singleton in Hin. subst req.
  eexists _, _, _, enc. split_and!; try done.
  - destruct Htr as (enc' & n & _ & _ & [-> | [req' ->]]);
      apply elem_of_app; left; apply list_elem_of_here.
  - simpl. unfold len. by rewrite Nat2Z.id.
Qed.

(** What a call of [InsertRows] that returns nil leaves in the channel. *)
Lemma InsertRows_success_inv (rm : Remote) (batch : Batch)
    (s s' : ChanWorld) (stats : InsertStats) :
  InsertRows rm batch s = (stats, None, s') ->
  rowSequencer (chan s') = int64 (rowSequencer (chan s) + 1)
  /\ exists req resp blob chunk channel,
       omap registration_of (InsertRows_events rm batch s) = [req]
       /\ rm_registerBlob rm req = inl resp
       /\ rbs_Blobs resp = [blob] /\ brs_Chunks blob = [chunk]
       /\ krs_Channels chunk = [channel]
       /\ clientSequencer (chan s') = crs_ClientSequencer channel.
Proof.
  intros Hcall. insert_cases Hcall.
  match goal with
  | HR : Retry _ _ 0 = (_, ?l, _) |- _ =>
      apply upload_log, upload_log_no_registration_of in HR; rename HR into Hups
  end.
  split; [done|]. eexists _, _, _, _, _.
  split_and!; [by rewrite !omap_app, Hups|eassumption..|done].
Qed.

(** X6. Successive registrations of a channel: after a call of [InsertRows]
    that returned an error, the registration of the next call carries the
    same client sequencer and the same row sequencer, one above the
    channel's, as the failed call did or would have; after a call that
    returned nil, it carries the client sequencer the remote echoed and a
    row sequencer one higher again. *)
Theorem InsertRows_next_registration (rm1 rm2 : Remote) (batch1 batch2 : Batch)
    (s s1 s2 : ChanWorld) (stats1 stats2 : InsertStats)
    (err1 err2 : option error) (req : registerBlobRequest)
    (entry : channelMetadata) :
  InsertRows rm1 batch1 s = (stats1, err1, s1) ->
  InsertRows rm2 batch2 s1 = (stats2, err2, s2) ->
  EvRegisterBlob req ∈ InsertRows_events rm2 batch2 s1 ->
  entry ∈ request_channels req ->
  (is_Some err1 ->
     cm_ClientSequencer entry = clientSequencer (chan s)
     /\ cm_RowSequencer entry = int64 (rowSequencer (chan s) + 1))
  /\ (err1 = None ->
      cm_ClientSequencer entry = clientSequencer (chan s1)
      /\ cm_RowSequencer entry = int64 (int64 (rowSequencer (chan s) + 1) + 1)
      /\ exists req1 resp1 blob chunk channel,
           EvRegisterBlob req1 ∈ InsertRows_events rm1 batch1 s
           /\ rm_registerBlob rm1 req1 = inl resp1
           /\ rbs_Blobs resp1 = [blob] /\ brs_Chunks blob = [chunk]
           /\ krs_Channels chunk = [channel]
           /\ cm_ClientSequencer entry = crs_ClientSequencer channel).
Proof.
  intros Hcall1 Hcall2 Hin Hentry.
  destruct (InsertRows_registration _ _ _ _ _ _ Hcall2)
    as [Hno|(meta & enc & _ & _ & _ & _ & Hreg)];
    apply registration_in_log in Hin.
  { rewrite Hno in Hin. by apply elem_of_nil in Hin. }
  rewrite Hreg in Hin. apply list_elem_of_singleton in Hin. subst req.
  unfold request_channels in Hentry. simpl in Hentry.
  apply list_elem_of_singleton in Hentry. subst entry. simpl.
  split.
  - intros [e ->].
    destruct (InsertRows_error_unchanged _ _ _ _ _ _ Hcall1) as [-> ->]. done.
  - intros ->.
    destruct (InsertRows_success_inv _ _ _ _ _ Hcall1)
      as (-> & req1 & resp1 & blob & chunk & channel & Hreg1 & Hresp & Hb & Hc & Hd & Hcs).
    split_and!; [done|done|].
    exists req1, resp1, blob, chunk, channel. split_and!; try done.
    apply registration_in_log. rewrite Hreg1. apply list_elem_of_here.
Qed.

(** ** Inserting, then waiting *)

(** X7. After a call of [InsertRows] that returned nil, [WaitUntilCommitted]
    polls for the sequencers the call left: a first answer whose single
    entry persists the client sequencer the remote echoed at registration
    and a row sequencer of at least the old one plus one ends the wait at
    once with nil; one that persists another client sequencer ends it at
    once with an error; one that persists the echoed client sequencer and a
    lower row sequencer does not end it with nil at the first poll. *)
Theorem InsertRows_then_WaitUntilCommitted (rm : Remote) (batch : Batch)
    (s s' : ChanWorld) (stats : InsertStats) :
  InsertRows rm batch s = (stats, None, s') ->
  exists req resp blob chunk channel,
    EvRegisterBlob req ∈ InsertRows_events rm batch s
    /\ rm_registerBlob rm req = inl resp
    /\ rbs_Blobs resp = [blob] /\ brs_Chunks blob = [chunk]
    /\ krs_Channels chunk = [channel]
    /\ forall rm' st,
         observes rm' (chan s') 0 st ->
         let echoed := crs_ClientSequencer channel in
         let wanted := int64 (rowSequencer (chan s) + 1) in
         (css_PersistedClientSequencer st = echoed ->
          wanted <= css_PersistedRowSequencer st ->
          (WaitUntilCommitted rm' s').1 = (1, None))
         /\ (css_PersistedClientSequencer st <> echoed ->
             (WaitUntilCommitted rm' s').1.1 = 1
             /\ is_Some (WaitUntilCommitted rm' s').1.2)
         /\ (css_PersistedClientSequencer st = echoed ->
             css_PersistedRowSequencer st < wanted ->
             (WaitUntilCommitted rm' s').1 <> (1, None)).
Proof.
  intros Hcall.
  destruct (InsertRows_success_inv _ _ _ _ _ Hcall)
    as (Hrow & req & resp & blob & chunk & channel & Hreg & Hresp & Hb & Hc & Hd & Hcs).
  exists req, resp, blob, chunk, channel. split_and!; try done.
  { apply registration_in_log. rewrite Hreg. apply list_elem_of_here. }
  intros rm' st Hobs echoed wanted. subst echoed wanted.
  rewrite <- Hcs, <- Hrow. unfold WaitUntilCommitted.
  pose proof (Retry_spec (poll_op rm' (chan s')) (rm_backoff rm') 0)
    as (Hm & Hbefore & Hlast).
  pose proof (Retry_unfold (poll_op rm' (chan s')) (rm_backoff rm') 0) as Hun.
  destruct (Retry (poll_op rm' (chan s')) (rm_backoff rm') 0) as [[m evs] r].
  cbn [fst snd] in *. split_and!.
  - intros Hclient Hrows.
    assert (Hnil : (poll_op rm' (chan s') 0).2 = None).
    { apply poll_op_nil. by exists st. }
    rewrite Hnil in Hun. by simplify_eq/=.
  - intros Hclient.
    destruct (poll_op_permanent rm' (chan s') 0) as [e He]; [by exists st|].
    rewrite He in Hun. simplify_eq/=. by split; [|eexists].
  - intros Hclient Hrows Heq. simpl in Heq.
    assert (m = 1%nat) as -> by (injection Heq; lia).
    assert (r = None) as -> by (by injection Heq).
    assert (Hnil : (poll_op rm' (chan s') 0).2 = None) by (by apply Hlast).
    apply poll_op_nil in Hnil as (st' & (resp' & Hr' & _ & Hch') & _ & Hge).
    destruct Hobs as (resp'' & Hr'' & _ & Hch'').
    rewrite Hr' in Hr''. injection Hr'' as <-.
    rewrite Hch' in Hch''. injection Hch'' as <-. lia.
Qed.

(** ** What [InsertRows] changes besides the sequencers *)

Lemma upload_log_no_blob_paths (evs : list event) :
  Forall (fun e => is_upload_or_sleep e = true) evs ->
  blob_paths evs = [] /\ registrations evs = 0%nat.
Proof.
  intros Hall. split.
  - by apply upload_log_silent, silent_labels in Hall as [? _].
  - by apply upload_log_no_registration.
Qed.

(** What a call of [InsertRows] leaves, by what it logged. *)
Lemma InsertRows_leaves_cases (rm : Remote) (batch : Batch)
    (s s' : ChanWorld) (stats : InsertStats) (err : option error) :
  InsertRows rm batch s = (stats, err, s') ->
  let evs := InsertRows_events rm batch s in
  let p := InsertRows_blobPath rm s in
  same_identity (chan s) (chan s')
  /\ uploader (shared (world s')) = uploader (shared (world s))
  /\ requestIDCounter (shared (world s'))
     = Nat.iter (length (blob_paths evs) + registrations evs)
         (fun c => int64 (c + 1)) (requestIDCounter (shared (world s)))
  /\ (evs = [] -> chan s' = chan s /\ is_Some err)
  /\ (evs <> [] ->
      blob_paths evs = [p]
      /\ fileMetadata (chan s') !! "primaryFileId" = Some (path_Base p)
      /\ forall k, k <> "primaryFileId" ->
           fileMetadata (chan s') !! k = fileMetadata (chan s) !! k).
Proof.
  intros Hcall evs p. subst evs p. split_and!.
  - unfold same_identity. insert_cases Hcall; done.
  - insert_cases Hcall; done.
  - destruct (InsertRows_anatomy _ _ _ _ _ _ Hcall)
      as [(_ & Hevs & Hc)|[(_ & Hevs & Hc)
         |[(enc & n & ups & e & _ & HR & _ & Hevs & Hc)
          |(enc & n & ups & req & _ & HR & Hevs & _ & Hc & _)]]];
      rewrite Hevs, Hc; try done.
    all: apply upload_log, upload_log_no_blob_paths in HR as [Hp Hr];
      unfold blob_paths in *;
      rewrite ?omap_app, ?registrations_app, Hp, Hr; done.
  - intros Hevs. revert Hevs. unfold InsertRows_blobPath.
    insert_cases Hcall; intros Hevs; try done.
    all: by destruct (log (world s)).
  - intros Hevs. revert Hevs. unfold InsertRows_blobPath.
    insert_cases Hcall; intros Hevs.
    all: repeat match goal with
         | HR : Retry _ _ 0 = _ |- _ =>
             apply upload_log, upload_log_no_blob_paths in HR as [Hp _]
         end.
    all: try (by rewrite drop_all in Hevs).
    all: unfold blob_paths in *; rewrite ?omap_app, ?Hp.
    all: split_and!; [done|by rewrite lookup_insert_eq
                     |by intros k Hk; rewrite lookup_insert_ne].
Qed.

(** The first return of [InsertRows]: when the transformation of the batch
    fails the call returns its error and has changed and logged nothing;
    when it succeeds the first thing the call logs is the path it draws. *)
Lemma InsertRows_transformation (rm : Remote) (batch : Batch)
    (s s' : ChanWorld) (stats : InsertStats) (err : option error) :
  InsertRows rm batch s = (stats, err, s') ->
  let evs := InsertRows_events rm batch s in
  let p := InsertRows_blobPath rm s in
  (forall e,
     constructRowGroup batch (schema (chan s)) (transformers (chan s)) = inr e ->
     chan s' = chan s
     /\ requestIDCounter (shared (world s')) = requestIDCounter (shared (world s))
     /\ evs = [] /\ err = Some e)
  /\ (forall rows,
        constructRowGroup batch (schema (chan s)) (transformers (chan s))
        = inl rows ->
        head evs = Some (EvBlobPath p)).
Proof.
  intros Hcall evs p. subst evs p. unfold InsertRows_blobPath. split.
  - intros e Hrows. insert_cases Hcall; try congruence.
    all: split_and!; try done; try congruence; by rewrite drop_all.
  - intros rows Hrows. insert_cases Hcall; try congruence; done.
Qed.

(** X8. A call of [InsertRows], whether it returns nil or an error, leaves
    the options, role, prefix, version, schema, key and transformers of the
    channel and the uploader cell as they were. When the transformation of
    the batch fails, the call returns that error, logs nothing and leaves
    the whole channel and the counter as they were. When the transformation
    succeeds, whatever happens next, the call first draws the path, has set
    the metadata key [primaryFileId] to the base name of that path and left
    the other keys as they were; the counter has moved once for the path and
    once more if a registration was sent. *)
Theorem InsertRows_leaves (rm : Remote) (batch : Batch)
    (s s' : ChanWorld) (stats : InsertStats) (err : option error) :
  InsertRows rm batch s = (stats, err, s') ->
  let evs := InsertRows_events rm batch s in
  let p := InsertRows_blobPath rm s in
  same_identity (chan s) (chan s')
  /\ uploader (shared (world s')) = uploader (shared (world s))
  /\ requestIDCounter (shared (world s'))
     = Nat.iter (length (blob_paths evs) + registrations evs)
         (fun c => int64 (c + 1)) (requestIDCounter (shared (world s)))
  /\ (evs = [] -> chan s' = chan s /\ is_Some err)
  /\ (evs <> [] ->
      blob_paths evs = [p]
      /\ fileMetadata (chan s') !! "primaryFileId" = Some (path_Base p)
      /\ forall k, k <> "primaryFileId" ->
           fileMetadata (chan s') !! k = fileMetadata (chan s) !! k)
  /\ (forall e,
        constructRowGroup batch (schema (chan s)) (transformers (chan s))
        = inr e ->
        chan s' = chan s
        /\ requestIDCounter (shared (world s'))
           = requestIDCounter (shared (world s))
        /\ evs = [] /\ err = Some e)
  /\ (forall rows,
        constructRowGroup batch (schema (chan s)) (transformers (chan s))
        = inl rows ->
        head evs = Some (EvBlobPath p)
        /\ blob_paths evs = [p]
        /\ fileMetadata (chan s') !! "primaryFileId" = Some (path_Base p)
        /\ forall k, k <> "primaryFileId" ->
             fileMetadata (chan s') !! k = fileMetadata (chan s) !! k).
Proof.
  intros Hcall evs p. subst evs p.
  destruct (InsertRows_leaves_cases rm batch s s' stats err Hcall)
    as (Hid & Hcell & Hcount & Hnone & Hsome).
  destruct (InsertRows_transformation rm batch s s' stats err Hcall)
    as (Hfail & Hhead).
  split_and!; [exact Hid|exact Hcell|exact Hcount|exact Hnone|exact Hsome
              |exact Hfail|].
  intros rows Hrows. specialize (Hhead rows Hrows). split; [exact Hhead|].
  apply Hsome. intros Hnil. by rewrite Hnil in Hhead.
Qed.

(** ** Permanent upload errors *)

(** X9. When the stage answers the first upload of a call of [InsertRows]
    with a permanent error, the call uploads once, does not pause, sends no
    registration and returns the error that the permanent error wraps. *)
Theorem InsertRows_permanent_upload (rm : Remote) (batch : Batch)
    (s s' : ChanWorld) (stats : InsertStats) (err : option error)
    (e0 inner : error) :
  InsertRows rm batch s = (stats, err, s') ->
  let evs := InsertRows_events rm batch s in
  upload_attempts evs <> 0%nat ->
  (forall u p d m, rm_upload rm 0 u p d m = Some e0) ->
  as_permanent e0 = Some inner ->
  upload_attempts evs = 1%nat
  /\ sleeps evs = []
  /\ registrations evs = 0%nat
  /\ err = Some inner.
Proof.
  intros Hcall evs Hreach Hup Hperm. subst evs.
  destruct (InsertRows_anatomy _ _ _ _ _ _ Hcall)
    as [(_ & Hevs & _)|[(_ & Hevs & _)
       |[(enc & n & ups & e & _ & HR & -> & Hevs & _)
        |(enc & n & ups & req & _ & HR & Hevs & _)]]];
    rewrite Hevs in Hreach |- *; try done.
  all: rewrite Retry_unfold in HR; simpl in HR;
    rewrite Hup, Hperm in HR; simplify_eq/=; done.
Qed.

(** ** The polls of [WaitUntilCommitted] *)

Lemma Retry_last (op : nat -> list event * option error)
    (policy : list backoffStep) (n : nat) :
  (forall k, (op k).1 <> []) ->
  last (Retry op policy n).1.2 = last (op ((Retry op policy n).1.1 - 1)%nat).1.
Proof.
  intros Hop. revert n.
  induction policy as [|[d|ce] policy IH]; intros n; rewrite Retry_unfold.
  1, 3: repeat case_match; simpl; by replace (n - 0)%nat with n by lia.
  destruct (op n).2 as [e|] eqn:Hr; [destruct (as_permanent e) eqn:Hperm|];
    simpl; try by replace (n - 0)%nat with n by lia.
  rewrite last_app, last_cons, IH.
  pose proof (Hop ((Retry op policy (S n)).1.1 - 1)%nat) as Hne.
  destruct (last (op ((Retry op policy (S n)).1.1 - 1)%nat).1) eqn:Hlast; [done|].
  by apply last_None in Hlast.
Qed.

(** The polls and the pauses of [WaitUntilCommitted]. *)
Lemma WaitUntilCommitted_polls_and_pauses (rm : Remote) (s s' : ChanWorld)
    (polls : Z) (err : option error) :
  WaitUntilCommitted rm s = (polls, err, s') ->
  let evs := WaitUntilCommitted_events rm s in
  let granted := take (Z.to_nat polls - 1) (rm_backoff rm) in
  polls <= Z.of_nat (length (rm_backoff rm)) + 1
  /\ Forall (fun st => is_Pause st = true) granted
  /\ sleeps evs = pauses granted
  /\ Z.of_nat (length (sleeps evs)) = polls - 1
  /\ last evs = Some (EvChannelStatus (poll_request (chan s)))
  /\ Forall (fun e => forall req, e = EvChannelStatus req ->
                        req = poll_request (chan s)) evs.
Proof.
  unfold WaitUntilCommitted_events, WaitUntilCommitted.
  pose proof (Retry_spec (poll_op rm (chan s)) (rm_backoff rm) 0) as (Hn & _).
  pose proof (Retry_sleeps (poll_op rm (chan s)) (rm_backoff rm) 0
                (fun _ => eq_refl)) as [Hsl Hgr].
  pose proof (Retry_last (poll_op rm (chan s)) (rm_backoff rm) 0
                ltac:(done)) as Hlast.
  pose proof (Retry_events
                (fun e => forall req, e = EvChannelStatus req ->
                                      req = poll_request (chan s))
                (poll_op rm (chan s)) (rm_backoff rm) 0) as Hreqs.
  destruct (Retry (poll_op rm (chan s)) (rm_backoff rm) 0) as [[m evs] r].
  cbn [fst snd] in *. intros [= <- <- <-]. cbn [chan world shared log].
  rewrite drop_app_length, Nat2Z.id.
  replace (m - 0 - 1)%nat with (m - 1)%nat in * by lia.
  split_and!; try done.
  - lia.
  - rewrite Hsl. unfold pauses.
    assert (Hlen : forall l, Forall (fun st => is_Pause st = true) l ->
                     length (omap pause_of l) = length l).
    { induction 1 as [|[] l ? ? IH]; simpl; [done| |done]. f_equal. exact IH. }
    rewrite Hlen by done. rewrite length_take. lia.
  - apply Hreqs; [|done]. intros k. constructor; [|done]. by intros req [= <-].
Qed.

(** X10. [WaitUntilCommitted] polls at most once more than the policy grants
    pauses; it pauses for exactly the pauses the policy granted before each
    poll but the first, in order; every request it sends carries the role of
    the channel and one entry, with the name, table, database and schema of
    the channel and the client sequencer the channel has; and the last thing
    it does is a poll, never a pause. *)
Theorem WaitUntilCommitted_schedule (rm : Remote) (s s' : ChanWorld)
    (polls : Z) (err : option error) :
  WaitUntilCommitted rm s = (polls, err, s') ->
  let evs := WaitUntilCommitted_events rm s in
  let granted := take (Z.to_nat polls - 1) (rm_backoff rm) in
  let sent :=
    {| bcr_Role := role (chan s);
       bcr_Channels :=
         [ {| csr_Name := Name (sic_ChannelOptions (chan s));
              csr_Table := TableName (sic_ChannelOptions (chan s));
              csr_Database := DatabaseName (sic_ChannelOptions (chan s));
              csr_Schema := SchemaName (sic_ChannelOptions (chan s));
              csr_ClientSequencer := Some (clientSequencer (chan s)) |} ] |} in
  polls <= Z.of_nat (length (rm_backoff rm)) + 1
  /\ Forall (fun st => is_Pause st = true) granted
  /\ sleeps evs = pauses granted
  /\ Z.of_nat (length (sleeps evs)) = polls - 1
  /\ last evs = Some (EvChannelStatus sent)
  /\ Forall (fun e => forall req, e = EvChannelStatus req -> req = sent) evs.
Proof.
  intros Hcall.
  exact (WaitUntilCommitted_polls_and_pauses rm s s' polls err Hcall).
Qed.

Lemma poll_op_transient (rm : Remote) (c : SnowflakeIngestionChannel) (k : nat) :
  (forall e, rm_channelStatus rm k (poll_request c) = inr e ->
             as_permanent e = None) ->
  ~ poll_committed rm c k -> ~ poll_diverged rm c k ->
  exists e, (poll_op rm c k).2 = Some e /\ as_permanent e = None.
Proof.
  intros Htr Hnc Hnd.
  destruct (poll_op rm c k).2 as [e|] eqn:Hop; [|by apply poll_op_nil in Hop].
  exists e. split; [done|]. revert Hop Hnd Htr.
  unfold poll_op, poll_diverged, observes. simpl.
  destruct (rm_channelStatus rm k (poll_request c)) as [resp|e'];
    [|intros [= ->] _ Htr; by apply Htr].
  intros Hop Hnd _. repeat case_match; simplify_eq/=; try done.
  exfalso. apply Hnd. eexists. split; [|done].
  eexists. split_and!; try done. by apply dec_stable.
Qed.

(** X11. When the transport errors of the status call are not permanent, the
    context is never done, and none of the polls the policy allows finds the
    channel committed or taken over, [WaitUntilCommitted] polls once more
    than the policy has pauses, pauses for each of them in order, and
    returns an error. *)
Theorem WaitUntilCommitted_gives_up (rm : Remote) (s s' : ChanWorld)
    (polls : Z) (err : option error) :
  WaitUntilCommitted rm s = (polls, err, s') ->
  Forall (fun st => is_Pause st = true) (rm_backoff rm) ->
  (forall k e, rm_channelStatus rm k (poll_request (chan s)) = inr e ->
               as_permanent e = None) ->
  (forall k, (k <= length (rm_backoff rm))%nat ->
     ~ poll_committed rm (chan s) k /\ ~ poll_diverged rm (chan s) k) ->
  polls = Z.of_nat (length (rm_backoff rm)) + 1
  /\ is_Some err
  /\ sleeps (WaitUntilCommitted_events rm s) = pauses (rm_backoff rm).
Proof.
  unfold WaitUntilCommitted_events, WaitUntilCommitted.
  intros Hcall Hpol Htr Hnone. revert Hcall.
  pose proof (Retry_spec (poll_op rm (chan s)) (rm_backoff rm) 0)
    as (Hn & _ & Hlast).
  pose proof (Retry_sleeps (poll_op rm (chan s)) (rm_backoff rm) 0
                (fun _ => eq_refl)) as [Hsl _].
  pose proof (Retry_exhausts (poll_op rm (chan s)) (rm_backoff rm) 0) as Hexh.
  destruct (Retry (poll_op rm (chan s)) (rm_backoff rm) 0) as [[m evs] r].
  cbn [fst snd] in *. intros [= <- <- <-]. cbn [chan world shared log].
  rewrite drop_app_length.
  destruct (Hnone (m - 1)%nat ltac:(lia)) as [Hnc Hnd].
  destruct (poll_op_transient rm (chan s) (m - 1) (Htr _) Hnc Hnd)
    as (e & He & Hnp).
  specialize (Hexh e Hpol He Hnp). subst m.
  split_and!.
  - lia.
  - destruct r as [e'|]; [by eexists|].
    destruct Hlast as [Hlast _]. rewrite Hlast in He by done. discriminate.
  - rewrite Hsl. f_equal.
    replace (0 + length (rm_backoff rm) + 1 - 0 - 1)%nat
      with (length (rm_backoff rm)) by lia.
    apply firstn_all.
Qed.

(** ** Creating a client *)

(** X12. [NewSnowflakeServiceClient] sends nothing when the REST client
    cannot be built and at most one configure request otherwise. The client
    it returns has a counter at 0 and a cell that holds the uploader built
    from the stage location of the answer, without error; the first channel
    opened from it sends the identifier made of the prefix of the answer,
    its deployment id and 1. *)
Theorem NewSnowflakeServiceClient_first_request (rm : Remote)
    (opts_Role opts_ConnectVersion : string) :
  let r := NewSnowflakeServiceClient rm opts_Role opts_ConnectVersion in
  let cfg := {| ccr_Role := opts_Role |} in
  (forall e, rm_NewRestClient rm = Some e -> r = (inr e, []))
  /\ (r.2 = [] \/ r.2 = [EvConfigureClient cfg])
  /\ (forall cl sh, r.1 = inl (cl, sh) ->
        exists resp,
          rm_NewRestClient rm = None
          /\ rm_configureClient rm cfg = inl resp
          /\ ccs_StatusCode resp = responseSuccess
          /\ newUploader (ccs_StageLocation resp)
             = (sur_uploader (uploader sh), None)
          /\ sur_err (uploader sh) = None
          /\ requestIDCounter sh = 0
          /\ ssc_options_Role cl = opts_Role
          /\ ssc_options_ConnectVersion cl = opts_ConnectVersion
          /\ ssc_deploymentID cl = ccs_DeploymentID resp
          /\ forall rm' opts,
               log (OpenChannel rm' cl opts {| shared := sh; log := r.2 |}).2
               = [ EvConfigureClient cfg;
                   EvOpenChannel
                     {| ocr_RequestID :=
                          (ccs_Prefix resp +:+ "_"
                             +:+ fmt_d (ccs_DeploymentID resp)) +:+ "_1";
                        ocr_Role := opts_Role;
                        ocr_Channel := Name opts;
                        ocr_Database := DatabaseName opts;
                        ocr_Schema := SchemaName opts;
                        ocr_Table := TableName opts;
                        ocr_WriteMode := "CLOUD_STORAGE" |} ]).
Proof.
  intros r cfg. subst r cfg. unfold NewSnowflakeServiceClient. split_and!.
  - by intros e ->.
  - repeat case_match; simpl; auto.
  - intros cl sh Hres. repeat case_match; simplify_eq/=.
    eexists. split_and!; try done; [by apply dec_stable|].
    intros rm' opts. unfold OpenChannel. unfold_monad. simpl.
    by repeat case_match.
Qed.

(** ** The refresh loop *)

(** X13. A tick of the refresh loop sends one configure request with the
    role of the client and leaves the counter alone. When the request fails
    the cell holds that error; otherwise the cell holds what [newUploader]
    made of the stage location of the answer, uploader and error, whatever
    the status code of the answer and whatever the cell held before. *)
Theorem uploadRefresh_effect (rm : Remote) (opts_Role : string) (w : World) :
  let cfg := {| ccr_Role := opts_Role |} in
  let w' := (uploadRefresh rm opts_Role w).2 in
  log w' = log w ++ [EvConfigureClient cfg]
  /\ requestIDCounter (shared w') = requestIDCounter (shared w)
  /\ (forall e, rm_configureClient rm cfg = inr e ->
        sur_err (uploader (shared w')) = Some e)
  /\ (forall resp, rm_configureClient rm cfg = inl resp ->
        uploader (shared w')
        = {| sur_uploader := (newUploader (ccs_StageLocation resp)).1;
             sur_err := (newUploader (ccs_StageLocation resp)).2 |})
  /\ (sur_err (uploader (shared w')) = None <->
      exists resp u,
        rm_configureClient rm cfg = inl resp
        /\ newUploader (ccs_StageLocation resp) = (u, None)).
Proof.
  intros cfg w'. subst cfg w'. unfold uploadRefresh. unfold_monad. simpl.
  split_and!.
  1, 2: by repeat case_match.
  - by intros e ->.
  - intros resp ->. by destruct (newUploader (ccs_StageLocation resp)).
  - split.
    + intros Hnone. repeat case_match; simplify_eq/=. by eexists _, _.
    + intros (resp & u & -> & ->). done.
Qed.

Lemma uploads_upload_rounds (u : Uploader) (p : string) (d m : bytes) (n : nat) :
  uploads (upload_rounds u p d m n) = replicate n (u, p, d, m).
Proof.
  unfold uploads. induction n as [|[|n] IH]; [done..|].
  rewrite upload_rounds_S. simpl in *. by rewrite IH.
Qed.

(** With a cell that holds no error, a call whose transformation, encoding,
    metadata parsing and encryption succeed uploads the encrypted bytes. *)
Lemma InsertRows_reaches_upload (rm : Remote) (batch : Batch) (s : ChanWorld)
    (rows : Rows) (written : bytes) (meta : ParquetMetadata) (enc : bytes) :
  let p := InsertRows_blobPath rm s in
  sur_err (uploader (shared (world s))) = None ->
  constructRowGroup batch (schema (chan s)) (transformers (chan s)) = inl rows ->
  writeParquetFile (version (chan s)) (schema (chan s)) rows
    (<["primaryFileId" := path_Base p]> (fileMetadata (chan s)))
  = (written, None) ->
  readParquetMetadata written = inl meta ->
  encrypt (padBuffer written aes_BlockSize)
    (encryptionKey (sic_encryptionInfo (chan s))) p 0 = inl enc ->
  EvUpload (sur_uploader (uploader (shared (world s)))) p enc (md5_Sum enc)
  ∈ InsertRows_events rm batch s.
Proof.
  intros p Hnone Hrows Hwritten Hmeta Henc. subst p.
  destruct (InsertRows rm batch s) as [[stats err] s'] eqn:Hcall.
  unfold InsertRows_blobPath in *.
  insert_cases Hcall; try congruence.
  all: repeat match goal with
       | HR : Retry ?op ?pol 0 = (_, ?l, _) |- _ =>
           pose proof (Retry_first_run op pol 0) as Hfirst;
           rewrite HR in Hfirst; cbn [fst snd] in Hfirst; clear HR
       end.
  all: rewrite !elem_of_app; right;
    first [left; apply Hfirst; by left | apply Hfirst; by left].
Qed.

(** X14. Every upload of a call of [InsertRows] goes through the uploader
    the cell held when the call started, to the path the call computed, with
    the same bytes and digest, at most four times. After a tick of the
    refresh loop that built an uploader, whatever the cell held before, a
    call whose transformation, encoding, metadata parsing and encryption
    succeed uploads through that uploader. *)
Theorem refresh_then_InsertRows (rm_tick rm : Remote) (opts_Role : string)
    (w : World) (c : SnowflakeIngestionChannel) (batch : Batch)
    (resp : clientConfigureResponse) (u : Uploader) :
  rm_configureClient rm_tick {| ccr_Role := opts_Role |} = inl resp ->
  newUploader (ccs_StageLocation resp) = (u, None) ->
  let s := {| chan := c; world := (uploadRefresh rm_tick opts_Role w).2 |} in
  let evs := InsertRows_events rm batch s in
  let p := InsertRows_blobPath rm s in
  (exists d m, uploads evs = replicate (upload_attempts evs) (u, p, d, m))
  /\ (upload_attempts evs <= 4)%nat
  /\ (forall rows written meta enc,
        constructRowGroup batch (schema c) (transformers c) = inl rows ->
        writeParquetFile (version c) (schema c) rows
          (<["primaryFileId" := path_Base p]> (fileMetadata c))
        = (written, None) ->
        readParquetMetadata written = inl meta ->
        encrypt (padBuffer written aes_BlockSize)
          (encryptionKey (sic_encryptionInfo c)) p 0 = inl enc ->
        uploads evs = replicate (upload_attempts evs) (u, p, enc, md5_Sum enc)
        /\ (1 <= upload_attempts evs)%nat).
Proof.
  intros Hcfg Hnew s evs p. subst evs p.
  assert (Hcell : uploader (shared (world s))
                  = {| sur_uploader := u; sur_err := None |}).
  { subst s. unfold uploadRefresh. unfold_monad. simpl. by rewrite Hcfg, Hnew. }
  assert (Hcount : forall l, upload_attempts l = length (uploads l)).
  { unfold upload_attempts, uploads. induction l as [|[] l IH]; simpl;
      rewrite ?filter_cons_True, ?filter_cons_False by done; simpl;
      by rewrite ?IH. }
  assert (Hups : exists d m n,
             (n <= 4)%nat
             /\ uploads (InsertRows_events rm batch s)
                = replicate n (u, InsertRows_blobPath rm s, d, m)).
  { destruct (InsertRows_trace_cases rm batch s)
      as [Hevs|[Hevs|(enc & n & Hn & _ & Hevs)]].
    1, 2: rewrite Hevs; exists [], [], 0%nat; by split; [lia|].
    rewrite Hcell in Hevs. cbn [sur_uploader] in Hevs.
    exists enc, (md5_Sum enc), n. split; [lia|].
    destruct Hevs as [->|[req ->]]; unfold uploads; rewrite !omap_app;
      fold (uploads (upload_rounds u (InsertRows_blobPath rm s) enc (md5_Sum enc) n));
      rewrite uploads_upload_rounds; simpl;
      by rewrite ?(right_id_L [] (++)). }
  destruct Hups as (d & m & n & Hn & Hups).
  assert (Hlen : upload_attempts (InsertRows_events rm batch s) = n)
    by (by rewrite Hcount, Hups, length_replicate).
  rewrite Hlen. split_and!; [by exists d, m|done|].
  intros rows written meta enc Hrows Hwritten Hmeta Henc.
  pose proof (InsertRows_reaches_upload rm batch s rows written meta enc) as Hin.
  rewrite Hcell in Hin. cbn [sur_uploader sur_err] in Hin.
  specialize (Hin eq_refl Hrows Hwritten Hmeta Henc).
  assert (Hin' : (u, InsertRows_blobPath rm s, enc, md5_Sum enc)
                 ∈ uploads (InsertRows_events rm batch s)).
  { apply list_elem_of_omap. by eexists. }
  rewrite Hups in Hin'. apply elem_of_replicate in Hin' as [[= <- <-] Hne].
  split; [done|lia].
Qed.

(** ** The errors of [ChannelStatus] *)

(** X19. The errors of [ChannelStatus], in the order of its checks: the
    transport error as it is; for a batch status other than the success code,
    an error that carries that status and the message of the answer; then,
    for a number of entries other than one, an error that carries the
    number; then, for a single entry whose own status is not the success
    code, an error that carries the status of the batch, which is the
    success code, and not the status of the entry. *)
Theorem ChannelStatus_errors (rm : Remote) (c : SnowflakeServiceClient)
    (opts : ChannelOptions) (w : World) :
  let answer := rm_channelStatus rm 0 (ChannelStatus_request c opts) in
  let result := (ChannelStatus rm c opts w).1 in
  (forall e, answer = inr e -> result = inr e)
  /\ (forall resp, answer = inl resp ->
        bcs_StatusCode resp <> responseSuccess ->
        result = inr (ErrMsg ("unable to status channel " +:+ Name opts
                              +:+ " - status: " +:+ fmt_d (bcs_StatusCode resp)
                              +:+ ", message: " +:+ bcs_Message resp)))
  /\ (forall resp, answer = inl resp ->
        bcs_StatusCode resp = responseSuccess ->
        len (bcs_Channels resp) <> 1 ->
        result = inr (ErrMsg ("failed to fetch channel " +:+ Name opts
                              +:+ ", got " +:+ fmt_d (len (bcs_Channels resp))
                              +:+ " channels in response")))
  /\ (forall resp entry, answer = inl resp ->
        bcs_StatusCode resp = responseSuccess ->
        bcs_Channels resp = [entry] ->
        css_StatusCode entry <> responseSuccess ->
        result = inr (ErrMsg ("unable to status channel " +:+ Name opts
                              +:+ " - status: " +:+ fmt_d responseSuccess))).
Proof.
  intros answer result. subst answer result.
  unfold ChannelStatus, ChannelStatus_request. unfold_monad. simpl.
  split_and!.
  - by intros e ->.
  - intros resp -> Hst. by rewrite decide_True.
  - intros resp -> Hst Hlen. rewrite decide_False by (by intros Hne).
    destruct (bcs_Channels resp) as [|x [|y l]]; try done.
  - intros resp entry -> Hst Hch Hentry.
    rewrite decide_False by (by intros Hne).
    rewrite Hch, decide_True by done. by rewrite Hst.
Qed.

(** ** The error of [WaitUntilCommitted] *)

(** What [Retry] returns, read from its last run: nil when that run
    succeeded, the wrapped error when it failed for good, the error of the
    context when the context was done at the pause that followed, and the
    error of the run when the policy had no further step. *)
Lemma Retry_result (op : nat -> list event * option error)
    (policy : list backoffStep) (n : nat) :
  let m := (Retry op policy n).1.1 in
  let r := (Retry op policy n).2 in
  match (op (m - 1)%nat).2 with
  | None => r = None
  | Some e =>
      match as_permanent e with
      | Some inner => r = Some inner
      | None =>
          match policy !! (m - 1 - n)%nat with
          | None => r = Some e
          | Some (CtxDone ce) => r = Some ce
          | Some (Pause _) => False
          end
      end
  end.
Proof.
  revert n. induction policy as [|[d|ce] policy IH]; intros n;
    rewrite Retry_unfold.
  1, 3: destruct (op n).2 as [e|] eqn:Hop; [destruct (as_permanent e) eqn:Hperm|];
    simpl; replace (n - 0)%nat with n by lia; rewrite Hop; try done;
    rewrite Hperm; try done; by replace (n - n)%nat with 0%nat by lia.
  destruct (op n).2 as [e|] eqn:Hop; [destruct (as_permanent e) eqn:Hperm|];
    simpl; replace (n - 0)%nat with n by lia.
  1, 3: rewrite Hop; try done; by rewrite Hperm.
  specialize (IH (S n)). cbn zeta in IH.
  pose proof (Retry_spec op policy (S n)) as (Hm & _ & _).
  destruct ((op ((Retry op policy (S n)).1.1 - 1)%nat).2) as [e'|]; [|done].
  destruct (as_permanent e'); [done|].
  replace ((Retry op policy (S n)).1.1 - 1 - n)%nat
    with (S ((Retry op policy (S n)).1.1 - 1 - S n)) by lia.
  done.
Qed.

Lemma poll_op_diverged (rm : Remote) (c : SnowflakeIngestionChannel) (k : nat) :
  poll_diverged rm c k ->
  (poll_op rm c k).2
  = Some (ErrPermanent
            (ErrMsg ("unexpected number of channels for status request: "
                     +:+ fmt_d 1))).
Proof.
  unfold poll_op, poll_diverged, observes. simpl.
  intros (st & (resp & -> & Hst & Hch) & Hcs). rewrite Hch.
  rewrite decide_False by (by intros Hne).
  by rewrite decide_True by done.
Qed.

(** X20. The error [WaitUntilCommitted] returns, read from its last poll.
    When that poll found a single entry whose persisted client sequencer is
    not the channel's, the error is the plain error that reads "unexpected
    number of channels for status request: 1". When that poll failed with an
    error that is not permanent, either the context was done at the pause
    that followed and the error is the error of the context, or the policy
    had no further step and the error is the error of that poll. *)
Theorem WaitUntilCommitted_error (rm : Remote) (s s' : ChanWorld)
    (polls : Z) (err : option error) :
  WaitUntilCommitted rm s = (polls, err, s') ->
  let k := (Z.to_nat polls - 1)%nat in
  (poll_diverged rm (chan s) k ->
     err = Some (ErrMsg ("unexpected number of channels for status request: "
                         +:+ fmt_d 1)))
  /\ (forall e, (poll_op rm (chan s) k).2 = Some e -> as_permanent e = None ->
        match rm_backoff rm !! k with
        | None => err = Some e
        | Some (CtxDone ce) => err = Some ce
        | Some (Pause _) => False
        end).
Proof.
  unfold WaitUntilCommitted.
  pose proof (Retry_result (poll_op rm (chan s)) (rm_backoff rm) 0) as Hres.
  cbn zeta in Hres.
  destruct (Retry (poll_op rm (chan s)) (rm_backoff rm) 0) as [[m evs] r].
  cbn [fst snd] in Hres. intros [= <- <- <-]. rewrite Nat2Z.id.
  rewrite Nat.sub_0_r in Hres. split.
  - intros Hdiv. apply poll_op_diverged in Hdiv. by rewrite Hdiv in Hres.
  - intros e He Hperm. by rewrite He, Hperm in Hres.
Qed.

End Properties.

(** ** The modelled blob path *)

Lemma pretty_N_go_no_underscore (x : N) (s : string) :
  has_char "_" s = false -> has_char "_" (pretty_N_go x s) = false.
Proof.
  revert s. induction (N.lt_wf_0 x) as [x _ IH]; intros s Hs.
  assert (x = 0 \/ 0 < x)%N as [->|Hpos] by lia; [by rewrite pretty_N_go_0|].
  rewrite pretty_N_go_step by done. apply IH; [by apply N.div_lt|].
  simpl. rewrite Hs. unfold pretty_N_char. by repeat case_match.
Qed.

Lemma fmt_d_no_underscore (z : Z) : has_char "_" (fmt_d z) = false.
Proof.
  unfold fmt_d, pretty, pretty_Z. destruct z as [|p|p]; [done|..];
    unfold pretty, pretty_positive, pretty, pretty_N;
    (case_decide; [done|]); simpl; by apply pretty_N_go_no_underscore.
Qed.

(** Two strings without underscore, each followed by an underscore and a
    rest, are equal when the wholes are, and so are the rests. *)
Lemma split_at_underscore (t1 t2 r1 r2 : string) :
  has_char "_" t1 = false -> has_char "_" t2 = false ->
  t1 +:+ "_" +:+ r1 = t2 +:+ "_" +:+ r2 -> t1 = t2 /\ r1 = r2.
Proof.
  revert t2. induction t1 as [|a t1 IH]; intros [|b t2]; cbn.
  - intros _ _ Heq. by simplify_eq/=.
  - intros _ Hb Heq. injection Heq as <- _. by rewrite decide_True in Hb.
  - intros Ha _ Heq. injection Heq as -> _. by rewrite decide_True in Ha.
  - intros Ha Hb Heq. injection Heq as -> Heq.
    destruct (decide ("_"%char = b)); [done|].
    destruct (IH t2 Ha Hb Heq) as [-> ->]. done.
Qed.

(** The modelled path determines the counter it was made from. *)
Lemma generateBlobPath_spec_counter_determined :
  counter_determined generateBlobPath_spec.
Proof.
  intros prefix tid1 tid2 n1 n2. unfold generateBlobPath_spec. intros Heq.
  apply (inj (String.app prefix)) in Heq.
  apply (inj (String.app "_")) in Heq.
  apply split_at_underscore in Heq as [_ Heq];
    [|apply fmt_d_no_underscore..].
  by apply (inj pretty) in Heq.
Qed.

(** * The statements at concrete runs *)

Section Runs.
Import Demo Scenario.

#[local] Existing Instance Demo.collab.

Lemma InsertRows_success_sequencers_witness :
  rowSequencer (chan (InsertRows rm_ok batch3 s0).2) = int64 (0 + 1)
  /\ (in_int64 0 -> in_int64 (0 + 1) ->
      rowSequencer (chan (InsertRows rm_ok batch3 s0).2) = 0 + 1)
  /\ exists req resp blob chunk channel,
       last (InsertRows_events rm_ok batch3 s0) = Some (EvRegisterBlob req)
       /\ rm_registerBlob rm_ok req = inl resp
       /\ rbs_Blobs resp = [blob]
       /\ brs_Chunks blob = [chunk]
       /\ krs_Channels chunk = [channel]
       /\ crs_StatusCode channel = responseSuccess
       /\ clientSequencer (chan (InsertRows rm_ok batch3 s0).2)
          = crs_ClientSequencer channel.
Proof.
  apply (InsertRows_success_sequencers rm_ok batch3 s0
           (InsertRows rm_ok batch3 s0).2 (InsertRows rm_ok batch3 s0).1.1).
  reflexivity.
Defined.

Lemma InsertRows_error_sequencers_witness :
  rowSequencer (chan (InsertRows rm_rejected batch3 s0).2) = 0
  /\ clientSequencer (chan (InsertRows rm_rejected batch3 s0).2) = 0.
Proof.
  apply (InsertRows_error_sequencers rm_rejected batch3 s0
           (InsertRows rm_rejected batch3 s0).2
           (InsertRows rm_rejected batch3 s0).1.1
           (ErrMsg "error response injesting data (5): (no message)")).
  reflexivity.
Defined.

(** A poll that observes a persisted row sequencer of 5, above the local 1,
    together with a persisted client sequencer of 7 where the channel has 0:
    [WaitUntilCommitted] returns an error after that one poll. *)
Lemma WaitUntilCommitted_row_reached_error :
  (exists k, Z.of_nat k < (WaitUntilCommitted rm_taken_over s1).1.1
             /\ poll_row_reached rm_taken_over (chan s1) k)
  /\ (WaitUntilCommitted rm_taken_over s1).1.1 = 1
  /\ (WaitUntilCommitted rm_taken_over s1).1.2 <> None.
Proof.
  split_and!; [|reflexivity|discriminate].
  exists 0%nat. split; [reflexivity|].
  exists (persisted 7 5). split; [|vm_compute; discriminate].
  exists (status_of [persisted 7 5]). by split_and!.
Qed.

Lemma WaitUntilCommitted_polls_witness :
  ((WaitUntilCommitted rm_catching_up s1).1.2 = None <->
     exists k, Z.of_nat k < 2 /\ poll_committed rm_catching_up (chan s1) k)
  /\ (forall k, Z.of_nat k < 2 -> poll_diverged rm_catching_up (chan s1) k ->
        is_Some (WaitUntilCommitted rm_catching_up s1).1.2
        /\ 2 = Z.of_nat k + 1)
  /\ 1 <= 2
  /\ 2 = Z.of_nat (status_requests (WaitUntilCommitted_events rm_catching_up s1))
  /\ chan (WaitUntilCommitted rm_catching_up s1).2 = chan s1
  /\ shared (world (WaitUntilCommitted rm_catching_up s1).2) = shared (world s1).
Proof.
  apply (WaitUntilCommitted_polls rm_catching_up s1
           (WaitUntilCommitted rm_catching_up s1).2 2
           (WaitUntilCommitted rm_catching_up s1).1.2).
  reflexivity.
Defined.

(** The upload fails at each of the first three attempts; the call makes a
    fourth, registers the blob and returns a nil error. *)
Lemma InsertRows_fourth_attempt :
  (forall k u p d m, (k < 3)%nat -> rm_upload rm_fourth k u p d m <> None)
  /\ upload_attempts (InsertRows_events rm_fourth batch3 s0) = 4%nat
  /\ registrations (InsertRows_events rm_fourth batch3 s0) = 1%nat
  /\ (InsertRows rm_fourth batch3 s0).1.2 = None.
Proof.
  split_and!; [|reflexivity..].
  intros k u p d m Hk. destruct k as [|[|[|k]]]; [discriminate..|lia].
Qed.

Lemma InsertRows_upload_retries_witness :
  sleeps (InsertRows_events rm_third batch3 s0)
  = replicate (upload_attempts (InsertRows_events rm_third batch3 s0) - 1) 1000
  /\ upload_attempts (InsertRows_events rm_third batch3 s0) = 3%nat
  /\ registrations (InsertRows_events rm_third batch3 s0) = 1%nat.
Proof.
  destruct (InsertRows_upload_retries rm_third batch3 s0
              (InsertRows rm_third batch3 s0).2
              (InsertRows rm_third batch3 s0).1.1
              (InsertRows rm_third batch3 s0).1.2 eq_refl)
    as (_ & _ & _ & Hsleeps & _ & Hk).
  split; [exact Hsleeps|].
  apply (Hk 2%nat).
  - lia.
  - vm_compute. discriminate.
  - reflexivity.
  - intros j u p d m Hj. exists (ErrMsg "connection reset").
    destruct j as [|[|j]]; [by split..|lia].
Defined.

Lemma InsertRows_shape_mismatch_witness :
  is_Some (InsertRows rm_no_chunks batch3 s0).1.2
  /\ last (InsertRows_events rm_no_chunks batch3 s0) = Some (EvRegisterBlob req0)
  /\ registrations (InsertRows_events rm_no_chunks batch3 s0) = 1%nat
  /\ rowSequencer (chan (InsertRows rm_no_chunks batch3 s0).2) = 0
  /\ clientSequencer (chan (InsertRows rm_no_chunks batch3 s0).2) = 0.
Proof.
  apply (InsertRows_shape_mismatch rm_no_chunks batch3 s0
           (InsertRows rm_no_chunks batch3 s0).2
           (InsertRows rm_no_chunks batch3 s0).1.1
           (InsertRows rm_no_chunks batch3 s0).1.2 req0 no_chunks).
  - reflexivity.
  - change (InsertRows_events rm_no_chunks batch3 s0)
      with [EvBlobPath "pfx_7_844424930131973_1";
            EvUpload "stage" "pfx_7_844424930131973_1"
              (padBuffer batch3 aes_BlockSize) [];
            EvRegisterBlob req0].
    do 2 apply list_elem_of_further. apply list_elem_of_here.
  - reflexivity.
  - right. exists {| brs_Chunks := [] |}. split; [reflexivity|].
    left. vm_compute. discriminate.
Defined.

Lemma ChannelStatus_single_entry_witness :
  (ChannelStatus rm_catching_up client (opts 1 "a") (world0 fresh)).1 = inl "tok".
Proof.
  apply (ChannelStatus_single_entry rm_catching_up client (opts 1 "a")
           (world0 fresh)).
  exists (status_of [persisted 0 0]), (persisted 0 0). by split_and!.
Defined.

Lemma InsertRows_stale_uploader_witness :
  is_Some (InsertRows rm_ok batch3 s_stale).1.2
  /\ upload_attempts (InsertRows_events rm_ok batch3 s_stale) = 0%nat
  /\ registrations (InsertRows_events rm_ok batch3 s_stale) = 0%nat
  /\ InsertRows_events rm_ok batch3 s_stale
     = [EvBlobPath (InsertRows_blobPath rm_ok s_stale)]
  /\ buffer (chan (InsertRows rm_ok batch3 s_stale).2) = batch3
  /\ (InsertRows rm_ok batch3 s_stale).1.2
     = Some (ErrWrap "failed to acquire stage uploader: "
               (ErrMsg "configure failed")).
Proof.
  destruct (InsertRows_stale_uploader rm_ok batch3 s_stale
              (InsertRows rm_ok batch3 s_stale).2
              (InsertRows rm_ok batch3 s_stale).1.1
              (InsertRows rm_ok batch3 s_stale).1.2
              (ErrMsg "configure failed") eq_refl eq_refl)
    as (Herr & Hup & Hreg & _ & _ & _ & Hstages).
  destruct (Hstages batch3 batch3 None eq_refl eq_refl)
    as (Hevs & _ & Hbuf & Hacq).
  split_and!; [exact Herr|exact Hup|exact Hreg|exact Hevs|exact Hbuf|exact Hacq].
Defined.

Lemma InsertRows_reported_size_witness :
  CompressedOutputSize (InsertRows rm_ok batch3 s0).1.1 = 3
  /\ len (padBuffer batch3 aes_BlockSize) = 16.
Proof.
  destruct (InsertRows_reported_size rm_ok batch3 s0
              (InsertRows rm_ok batch3 s0).2
              (InsertRows rm_ok batch3 s0).1.1 eq_refl)
    as (Hsize & _).
  split; [exact Hsize|reflexivity].
Defined.

Lemma blob_paths_distinct_witness :
  NoDup (blob_paths (log (ses_world (run script (session0 client sh0))))).
Proof.
  apply (blob_paths_distinct script client sh0).
  - exact generateBlobPath_spec_counter_determined.
  - reflexivity.
Defined.

(** [ChannelStatus] sends a status request that carries no identifier, and
    the counter stays where it was. *)
Lemma ChannelStatus_request_without_id :
  exists e,
    e ∈ log (ses_world (run [(rm_ok, CallChannelStatus (opts 1 "a"))]
                          (session0 client sh0)))
    /\ is_control_request e = true
    /\ request_id e = None
    /\ requestIDCounter
         (shared (ses_world (run [(rm_ok, CallChannelStatus (opts 1 "a"))]
                               (session0 client sh0))))
       = requestIDCounter sh0.
Proof.
  exists (EvChannelStatus (ChannelStatus_request client (opts 1 "a"))).
  split_and!; [|reflexivity..]. apply list_elem_of_here.
Qed.

Lemma request_ids_fresh_witness :
  NoDup (request_ids (log (ses_world (run script (session0 client sh0)))))
  /\ Forall (fresh_id "pfx_7" 0 14)
       (request_ids (log (ses_world (run script (session0 client sh0))))).
Proof.
  destruct (request_ids_fresh script client sh0 eq_refl) as (Hnd & Hfresh & _).
  split; [exact Hnd|exact Hfresh].
Defined.

End Runs.

(** * The further properties at concrete runs *)

Section FurtherRuns.
Import Demo Scenario FurtherScenario.

#[local] Existing Instance Demo.collab.

(** On the instance, whatever the batch, a call on [s0] against [rm_ok]
    returns nil, reports the length of the batch as the size, and ends with
    the registration of a chunk whose length is the [int32] of that
    length. *)
Lemma InsertRows_rm_ok_any (b : bytes) :
  (InsertRows rm_ok b s0).1
  = ({| BuildTime := 1000; UploadTime := 1000; CompressedOutputSize := len b |},
     None)
  /\ last (InsertRows_events rm_ok b s0)
     = Some (EvRegisterBlob
               (registerBlob_request (chan s0) "pfx_7_2"
                  "pfx_7_844424930131973_1" [] (padBuffer b aes_BlockSize)
                  (len b) (len b) tt 0 1000 2000)).
Proof. split; reflexivity. Qed.

Lemma len_batch_2GiB : len batch_2GiB = 2 ^ 31.
Proof.
  unfold len, batch_2GiB. rewrite length_replicate, Z2Nat.id; [done|lia].
Qed.

(** A call that writes a file of [2^31] bytes returns nil and reports
    [2^31] as the size, and the [ChunkLength] it registers is [-2^31]. *)
Lemma InsertRows_chunk_length_wraps :
  (InsertRows rm_ok batch_2GiB s0).1.2 = None
  /\ CompressedOutputSize (InsertRows rm_ok batch_2GiB s0).1.1 = 2 ^ 31
  /\ exists req blob chunk,
       last (InsertRows_events rm_ok batch_2GiB s0) = Some (EvRegisterBlob req)
       /\ rbr_Blobs req = [blob]
       /\ bm_Chunks blob = [chunk]
       /\ chk_ChunkLength chunk = - 2 ^ 31
       /\ chk_ChunkLength chunk
          <> CompressedOutputSize (InsertRows rm_ok batch_2GiB s0).1.1.
Proof.
  destruct (InsertRows_rm_ok_any batch_2GiB) as [Hres Hlast].
  rewrite Hres, Hlast. cbn [fst snd CompressedOutputSize].
  split; [done|]. split; [apply len_batch_2GiB|].
  eexists _, _, _. split; [reflexivity|]. split; [reflexivity|].
  split; [reflexivity|].
  cbn [chk_ChunkLength]. rewrite len_batch_2GiB. split; [reflexivity|].
  discriminate.
Qed.

Lemma fakeThreadID_carries_id_witness :
  in_int64 (fakeThreadID 3 (rand_N rm_ok (2 ^ 48)))
  /\ Z.shiftr (fakeThreadID 3 (rand_N rm_ok (2 ^ 48))) 48 = 3
  /\ Z.land (fakeThreadID 3 (rand_N rm_ok (2 ^ 48))) (Z.ones 48)
     = rand_N rm_ok (2 ^ 48)
  /\ (fakeThreadID 3 (rand_N rm_ok (2 ^ 48))
      = fakeThreadID 4 (rand_N rm_third (2 ^ 48)) -> 3 = 4).
Proof.
  apply (fakeThreadID_carries_id rm_ok rm_third 3 4); unfold in_int16; lia.
Defined.

Lemma InsertRows_registration_content_witness :
  exists blob chunk entry,
    rbr_Blobs req0 = [blob] /\ bm_Chunks blob = [chunk]
    /\ chk_Channels chunk = [entry]
    /\ chk_ChunkStartOffset chunk = 0
    /\ chk_ChunkLength chunk = 3
    /\ cm_ClientSequencer entry = 0
    /\ cm_RowSequencer entry = 1
    /\ cm_OffsetToken entry = None.
Proof.
  assert (Hin : EvRegisterBlob req0 ∈ InsertRows_events rm_ok batch3 s0)
    by (apply (list_elem_of_lookup_2 _ 2%nat); reflexivity).
  destruct (InsertRows_registration_content rm_ok batch3 s0
              (InsertRows rm_ok batch3 s0).2
              (InsertRows rm_ok batch3 s0).1.1
              (InsertRows rm_ok batch3 s0).1.2 req0 eq_refl Hin)
    as (blob & chunk & entry & enc & Hb & Hc & Hk & _ & _ & _ & _ & _
        & Hstart & Hlen & _ & _ & _ & _ & _ & _ & Hcs & Hrs & _ & _ & Htok).
  exists blob, chunk, entry.
  split_and!;
    [exact Hb|exact Hc|exact Hk|exact Hstart|exact Hlen|exact Hcs|exact Hrs
    |exact Htok].
Defined.

Lemma InsertRows_next_registration_witness :
  cm_ClientSequencer entry_after = 42 /\ cm_RowSequencer entry_after = 2.
Proof.
  assert (Hin : EvRegisterBlob req_after ∈ InsertRows_events rm_ok batch3 s_after)
    by (apply (list_elem_of_lookup_2 _ 2%nat); reflexivity).
  assert (Hentry : entry_after ∈ request_channels req_after)
    by (apply (list_elem_of_lookup_2 _ 0%nat); reflexivity).
  destruct (InsertRows_next_registration rm_ok rm_ok batch3 batch3 s0 s_after
              (InsertRows rm_ok batch3 s_after).2
              (InsertRows rm_ok batch3 s0).1.1
              (InsertRows rm_ok batch3 s_after).1.1
              None None req_after entry_after eq_refl eq_refl Hin Hentry)
    as (_ & Hnone).
  destruct (Hnone eq_refl) as (Hcs & Hrs & _).
  split; [exact Hcs|exact Hrs].
Defined.

Lemma InsertRows_then_WaitUntilCommitted_witness :
  (WaitUntilCommitted rm_committed s_after).1 = (1, None).
Proof.
  destruct (InsertRows_then_WaitUntilCommitted rm_ok batch3 s0 s_after
              (InsertRows rm_ok batch3 s0).1.1 eq_refl)
    as (req & resp & blob & chunk & channel & _ & Hreg & Hb & Hc & Hk & Hall).
  injection Hreg as <-. injection Hb as <-. injection Hc as <-.
  injection Hk as <-.
  assert (Hobs : observes rm_committed (chan s_after) 0 (persisted 42 1))
    by (exists (status_of [persisted 42 1]); split_and!; reflexivity).
  destruct (Hall rm_committed (persisted 42 1) Hobs) as (Hdone & _).
  apply Hdone; [reflexivity|vm_compute; discriminate].
Defined.

Lemma InsertRows_leaves_witness :
  same_identity (chan s0) (chan s_after)
  /\ uploader (shared (world s_after)) = fresh
  /\ requestIDCounter (shared (world s_after)) = 2
  /\ head (InsertRows_events rm_ok batch3 s0)
     = Some (EvBlobPath "pfx_7_844424930131973_1")
  /\ fileMetadata (chan s_after) !! "primaryFileId"
     = Some "pfx_7_844424930131973_1".
Proof.
  destruct (InsertRows_leaves rm_ok batch3 s0 s_after
              (InsertRows rm_ok batch3 s0).1.1
              (InsertRows rm_ok batch3 s0).1.2 eq_refl)
    as (Hid & Hcell & Hcount & _ & _ & _ & Hrows).
  destruct (Hrows batch3 eq_refl) as (Hhead & _ & Hkey & _).
  split_and!; [exact Hid|exact Hcell|exact Hcount|exact Hhead|exact Hkey].
Defined.

Lemma InsertRows_permanent_upload_witness :
  upload_attempts (InsertRows_events rm_denied batch3 s0) = 1%nat
  /\ sleeps (InsertRows_events rm_denied batch3 s0) = []
  /\ registrations (InsertRows_events rm_denied batch3 s0) = 0%nat
  /\ (InsertRows rm_denied batch3 s0).1.2 = Some (ErrMsg "access denied").
Proof.
  apply (InsertRows_permanent_upload rm_denied batch3 s0
           (InsertRows rm_denied batch3 s0).2
           (InsertRows rm_denied batch3 s0).1.1
           (InsertRows rm_denied batch3 s0).1.2
           (ErrPermanent (ErrMsg "access denied")) (ErrMsg "access denied")).
  - reflexivity.
  - vm_compute. discriminate.
  - reflexivity.
  - reflexivity.
Defined.

Lemma WaitUntilCommitted_schedule_witness :
  2 <= Z.of_nat (length (rm_backoff rm_catching_up)) + 1
  /\ sleeps (WaitUntilCommitted_events rm_catching_up s1) = [1]
  /\ last (WaitUntilCommitted_events rm_catching_up s1)
     = Some (EvChannelStatus (poll_request (chan s1))).
Proof.
  destruct (WaitUntilCommitted_schedule rm_catching_up s1
              (WaitUntilCommitted rm_catching_up s1).2 2
              (WaitUntilCommitted rm_catching_up s1).1.2 eq_refl)
    as (Hbound & _ & Hsleeps & _ & Hlast & _).
  split_and!; [exact Hbound|exact Hsleeps|exact Hlast].
Defined.

Lemma WaitUntilCommitted_gives_up_witness :
  (WaitUntilCommitted rm_silent s1).1.1 = 3
  /\ is_Some (WaitUntilCommitted rm_silent s1).1.2
  /\ sleeps (WaitUntilCommitted_events rm_silent s1) = [1; 10].
Proof.
  apply (WaitUntilCommitted_gives_up rm_silent s1
           (WaitUntilCommitted rm_silent s1).2
           (WaitUntilCommitted rm_silent s1).1.1
           (WaitUntilCommitted rm_silent s1).1.2).
  - reflexivity.
  - repeat constructor.
  - intros k e Hanswer. injection Hanswer as <-. reflexivity.
  - intros k _.
    split; intros (st & (resp & Hanswer & _) & _); discriminate Hanswer.
Defined.

Lemma refresh_then_InsertRows_witness :
  uploads (InsertRows_events rm_ok batch3 s_refreshed)
  = replicate (upload_attempts (InsertRows_events rm_ok batch3 s_refreshed))
      ("stage2", InsertRows_blobPath rm_ok s_refreshed,
       padBuffer batch3 aes_BlockSize, md5_Sum (padBuffer batch3 aes_BlockSize))
  /\ (1 <= upload_attempts (InsertRows_events rm_ok batch3 s_refreshed))%nat.
Proof.
  destruct (refresh_then_InsertRows rm_tick rm_ok "ACCOUNTADMIN" (world0 stale)
              (channel 3 0 0) batch3 configured "stage2" eq_refl eq_refl)
    as (_ & _ & Hgood).
  apply (Hgood batch3 batch3 3 (padBuffer batch3 aes_BlockSize)); reflexivity.
Defined.

Lemma WaitUntilCommitted_error_witness :
  (WaitUntilCommitted rm_taken_over s1).1.2
  = Some (ErrMsg "unexpected number of channels for status request: 1").
Proof.
  destruct (WaitUntilCommitted_error rm_taken_over s1
              (WaitUntilCommitted rm_taken_over s1).2 1
              (WaitUntilCommitted rm_taken_over s1).1.2 eq_refl)
    as (Hdiv & _).
  apply Hdiv. exists (persisted 7 5). split; [|vm_compute; discriminate].
  exists (status_of [persisted 7 5]). split_and!; reflexivity.
Defined.

End FurtherRuns.

(** * The chat processor: properties *)

Section ChatProcessor.
Import Ollama.
Context `{Deps}.

(** X15. A processor that [makeOllamaCompletionProcessor] returns has the
    format [json] when the configuration says [json] and the empty format
    when it says [text]; it has a user prompt, a system prompt and an image
    mapping exactly when the configuration contains the field; it saves
    prompts as the configuration says; and its base is what
    [newBaseProcessor] returned. With any other response format, or when
    that field or the save flag cannot be read, the result is an error and
    [newBaseProcessor] is not called. *)
Theorem makeOllamaCompletionProcessor_checks (env : Env) (conf : ParsedConfig)
    (mgr : Resources) :
  let r := makeOllamaCompletionProcessor env conf mgr in
  (forall p, r.1 = inl p ->
     r.2 = true
     /\ env_newBaseProcessor env conf mgr = inl (base p)
     /\ ((conf_FieldString conf "response_format" = inl "json" /\ format p = "json")
         \/ (conf_FieldString conf "response_format" = inl "text" /\ format p = ""))
     /\ (is_Some (userPrompt p) <-> conf_Contains conf "prompt" = true)
     /\ (is_Some (systemPrompt p) <-> conf_Contains conf "system_prompt" = true)
     /\ (is_Some (image p) <-> conf_Contains conf "image" = true)
     /\ conf_FieldBool conf "save_prompt_metadata" = inl (savePrompt p))
  /\ (forall fmt, conf_FieldString conf "response_format" = inl fmt ->
        fmt <> "json" -> fmt <> "text" ->
        (exists e, r.1 = inr e) /\ r.2 = false)
  /\ (forall e, conf_FieldString conf "response_format" = inr e ->
        (exists e', r.1 = inr e') /\ r.2 = false)
  /\ (forall e, conf_FieldBool conf "save_prompt_metadata" = inr e ->
        (exists e', r.1 = inr e') /\ r.2 = false)
  /\ (r.2 = false -> exists e, r.1 = inr e).
Proof.
  intros r. subst r.
  unfold makeOllamaCompletionProcessor, optional_field,
    ocpFieldUserPrompt, ocpFieldSystemPrompt, ocpFieldImage,
    ocpFieldResponseFormat, ocpFieldEmitPromptMetadata.
  split_and!.
  - intros p Hres. repeat case_match; simplify_eq/=.
    all: split_and!; try done;
      try (by left); try (by right);
      split; try done; try (by intros [? ?]); by eexists.
  - intros fmt Hfmt Hj Ht. rewrite Hfmt.
    rewrite (decide_False (P := fmt = "json")) by done.
    rewrite (decide_False (P := fmt = "text")) by done.
    repeat case_match; simplify_eq/=; by split; [eexists|].
  - intros e He. rewrite He.
    repeat case_match; simplify_eq/=; by split; [eexists|].
  - intros e He. rewrite He.
    repeat case_match; simplify_eq/=; by split; [eexists|].
  - intros Hcalled. repeat case_match; simplify_eq/=; by eexists.
Qed.

Lemma foldl_last_content (resps : list api_ChatResponse) (g : string) :
  foldl (fun _ resp => Content (resp_Message resp)) g resps
  = default g ((fun resp => Content (resp_Message resp)) <$> last resps).
Proof.
  destruct resps as [|resp resps _] using rev_ind; [done|].
  by rewrite foldl_app, last_snoc.
Qed.

(** What the evaluations of [Process] rest on. *)
Lemma evalSystemPrompt_inl (env : Env) (o : ollamaCompletionProcessor)
    (msg : Message) (sp : string) :
  evalSystemPrompt env o msg = inl sp ->
  (systemPrompt o = None -> sp = "")
  /\ (forall i, systemPrompt o = Some i -> env_TryString env i msg = inl sp).
Proof.
  unfold evalSystemPrompt. destruct (systemPrompt o) as [i|].
  - intros Hsp. split; [done|]. by intros i' [= <-].
  - intros [= <-]. by split.
Qed.

Lemma computePrompt_inl (env : Env) (o : ollamaCompletionProcessor)
    (msg : Message) (up : string) :
  computePrompt env o msg = inl up ->
  (forall i, userPrompt o = Some i -> env_TryString env i msg = inl up)
  /\ (userPrompt o = None ->
      exists b, AsBytes msg = inl b
                /\ utf8_Valid (slice_bytes b) = true
                /\ bytes_of_string up = slice_bytes b).
Proof.
  unfold computePrompt. destruct (userPrompt o) as [i|].
  - intros Hup. split; [|done]. by intros i' [= <-].
  - destruct (AsBytes msg) as [b|e]; [|done].
    destruct (utf8_Valid (slice_bytes b)) eqn:Hvalid; [|done].
    intros [= <-]. split; [done|]. intros _. exists b. split_and!; try done.
    apply String.list_byte_of_string_of_list_byte.
Qed.

Lemma evalImage_inl (env : Env) (o : ollamaCompletionProcessor)
    (msg : Message) (img : slice) :
  evalImage env o msg = Returns (inl img) ->
  (image o = None -> img = slice_nil)
  /\ (forall ex, image o = Some ex ->
        exists q, env_BloblangQuery env msg ex = inl (Some q)
                  /\ AsBytes q = inl img).
Proof.
  unfold evalImage. destruct (image o) as [ex|].
  - destruct (env_BloblangQuery env msg ex) as [[q|]|e] eqn:Hex; [|done..].
    destruct (AsBytes q) as [b|e] eqn:Hq; [|done].
    intros [= <-]. split; [done|]. intros ex' [= <-]. by exists q.
  - intros [= <-]. by split.
Qed.

(** How a call of [Process] ends, along its return statements. *)
Lemma Process_cases (env : Env) (o : ollamaCompletionProcessor) (msg : Message) :
  (exists e, Process env o msg = (Returns (inr e), [])
             /\ (evalSystemPrompt env o msg = inr e
                 \/ (exists sp, evalSystemPrompt env o msg = inl sp)
                    /\ (computePrompt env o msg = inr e
                        \/ (exists up, computePrompt env o msg = inl up)
                           /\ evalImage env o msg = Returns (inr e))))
  \/ (Process env o msg = (Panics, [])
      /\ (exists sp, evalSystemPrompt env o msg = inl sp)
      /\ (exists up, computePrompt env o msg = inl up)
      /\ evalImage env o msg = Panics)
  \/ exists sp up img resps err,
       evalSystemPrompt env o msg = inl sp
       /\ computePrompt env o msg = inl up
       /\ evalImage env o msg = Returns (inl img)
       /\ env_Chat env (client (base o)) (chat_request o sp up img) = (resps, err)
       /\ (Process env o msg).2 = [chat_request o sp up img]
       /\ match err with
          | Some e => (Process env o msg).1 = Returns (inr e)
          | None =>
              (Process env o msg).1
              = Returns
                  (inl [ let m := SetBytes (bytes_of_string (reply_content resps))
                                    msg in
                         if savePrompt o then
                           MetaSet "prompt" up
                             (if decide (sp <> "") then
                                MetaSet "system_prompt" sp m
                              else m)
                         else m ])
          end.
Proof.
  unfold Process, generateCompletion.
  destruct (evalSystemPrompt env o msg) as [sp|e]; [|left; eauto].
  destruct (computePrompt env o msg) as [up|e]; [|left; eauto 10].
  destruct (evalImage env o msg) as [[img|e]|];
    [|left; eauto 10|right; left; eauto 10].
  right; right. exists sp, up, img.
  destruct (env_Chat env (client (base o)) (chat_request o sp up img))
    as [resps [e|]]; eexists _, _; split_and!; try done.
  simpl. unfold reply_content. by rewrite foldl_last_content.
Qed.

(** X16. [Process] sends at most one chat request. It sends none and
    returns the error when the system prompt cannot be interpolated; then
    when the prompt cannot be interpolated or, with no prompt configured,
    when the payload cannot be read or is not valid UTF-8; then, with an image
    mapping configured, when the mapping fails or its result cannot be read
    as bytes, with an error that wraps the cause. When the mapping yields no
    message, [Process] panics, having sent nothing. When it returns a batch
    it has sent exactly one request and the batch holds exactly one
    message. *)
Theorem Process_chat_calls (env : Env) (o : ollamaCompletionProcessor)
    (msg : Message) :
  let r := Process env o msg in
  let system_ok :=
    forall i, systemPrompt o = Some i ->
      exists sp, env_TryString env i msg = inl sp in
  let prompt_ok :=
    (forall i, userPrompt o = Some i ->
       exists up, env_TryString env i msg = inl up)
    /\ (userPrompt o = None ->
        exists b, AsBytes msg = inl b /\ utf8_Valid (slice_bytes b) = true) in
  (length r.2 <= 1)%nat
  /\ (forall i e, systemPrompt o = Some i -> env_TryString env i msg = inr e ->
        r = (Returns (inr e), []))
  /\ (system_ok ->
      (forall i e, userPrompt o = Some i -> env_TryString env i msg = inr e ->
         r = (Returns (inr e), []))
      /\ (forall e, userPrompt o = None -> AsBytes msg = inr e ->
            r = (Returns (inr e), []))
      /\ (forall b, userPrompt o = None -> AsBytes msg = inl b ->
            utf8_Valid (slice_bytes b) = false ->
            r = (Returns (inr (ErrMsg "message payload contained invalid UTF8")),
                 [])))
  /\ (forall b, userPrompt o = None -> AsBytes msg = inl b ->
        utf8_Valid (slice_bytes b) = false ->
        r.2 = [] /\ exists e, r.1 = Returns (inr e))
  /\ (system_ok -> prompt_ok -> forall ex, image o = Some ex ->
      (forall e, env_BloblangQuery env msg ex = inr e ->
         r = (Returns (inr (ErrWrap "unable to execute bloblang for `image`: " e)),
              []))
      /\ (env_BloblangQuery env msg ex = inl None -> r = (Panics, []))
      /\ (forall q e, env_BloblangQuery env msg ex = inl (Some q) ->
            AsBytes q = inr e ->
            r = (Returns
                   (inr (ErrWrap
                           "unable to convert `image` result to a byte array: "
                           e)),
                 [])))
  /\ (forall batch, r.1 = Returns (inl batch) ->
        length r.2 = 1%nat /\ length batch = 1%nat).
Proof.
  intros r system_ok prompt_ok. subst r system_ok prompt_ok.
  assert (Hsystem :
    (forall i, systemPrompt o = Some i ->
       exists sp, env_TryString env i msg = inl sp) ->
    exists sp, evalSystemPrompt env o msg = inl sp).
  { unfold evalSystemPrompt. destruct (systemPrompt o) as [i|]; [|by eexists].
    intros Hok. by apply Hok. }
  assert (Hprompt :
    (forall i, userPrompt o = Some i ->
       exists up, env_TryString env i msg = inl up)
    /\ (userPrompt o = None ->
        exists b, AsBytes msg = inl b /\ utf8_Valid (slice_bytes b) = true) ->
    exists up, computePrompt env o msg = inl up).
  { unfold computePrompt. intros [Hsome Hnone].
    destruct (userPrompt o) as [i|]; [by apply Hsome|].
    destruct (Hnone eq_refl) as (b & -> & ->). by eexists. }
  split_and!.
  - destruct (Process_cases env o msg)
      as [(e & -> & _)|[(-> & _)
         |(sp & up & img & resps & err & _ & _ & _ & _ & -> & _)]];
      simpl; lia.
  - intros i e Hi He. unfold Process, evalSystemPrompt. by rewrite Hi, He.
  - intros Hok. destruct (Hsystem Hok) as [sp Hsp].
    unfold Process. rewrite Hsp. unfold computePrompt. split_and!.
    + intros i e -> He. by rewrite He.
    + intros e -> He. by rewrite He.
    + intros b -> Hb Hinvalid. by rewrite Hb, Hinvalid.
  - intros b Hnone Hb Hinvalid.
    assert (Hup : computePrompt env o msg
                  = inr (ErrMsg "message payload contained invalid UTF8")).
    { unfold computePrompt. by rewrite Hnone, Hb, Hinvalid. }
    unfold Process. destruct (evalSystemPrompt env o msg) as [sp|e].
    + rewrite Hup. by split; [|eexists].
    + by split; [|eexists].
  - intros Hok Hok' ex Hex.
    destruct (Hsystem Hok) as [sp Hsp]. destruct (Hprompt Hok') as [up Hup].
    unfold Process, evalImage. rewrite Hsp, Hup, Hex. split_and!.
    + intros e He. by rewrite He.
    + intros He. by rewrite He.
    + intros q e He Hq. by rewrite He, Hq.
  - intros batch Hbatch.
    destruct (Process_cases env o msg)
      as [(e & Heq & _)|[(Heq & _)
         |(sp & up & img & resps & err & _ & _ & _ & _ & Hsent & Hres)]].
    + by rewrite Heq in Hbatch.
    + by rewrite Heq in Hbatch.
    + rewrite Hsent. destruct err as [e|]; rewrite Hres in Hbatch; [done|].
      by injection Hbatch as <-.
Qed.

(** X17. The message [Process] returns carries, as its payload, the bytes of
    the content of the last response of the chat endpoint (nothing when
    there was none). When prompts are not saved its metadata is the metadata
    of the input message. When they are, the key [prompt] holds the prompt
    that was sent, the key [system_prompt] holds the system prompt when that
    is not empty and is left as it was otherwise, and every other key is
    left as it was. The system prompt, the prompt and the image of the
    request are what the interpolations and the mapping of the processor
    gave on the message. *)
Theorem Process_output (env : Env) (o : ollamaCompletionProcessor)
    (msg : Message) (batch : list Message) :
  (Process env o msg).1 = Returns (inl batch) ->
  exists sp up img resps m,
    evalSystemPrompt env o msg = inl sp
    /\ computePrompt env o msg = inl up
    /\ evalImage env o msg = Returns (inl img)
    /\ env_Chat env (client (base o)) (chat_request o sp up img) = (resps, None)
    /\ batch = [m]
    /\ msg_body m = body_raw (bytes_of_string (reply_content resps))
    /\ (savePrompt o = false -> msg_meta m = msg_meta msg)
    /\ (savePrompt o = true ->
        msg_meta m !! "prompt" = Some up
        /\ (sp <> "" -> msg_meta m !! "system_prompt" = Some sp)
        /\ (sp = "" ->
            msg_meta m !! "system_prompt" = msg_meta msg !! "system_prompt")
        /\ forall k, k <> "prompt" -> k <> "system_prompt" ->
             msg_meta m !! k = msg_meta msg !! k)
    /\ (systemPrompt o = None -> sp = "")
    /\ (forall i, systemPrompt o = Some i -> env_TryString env i msg = inl sp)
    /\ (forall i, userPrompt o = Some i -> env_TryString env i msg = inl up)
    /\ (image o = None -> img = slice_nil)
    /\ (forall ex, image o = Some ex ->
          exists q, env_BloblangQuery env msg ex = inl (Some q)
                    /\ AsBytes q = inl img).
Proof.
  intros Hbatch.
  destruct (Process_cases env o msg)
    as [(e & Heq & _)|[(Heq & _)
       |(sp & up & img & resps & err & Hsp & Hup & Himg & Hchat & _ & Hres)]].
  { by rewrite Heq in Hbatch. }
  { by rewrite Heq in Hbatch. }
  destruct err as [e|]; rewrite Hres in Hbatch; [done|].
  injection Hbatch as <-.
  destruct (evalSystemPrompt_inl env o msg sp Hsp) as [Hsp1 Hsp2].
  destruct (computePrompt_inl env o msg up Hup) as [Hup1 _].
  destruct (evalImage_inl env o msg img Himg) as [Himg1 Himg2].
  eexists sp, up, img, resps, _.
  split_and!; [done|done|done|done|reflexivity| | |
              |exact Hsp1|exact Hsp2|exact Hup1|exact Himg1|exact Himg2].
  - by destruct (savePrompt o), (decide (sp <> "")).
  - by intros ->.
  - intros ->. split_and!.
    + destruct (decide (sp <> "")); simpl; by rewrite lookup_insert_eq.
    + intros Hsp'. rewrite decide_True by done. simpl.
      by rewrite lookup_insert_ne, lookup_insert_eq.
    + intros ->. simpl. by rewrite lookup_insert_ne.
    + intros k Hk1 Hk2. destruct (decide (sp <> "")); simpl;
        by rewrite ?lookup_insert_ne.
Qed.

(** X18. Every chat request [Process] sends is not streamed, names the model
    and the options of the base processor and the format of the processor,
    and ends with the user message. The content of the user message is what
    the prompt of the processor interpolates to on the message or, with no
    prompt configured, byte for byte the payload of the message, which is
    valid UTF-8. Before the user message comes nothing, or one system message
    with what the system prompt of the processor interpolates to, which is
    then not empty. With no image mapping the user message carries no image;
    with one, the mapping yielded a message whose bytes could be read, and
    the user message carries those bytes as its one image, or no image when
    they are a nil slice. *)
Theorem Process_request (env : Env) (o : ollamaCompletionProcessor)
    (msg : Message) (req : api_ChatRequest) :
  req ∈ (Process env o msg).2 ->
  exists sp up img user,
    (systemPrompt o = None -> sp = "")
    /\ (forall i, systemPrompt o = Some i -> env_TryString env i msg = inl sp)
    /\ computePrompt env o msg = inl up
    /\ (forall i, userPrompt o = Some i -> env_TryString env i msg = inl up)
    /\ (userPrompt o = None ->
        exists b, AsBytes msg = inl b
                  /\ utf8_Valid (slice_bytes b) = true
                  /\ bytes_of_string up = slice_bytes b)
    /\ (image o = None -> img = slice_nil)
    /\ (forall ex, image o = Some ex ->
          exists q, env_BloblangQuery env msg ex = inl (Some q)
                    /\ AsBytes q = inl img)
    /\ req_Stream req = Some false
    /\ req_Model req = model (base o)
    /\ req_Options req = opts (base o)
    /\ req_Format req = format o
    /\ last (req_Messages req) = Some user
    /\ Role user = "user" /\ Content user = up
    /\ Images user = match img with slice_nil => [] | slice_of b => [b] end
    /\ (sp = "" -> req_Messages req = [user])
    /\ (sp <> "" ->
        req_Messages req
        = [ {| Role := "system"; Content := sp; Images := [] |}; user ]).
Proof.
  intros Hin.
  destruct (Process_cases env o msg)
    as [(e & Heq & _)|[(Heq & _)
       |(sp & up & img & resps & err & Hsp & Hup & Himg & _ & Hsent & _)]].
  { rewrite Heq in Hin. by apply elem_of_nil in Hin. }
  { rewrite Heq in Hin. by apply elem_of_nil in Hin. }
  rewrite Hsent in Hin. apply list_elem_of_singleton in Hin. subst req.
  destruct (evalSystemPrompt_inl env o msg sp Hsp) as [Hsp1 Hsp2].
  destruct (computePrompt_inl env o msg up Hup) as [Hup1 Hup2].
  destruct (evalImage_inl env o msg img Himg) as [Himg1 Himg2].
  exists sp, up, img,
    {| Role := "user"; Content := up;
       Images := match img with slice_nil => [] | slice_of b => [b] end |}.
  split_and!; [exact Hsp1|exact Hsp2|exact Hup|exact Hup1|exact Hup2
              |exact Himg1|exact Himg2|done|done|done|done
              | |done|done|done| |].
  - simpl. by rewrite last_snoc.
  - by intros ->.
  - intros Hne. simpl. by rewrite decide_True.
Qed.

End ChatProcessor.

(** * The chat processor at concrete runs *)

Section ChatRuns.
Import Ollama Ollama.Demo.

#[local] Existing Instance Ollama.Demo.deps.

Lemma Process_output_witness :
  (Process echo proc_json hello).1 = Returns (inl [answered])
  /\ msg_body answered = body_raw (bytes_of_string "hello")
  /\ msg_meta answered !! "prompt" = Some "hello"
  /\ msg_meta answered !! "system_prompt" = Some "be brief"
  /\ msg_meta answered !! "topic" = msg_meta hello !! "topic".
Proof.
  destruct (Process_output echo proc_json hello [answered] eq_refl)
    as (sp & up & img & resps & m & Hsp & Hup & _ & _ & Hm & _ & _ & Hsave & _).
  injection Hsp as <-. injection Hup as <-. injection Hm as <-.
  destruct (Hsave eq_refl) as (Hprompt & Hsystem & _ & Hother).
  split_and!; [reflexivity|reflexivity|exact Hprompt| |].
  - apply Hsystem. discriminate.
  - apply Hother; discriminate.
Defined.

Lemma Process_request_witness :
  exists user,
    last (req_Messages (chat_request proc_image "" "hello"
                          (slice_of (bytes_of_string "png"))))
    = Some user
    /\ Content user = "hello"
    /\ Images user = [bytes_of_string "png"].
Proof.
  assert (Hin : chat_request proc_image "" "hello"
                  (slice_of (bytes_of_string "png"))
                ∈ (Process echo proc_image hello).2)
    by (apply (list_elem_of_lookup_2 _ 0%nat); reflexivity).
  destruct (Process_request echo proc_image hello _ Hin)
    as (sp & up & img & user & _ & _ & Hup & _ & _ & _ & Himg & _ & _ & _ & _
        & Hlast & _ & Hcontent & Himages & _).
  injection Hup as <-.
  destruct (Himg (bytes_of_string "png") eq_refl) as (q & Hq & Hbytes).
  injection Hq as <-. injection Hbytes as <-.
  exists user. split_and!; [exact Hlast|exact Hcontent|exact Himages].
Defined.

End ChatRuns.
